(** * cow: the domain classifier of [domainset.go]

    A shallow embedding of [domainset.go] (package [main] of the cow proxy):
    the concurrent domain sets, the aggregate [DomainSet] with its lookup
    precedence and learning operations, and the load/store of newline
    separated domain lists.  The development is sequential: every method is
    run to completion before the next one starts, so the [sync.RWMutex] of
    [paraDmSet] does not appear. *)

From Stdlib Require Import ZArith String Ascii List Lia.
From stdpp Require Import base option list gmap strings sorting.

Open Scope string_scope.
Open Scope Z_scope.

(** ** Go maps used as sets *)

(** [type dmSet map[string]bool].  The source reads such a map in two ways:
    by index, [ds[k]], which yields the stored boolean and [false] for a
    missing key, and by the comma-ok form, [_, ok := ds[k]], which tells
    whether the key is present. *)
Abbreviation dmSet := (gmap string bool).

Definition newDmSet : dmSet := ∅.

Definition dmIndex (ds : dmSet) (k : string) : bool :=
  default false (ds !! k).

Definition dmOk (ds : dmSet) (k : string) : bool :=
  bool_decide (is_Some (ds !! k)).

(** [for _, v := range lst { ds[v] = true }] *)
Fixpoint addList (lst : list string) (ds : dmSet) : dmSet :=
  match lst with
  | [] => ds
  | v :: lst' => addList lst' (<[v := true]> ds)
  end.

(** The keys of a map in the order in which [range] visits them.  Go leaves
    that order unspecified; the model fixes one enumeration, and the results
    below that depend on an enumeration are stated up to permutation. *)
Definition rangeKeys (ds : dmSet) : list string := (map_to_list ds).*1.

(** [toSlice]: the keys, one slot each. *)
Definition toSlice (ds : dmSet) : list string := rangeKeys ds.

(** Every value the program stores in a [dmSet] is [true]. *)
Definition dmAllTrue (ds : dmSet) : Prop :=
  ∀ k v, ds !! k = Some v → v = true.

(** [paraDmSet]: a [dmSet] behind a read-write lock. *)
Module ParaDmSet.
Definition newParaDmSet : dmSet := newDmSet.
Definition add (dm : string) (ds : dmSet) : dmSet := <[dm := true]> ds.
Definition has (ds : dmSet) (dm : string) : bool := dmOk ds dm.
Definition del (dm : string) (ds : dmSet) : dmSet := delete dm ds.
End ParaDmSet.

(** ** The time-expiring set *)

Module TimeoutSet.
(** Modelled from the spec: [TimeoutSet], [NewTimeoutSet] and the methods
    [has] and [add] are declared in another file of the package.  Entries
    are (domain, insertion time) pairs; a domain is a member while
    [now < insertion time + TTL]; adding a domain that is still a member
    does nothing.  Times and durations are nanosecond counts, as in Go's
    [time] package; [now] is the clock reading taken by the call.  The
    reclaiming of expired pairs is left out: [has] does not show it at
    the clock reading of the call or at a later one. *)
Record t : Type := mk { time : gmap string Z; timeout : Z }.

(** Modelled from the spec: the constructor, empty, with the TTL [d]. *)
Definition NewTimeoutSet (d : Z) : t := {| time := ∅; timeout := d |}.

(** Modelled from the spec: [has] is true only if the domain was inserted
    and the TTL has not elapsed since. *)
Definition has (ts : t) (key : string) (now : Z) : bool :=
  match time ts !! key with
  | Some t0 => bool_decide (now < t0 + timeout ts)
  | None => false
  end.

(** Modelled from the spec: [add] records the domain with the insertion
    time [now]; for a domain that is still live it is a no-op. *)
Definition add (key : string) (now : Z) (ts : t) : t :=
  if has ts key now then ts
  else {| time := <[key := now]> (time ts); timeout := timeout ts |}.
End TimeoutSet.

(** [const chouTimeout = 2 * time.Minute] *)
Definition chouTimeout : Z := 2 * (60 * 1000000000).

(** ** Requests, configuration, the classifier state *)

(** The parsed request target: the fields of [URL] that this file reads.
    The method [HostIsIP] is a parameter of the development. *)
Record URL : Type := mkURL {
  Domain : string;
  Host : string;
  HostPort : string
}.

(** The two switches of the global [config] read here. *)
Record Config : Type := mkConfig {
  UpdateBlocked : bool;
  UpdateDirect : bool
}.

Record DomainSet : Type := mkDomainSet {
  direct : dmSet;
  blocked : dmSet;
  blockedChanged : bool;
  directChanged : bool;
  alwaysBlocked : dmSet;
  alwaysDirect : dmSet;
  chouSet : TimeoutSet.t
}.

Definition newDomainSet : DomainSet :=
  {| direct := ParaDmSet.newParaDmSet;
     blocked := ParaDmSet.newParaDmSet;
     blockedChanged := false;
     directChanged := false;
     alwaysBlocked := newDmSet;
     alwaysDirect := newDmSet;
     chouSet := TimeoutSet.NewTimeoutSet chouTimeout |}.

Definition set_direct (f : dmSet → dmSet) (ds : DomainSet) : DomainSet :=
  {| direct := f (direct ds); blocked := blocked ds;
     blockedChanged := blockedChanged ds; directChanged := directChanged ds;
     alwaysBlocked := alwaysBlocked ds; alwaysDirect := alwaysDirect ds;
     chouSet := chouSet ds |}.

Definition set_blocked (f : dmSet → dmSet) (ds : DomainSet) : DomainSet :=
  {| direct := direct ds; blocked := f (blocked ds);
     blockedChanged := blockedChanged ds; directChanged := directChanged ds;
     alwaysBlocked := alwaysBlocked ds; alwaysDirect := alwaysDirect ds;
     chouSet := chouSet ds |}.

Definition set_blockedChanged (b : bool) (ds : DomainSet) : DomainSet :=
  {| direct := direct ds; blocked := blocked ds;
     blockedChanged := b; directChanged := directChanged ds;
     alwaysBlocked := alwaysBlocked ds; alwaysDirect := alwaysDirect ds;
     chouSet := chouSet ds |}.

Definition set_directChanged (b : bool) (ds : DomainSet) : DomainSet :=
  {| direct := direct ds; blocked := blocked ds;
     blockedChanged := blockedChanged ds; directChanged := b;
     alwaysBlocked := alwaysBlocked ds; alwaysDirect := alwaysDirect ds;
     chouSet := chouSet ds |}.

Definition set_alwaysBlocked (f : dmSet → dmSet) (ds : DomainSet) : DomainSet :=
  {| direct := direct ds; blocked := blocked ds;
     blockedChanged := blockedChanged ds; directChanged := directChanged ds;
     alwaysBlocked := f (alwaysBlocked ds); alwaysDirect := alwaysDirect ds;
     chouSet := chouSet ds |}.

Definition set_alwaysDirect (f : dmSet → dmSet) (ds : DomainSet) : DomainSet :=
  {| direct := direct ds; blocked := blocked ds;
     blockedChanged := blockedChanged ds; directChanged := directChanged ds;
     alwaysBlocked := alwaysBlocked ds; alwaysDirect := f (alwaysDirect ds);
     chouSet := chouSet ds |}.

Definition set_chouSet (f : TimeoutSet.t → TimeoutSet.t) (ds : DomainSet)
  : DomainSet :=
  {| direct := direct ds; blocked := blocked ds;
     blockedChanged := blockedChanged ds; directChanged := directChanged ds;
     alwaysBlocked := alwaysBlocked ds; alwaysDirect := alwaysDirect ds;
     chouSet := f (chouSet ds) |}.

(** ** Queries *)

Section Queries.
(** [debug]: the package's debug switch.  [splitHostPort]: the helper the
    debug assertion of the lookups calls; only the port it returns is
    looked at. *)
Variable debug : bool.
Variable splitHostPort : string → string * string.

Definition isURLInAlwaysDs (ds : DomainSet) (url : URL) : bool :=
  bool_decide (Domain url = "")
  || dmIndex (alwaysDirect ds) (Host url)
  || dmIndex (alwaysDirect ds) (Domain url)
  || dmIndex (alwaysBlocked ds) (Host url)
  || dmIndex (alwaysBlocked ds) (Domain url).

Definition isURLAlwaysDirect (ds : DomainSet) (url : URL) : bool :=
  if bool_decide (Domain url = "") then true
  else dmIndex (alwaysDirect ds) (Host url)
       || dmIndex (alwaysDirect ds) (Domain url).

Definition isURLAlwaysBlocked (ds : DomainSet) (url : URL) : bool :=
  if bool_decide (Domain url = "") then false
  else dmIndex (alwaysBlocked ds) (Host url)
       || dmIndex (alwaysBlocked ds) (Domain url).

(** The debug assertion shared by the two lookups: with [debug] on, a
    name that still carries a port makes the lookup panic. *)
Definition portPanics (s : string) : bool :=
  debug && negb (bool_decide ((splitHostPort s).2 = "")).

(** [None] is the panic. *)
Definition lookupBlocked (ds : DomainSet) (now : Z) (s : string)
  : option bool :=
  if portPanics s then None
  else if dmIndex (alwaysDirect ds) s then Some false
  else if dmIndex (alwaysBlocked ds) s then Some true
  else if TimeoutSet.has (chouSet ds) s now then Some true
  else Some (ParaDmSet.has (blocked ds) s).

(** Go's [||] evaluates its right operand only when the left is false. *)
Definition isURLBlocked (ds : DomainSet) (now : Z) (url : URL)
  : option bool :=
  if bool_decide (Domain url = "") then Some false
  else b ← lookupBlocked ds now (Host url);
       if b : bool then Some true else lookupBlocked ds now (Domain url).

Definition lookupDirect (ds : DomainSet) (s : string) : option bool :=
  if portPanics s then None
  else if dmIndex (alwaysDirect ds) s then Some true
  else if dmIndex (alwaysBlocked ds) s then Some false
  else Some (ParaDmSet.has (direct ds) s).

Definition isURLDirect (ds : DomainSet) (url : URL) : option bool :=
  if bool_decide (Domain url = "") then Some true
  else b ← lookupDirect ds (Host url);
       if b : bool then Some true else lookupDirect ds (Domain url).

(** The debug assertion passes for both names of a request. *)
Definition portsOk (url : URL) : Prop :=
  portPanics (Host url) = false ∧ portPanics (Domain url) = false.
End Queries.


(** ** The world around the classifier *)

(** The three loggers of the package ([info], [debug], [errl]); a log entry
    is the text handed to one of them. *)
Inductive Logger : Type := Info | Debug | Errl.

Record LogEntry : Type := Log { sink : Logger; text : string }.

(** Errors of the file operations.  [io_EOF] is Go's [io.EOF];
    [PathError] and [LinkError] are the errors of package [os], which name
    the operation and its paths in front of the underlying error. *)
Inductive error : Type :=
  | io_EOF
  | ErrNotExist
  | ErrExist
  | ErrOther (s : string)
  | PathError (op path : string) (err : error)
  | LinkError (op oldname newname : string) (err : error).

Fixpoint Error (e : error) : string :=
  match e with
  | io_EOF => "EOF"
  | ErrNotExist => "no such file or directory"
  | ErrExist => "file already exists"
  | ErrOther s => s
  | PathError op path err => op ++ " " ++ path ++ ": " ++ Error err
  | LinkError op oldname newname err =>
      op ++ " " ++ oldname ++ " " ++ newname ++ ": " ++ Error err
  end.

(** The line feed and the carriage return. *)
Definition LF : string := String "010"%char "".
Definition CR : string := String "013"%char "".

(** The file system: regular files by path, each with its contents.  Paths
    name files by their spelling. *)
Abbreviation FS := (gmap string string).

(** The package globals this file reads and writes: the classifier
    [domainSet], the seed lists [blockedDomainList] and [directDomainList],
    together with the files on disk and the lines logged so far (oldest
    first). *)
Record World : Type := mkWorld {
  domainSet : DomainSet;
  files : FS;
  logged : list LogEntry;
  blockedDomainList : list string;
  directDomainList : list string
}.

(** The paths kept in the global [dsFile]. *)
Record DsFile : Type := mkDsFile {
  dsDir : string;
  dsBlocked : string;
  dsDirect : string;
  dsAlwaysBlocked : string;
  dsAlwaysDirect : string
}.

(** A method body: it runs in a world, returns a value and leaves a world. *)
Definition M (A : Type) : Type := World → A * World.

#[export] Instance M_ret : MRet M := λ A (a : A) w, (a, w).
#[export] Instance M_bind : MBind M :=
  λ A B (f : A → M B) (m : M A) w, let '(a, w') := m w in f a w'.

Definition getDs : M DomainSet := λ w, (domainSet w, w).

Definition modifyDs (f : DomainSet → DomainSet) : M unit := λ w,
  (tt, {| domainSet := f (domainSet w); files := files w;
          logged := logged w; blockedDomainList := blockedDomainList w;
          directDomainList := directDomainList w |}).

Definition getFiles : M FS := λ w, (files w, w).

Definition modifyFiles (f : FS → FS) : M unit := λ w,
  (tt, {| domainSet := domainSet w; files := f (files w);
          logged := logged w; blockedDomainList := blockedDomainList w;
          directDomainList := directDomainList w |}).

Definition Printf (l : Logger) (s : string) : M unit := λ w,
  (tt, {| domainSet := domainSet w; files := files w;
          logged := logged w ++ [Log l s];
          blockedDomainList := blockedDomainList w;
          directDomainList := directDomainList w |}).

(** [ds.blocked.addList(blockedDomainList); blockedDomainList = nil] *)
Definition takeBlockedDomainList : M (list string) := λ w,
  (blockedDomainList w,
   {| domainSet := domainSet w; files := files w; logged := logged w;
      blockedDomainList := []; directDomainList := directDomainList w |}).

Definition takeDirectDomainList : M (list string) := λ w,
  (directDomainList w,
   {| domainSet := domainSet w; files := files w; logged := logged w;
      blockedDomainList := blockedDomainList w; directDomainList := [] |}).

Definition exec {A} (m : M A) (w : World) : World := (m w).2.
Definition eval {A} (m : M A) (w : World) : A := (m w).1.

(** ** Learning *)

Section Learning.
Variable config : Config.
(** [url.HostIsIP()] *)
Variable HostIsIP : URL → bool.

(** One clock reading [now] serves the [has] and the [add] of a call. *)
Definition addChouURL (now : Z) (url : URL) : M bool :=
  ds ← getDs;
  if isURLAlwaysDirect ds url || bool_decide (Domain url = "") || HostIsIP url
  then mret false
  else
    (if negb (TimeoutSet.has (chouSet ds) (Domain url) now)
     then modifyDs (set_chouSet (TimeoutSet.add (Domain url) now));;
          Printf Info (HostPort url ++ " blocked" ++ LF)
     else mret tt);;
    mret true.

Definition addBlockedURL (now : Z) (url : URL) : M bool :=
  if negb (UpdateBlocked config) then addChouURL now url
  else
    ds ← getDs;
    if isURLAlwaysDirect ds url || bool_decide (Domain url = "") || HostIsIP url
    then mret false
    else if ParaDmSet.has (blocked ds) (Domain url) then mret true
    else
      modifyDs (set_blocked (ParaDmSet.add (Domain url)));;
      modifyDs (set_blockedChanged true);;
      Printf Debug (Domain url ++ " added to blocked list" ++ LF);;
      ds ← getDs;
      (if ParaDmSet.has (direct ds) (Domain url)
       then modifyDs (set_direct (ParaDmSet.del (Domain url)));;
            modifyDs (set_directChanged true);;
            Printf Debug (Domain url ++ " deleted from direct list" ++ LF)
       else mret tt);;
      mret true.

Definition addDirectURL (url : URL) : M bool :=
  if negb (UpdateDirect config) then mret false
  else
    ds ← getDs;
    if isURLInAlwaysDs ds url || bool_decide (Domain url = "")
       || HostIsIP url || ParaDmSet.has (direct ds) (Domain url)
    then mret false
    else
      modifyDs (set_direct (ParaDmSet.add (Domain url)));;
      modifyDs (set_directChanged true);;
      Printf Debug (Domain url ++ " added to direct list" ++ LF);;
      ds ← getDs;
      (if ParaDmSet.has (blocked ds) (Domain url)
       then modifyDs (set_blocked (ParaDmSet.del (Domain url)));;
            modifyDs (set_blockedChanged true);;
            Printf Debug (Domain url ++ " deleted from blocked list" ++ LF)
       else mret tt);;
      mret true.
End Learning.

(** ** Strings and lines *)

(** [strings.Join(lst, sep)] *)
Fixpoint Join (lst : list string) (sep : string) : string :=
  match lst with
  | [] => ""
  | [s] => s
  | s :: lst' => s ++ sep ++ Join lst' sep
  end.

(** The white space of [unicode.IsSpace] in UTF-8: the one-byte runes tab,
    line feed, vertical tab, form feed, carriage return and space; the
    two-byte runes U+0085 and U+00A0; the three-byte runes U+1680, U+2000
    to U+200A, U+2028, U+2029, U+202F, U+205F and U+3000. *)
Definition isSpace1 (a : ascii) : bool := Ascii.is_space a.

Definition isSpace2 (a b : ascii) : bool :=
  (N_of_ascii a =? 194)%N
  && ((N_of_ascii b =? 133)%N || (N_of_ascii b =? 160)%N).

Definition isSpace3 (a b c : ascii) : bool :=
  let '(x, y, z) := (N_of_ascii a, N_of_ascii b, N_of_ascii c) in
  ((x =? 225) && (y =? 154) && (z =? 128))%N
  || ((x =? 226) && (y =? 128)
      && (((128 <=? z) && (z <=? 138)) || (z =? 168) || (z =? 169)
          || (z =? 175)))%N
  || ((x =? 226) && (y =? 129) && (z =? 159))%N
  || ((x =? 227) && (y =? 128) && (z =? 128))%N.

(** Drop the runes at the front of [l] that the three tests accept. *)
Fixpoint trimRunes (p1 : ascii → bool) (p2 : ascii → ascii → bool)
    (p3 : ascii → ascii → ascii → bool) (l : list ascii) : list ascii :=
  match l with
  | [] => []
  | a :: l1 =>
      if p1 a then trimRunes p1 p2 p3 l1
      else match l1 with
           | [] => l
           | b :: l2 =>
               if p2 a b then trimRunes p1 p2 p3 l2
               else match l2 with
                    | [] => l
                    | c :: l3 =>
                        if p3 a b c then trimRunes p1 p2 p3 l3 else l
                    end
           end
  end.

(** [strings.TrimLeftFunc(s, unicode.IsSpace)] *)
Definition TrimLeft (s : string) : string :=
  string_of_list_ascii
    (trimRunes isSpace1 isSpace2 isSpace3 (list_ascii_of_string s)).

(** [strings.TrimRightFunc(s, unicode.IsSpace)]: the same from the far
    end, where the bytes of a rune come last byte first. *)
Definition TrimRight (s : string) : string :=
  string_of_list_ascii
    (reverse (trimRunes isSpace1 (λ b a, isSpace2 a b)
                (λ c b a, isSpace3 a b c)
                (reverse (list_ascii_of_string s)))).

(** [strings.TrimSpace] *)
Definition TrimSpace (s : string) : string := TrimRight (TrimLeft s).

(** [sort.Sort(sort.StringSlice(lst))]: ascending in the byte-wise order of
    Go's string comparison.  The order is total and antisymmetric, so every
    sorting algorithm yields this list ([sortStrings_order] below). *)
Definition sortStrings (lst : list string) : list string :=
  merge_sort String.le lst.

(** The text of a file cut at its line feeds; a final line needs no line
    feed, and nothing follows a final line feed. *)
Fixpoint splitLines (s : string) : list string :=
  match s with
  | "" => []
  | String a s' =>
      if Ascii.eqb a "010"
      then "" :: splitLines s'
      else match splitLines s' with
           | [] => [String a ""]
           | l :: ls => String a l :: ls
           end
  end.

(** Modelled from the spec: [ReadLine] is declared in another file of the
    package.  It is the line-reading utility that yields the trimmed text
    lines of a file and signals the end of the input by [io.EOF], distinctly
    from an error.  The reader is the list of the lines not yet read. *)
Abbreviation Reader := (list string).

(** [bufio.NewReader] on an open file. *)
Definition NewReader (contents : string) : Reader := splitLines contents.

(** Modelled from the spec: [ReadLine] yields the next line, trimmed, or
    [io.EOF] when no line is left. *)
Definition ReadLine (fr : Reader) : string * option error * Reader :=
  match fr with
  | [] => ("", Some io_EOF, [])
  | line :: fr' => (TrimSpace line, None, fr')
  end.

(** ** File operations *)

(** Modelled from the spec: [isFileExists] is declared in another file of
    the package; it is the file-existence check. *)
Definition isFileExists (fpath : string) : M (bool * option error) :=
  fs ← getFiles; mret (bool_decide (is_Some (fs !! fpath)), None).

(** [os.Open]: the contents to read from, or the error. *)
Definition os_Open (fpath : string) : M (string + error) :=
  fs ← getFiles;
  mret (match fs !! fpath with
        | Some c => inl c
        | None => inr (PathError "open" fpath ErrNotExist)
        end).

(** [os.Create]: the file is created, or truncated when it exists; the
    handle is its path. *)
Definition os_Create (fpath : string) : M (string + error) :=
  modifyFiles (<[fpath := ""]>);; mret (inl fpath).

(** [f.WriteString(s)] *)
Definition WriteString (f : string) (s : string) : M unit :=
  modifyFiles (λ fs, <[f := default "" (fs !! f) ++ s]> fs).

(** [os.Remove] *)
Definition os_Remove (fpath : string) : M (option error) :=
  fs ← getFiles;
  match fs !! fpath with
  | Some _ => modifyFiles (delete fpath);; mret None
  | None => mret (Some (PathError "remove" fpath ErrNotExist))
  end.

Section Persistence.
Variable config : Config.
(** The global [dsFile], the line separator [newLine], the answer of
    [isWindows()], the outcome of [mkConfigDir()] (it touches directories
    only) and Go's [path.Join]. *)
Variable dsFile : DsFile.
Variable newLine : string.
Variable isWindows : bool.
Variable mkConfigDir : option error.
Variable path_Join : string → string → string.

(** [os.Rename]: where the platform forbids it, renaming onto another
    existing file fails. *)
Definition os_Rename (oldpath newpath : string) : M (option error) :=
  fs ← getFiles;
  match fs !! oldpath with
  | None => mret (Some (LinkError "rename" oldpath newpath ErrNotExist))
  | Some c =>
      if isWindows && bool_decide (is_Some (fs !! newpath))
         && negb (bool_decide (oldpath = newpath))
      then mret (Some (LinkError "rename" oldpath newpath ErrExist))
      else modifyFiles (λ fs, <[newpath := c]> (delete oldpath fs));; mret None
  end.

(** The loop of [loadDomainList], by recursion on the lines still to read. *)
Fixpoint readDomains (fr : Reader) (lst : list string)
  : list string * option error :=
  match fr with
  | [] => (lst, None)
  | line :: fr' =>
      let domain := TrimSpace line in
      if bool_decide (domain = "") then readDomains fr' lst
      else readDomains fr' (lst ++ [TrimSpace domain])
  end.

(** The results are the named results [lst] and [err] of the source; the
    deferred [f.Close()] leaves the world as it is. *)
Definition loadDomainList (fpath : string) : M (list string * option error) :=
  '(exists_, err) ← isFileExists fpath;
  (if err is Some e
   then Printf Errl ("Error loading domaint list: " ++ Error e ++ LF)
   else mret tt);;
  if negb exists_ then mret ([], err)
  else
    r ← os_Open fpath;
    match r with
    | inr e =>
        Printf Errl ("Error opening domain list " ++ fpath
                     ++ ": %!v(MISSING)" ++ LF);;
        mret ([], Some e)
    | inl contents =>
        let '(lst, err) := readDomains (NewReader contents) [] in
        (if err is Some e
         then Printf Errl ("Error reading domain list " ++ fpath ++ ": "
                           ++ Error e ++ LF)
         else mret tt);;
        mret (lst, err)
    end.

Definition renameTmp (tmpPath fpath : string) : M (option error) :=
  err ← os_Rename tmpPath fpath;
  (if err is Some e
   then Printf Errl ("Error renaming tmp domain list file to " ++ fpath
                     ++ ": " ++ Error e ++ LF)
   else mret tt);;
  mret err.

(** The temporary file is written in full and closed before the rename;
    the result is the named result [err] of the source. *)
Definition storeDomainList (fpath : string) (lst : list string)
  : M (option error) :=
  match mkConfigDir with
  | Some e => mret (Some e)
  | None =>
      let tmpPath := path_Join (dsDir dsFile) "tmpdomain" in
      r ← os_Create tmpPath;
      match r with
      | inr e =>
          Printf Errl ("Error creating tmp domain list: " ++ Error e ++ LF);;
          mret (Some e)
      | inl f =>
          let lst := sortStrings lst in
          let all := Join lst newLine in
          WriteString f all;;
          if isWindows then
            '(exists_, err) ← isFileExists fpath;
            match err with
            | Some e =>
                Printf Errl ("Error removing domain list: " ++ Error e ++ LF);;
                mret (Some e)
            | None =>
                (if exists_ : bool then
                   err ← os_Remove fpath;
                   if err is Some e
                   then Printf Errl ("Error removing domain list " ++ fpath
                                     ++ " for update: " ++ Error e ++ LF)
                   else mret tt
                 else mret tt);;
                renameTmp tmpPath fpath
            end
          else renameTmp tmpPath fpath
      end
  end.

Definition loadFromFile (fpath : string) (ds : dmSet)
  : M (dmSet * option error) :=
  '(lst, err) ← loadDomainList fpath;
  if err is Some _ then mret (ds, err)
  else mret (addList lst ds, err).

Definition storeBlockedDs : M unit :=
  ds ← getDs;
  if negb (UpdateBlocked config) || negb (blockedChanged ds) then mret tt
  else storeDomainList (dsBlocked dsFile) (toSlice (blocked ds));; mret tt.

Definition storeDirectDs : M unit :=
  ds ← getDs;
  if negb (UpdateDirect config) || negb (directChanged ds) then mret tt
  else storeDomainList (dsDirect dsFile) (toSlice (direct ds));; mret tt.

Definition store : M unit := storeBlockedDs;; storeDirectDs.

(** The body of the loop of [filterOutDs] for one key. *)
Definition filterOutKey (k : string) (ds : DomainSet) : DomainSet :=
  let ds1 :=
    if dmIndex (blocked ds) k
    then set_blockedChanged true (set_blocked (delete k) ds) else ds in
  if dmIndex (direct ds1) k
  then set_directChanged true (set_direct (delete k) ds1) else ds1.

Fixpoint filterOutKeys (ks : list string) (ds : DomainSet) : DomainSet :=
  match ks with
  | [] => ds
  | k :: ks' => filterOutKeys ks' (filterOutKey k ds)
  end.

Definition filterOutDs (dmset : dmSet) : M unit :=
  modifyDs (filterOutKeys (rangeKeys dmset)).

(** The first loop of [filterOutBlockedInDirect]. *)
Fixpoint dropBlockedFromDirect (ks : list string) (ds : DomainSet)
  : DomainSet :=
  match ks with
  | [] => ds
  | k :: ks' =>
      dropBlockedFromDirect ks'
        (if dmIndex (direct ds) k
         then set_directChanged true (set_direct (delete k) ds) else ds)
  end.

Definition alwaysConflict (k : string) : string :=
  k ++ " in both always blocked and direct domain lists, taken as blocked."
    ++ LF.

(** The second loop of [filterOutBlockedInDirect]. *)
Fixpoint dropAlwaysBlockedFromDirect (ks : list string) : M unit :=
  match ks with
  | [] => mret tt
  | k :: ks' =>
      ds ← getDs;
      (if dmIndex (alwaysDirect ds) k
       then Printf Errl (alwaysConflict k);;
            modifyDs (set_alwaysDirect (delete k))
       else mret tt);;
      dropAlwaysBlockedFromDirect ks'
  end.

Definition filterOutBlockedInDirect : M unit :=
  ds ← getDs;
  modifyDs (dropBlockedFromDirect (rangeKeys (blocked ds)));;
  ds ← getDs;
  dropAlwaysBlockedFromDirect (rangeKeys (alwaysBlocked ds)).

(** The first eight statements of [load]: the seed lists and the four
    files. *)
Definition loadSets : M unit :=
  lst ← takeBlockedDomainList;
  modifyDs (set_blocked (addList lst));;
  lst ← takeDirectDomainList;
  modifyDs (set_direct (addList lst));;
  ds ← getDs;
  '(m, _) ← loadFromFile (dsBlocked dsFile) (blocked ds);
  modifyDs (set_blocked (λ _, m));;
  ds ← getDs;
  '(m, _) ← loadFromFile (dsDirect dsFile) (direct ds);
  modifyDs (set_direct (λ _, m));;
  ds ← getDs;
  '(m, _) ← loadFromFile (dsAlwaysBlocked dsFile) (alwaysBlocked ds);
  modifyDs (set_alwaysBlocked (λ _, m));;
  ds ← getDs;
  '(m, _) ← loadFromFile (dsAlwaysDirect dsFile) (alwaysDirect ds);
  modifyDs (set_alwaysDirect (λ _, m)).

(** The last three statements of [load]. *)
Definition filterLoaded : M unit :=
  ds ← getDs;
  filterOutDs (alwaysDirect ds);;
  ds ← getDs;
  filterOutDs (alwaysBlocked ds);;
  filterOutBlockedInDirect.

Definition load : M unit := loadSets;; filterLoaded.
End Persistence.

(** ** Vocabulary of the statements *)

(** The name [s] is in none of the five sets; for the time-expiring set
    this means that it is not a member at the time [now]. *)
Definition inNoSet (ds : DomainSet) (now : Z) (s : string) : Prop :=
  alwaysDirect ds !! s = None ∧ alwaysBlocked ds !! s = None
  ∧ direct ds !! s = None ∧ blocked ds !! s = None
  ∧ TimeoutSet.has (chouSet ds) s now = false.

(** The name [s] gives [lookupBlocked] no reason to answer "blocked": it is
    always-direct, or in none of the always-blocked, time-expiring and
    learned-blocked sets. *)
Definition notBlockedName (ds : DomainSet) (now : Z) (s : string) : Prop :=
  dmIndex (alwaysDirect ds) s = true
  ∨ (dmIndex (alwaysBlocked ds) s = false
     ∧ TimeoutSet.has (chouSet ds) s now = false
     ∧ ParaDmSet.has (blocked ds) s = false).

(** A learning call: [addBlockedURL] with the clock reading it takes, or
    [addDirectURL]. *)
Inductive Record : Type :=
  | recordBlocked (now : Z) (url : URL)
  | recordDirect (url : URL).

Section Records.
Variable config : Config.
Variable HostIsIP : URL → bool.

Definition runRecord (r : Record) : M bool :=
  match r with
  | recordBlocked now url => addBlockedURL config HostIsIP now url
  | recordDirect url => addDirectURL config HostIsIP url
  end.

(** The calls of [rs], one after the other. *)
Fixpoint runRecords (rs : list Record) : M unit :=
  match rs with
  | [] => mret tt
  | r :: rs' => runRecord r;; runRecords rs'
  end.
End Records.

(** The name [d] is in both learned sets. *)
Definition inBothLearned (ds : DomainSet) (d : string) : Prop :=
  ParaDmSet.has (blocked ds) d = true ∧ ParaDmSet.has (direct ds) d = true.

(** Two worlds that differ at most in the lines logged. *)
Definition sameButLog (w1 w2 : World) : Prop :=
  domainSet w1 = domainSet w2 ∧ files w1 = files w2
  ∧ blockedDomainList w1 = blockedDomainList w2
  ∧ directDomainList w1 = directDomainList w2.

(** The string holds no line feed. *)
Fixpoint noLF (s : string) : Prop :=
  match s with
  | "" => True
  | String a s' => a ≠ "010"%char ∧ noLF s'
  end.

(** A name as the round trip takes it: not empty, no white space around
    it, no line feed in it. *)
Definition nameOk (e : string) : Prop :=
  e ≠ "" ∧ TrimSpace e = e ∧ noLF e.

(** The line separators of the platforms: a line feed, or a carriage
    return and a line feed. *)
Definition lineSeparator (sep : string) : Prop :=
  sep = LF ∨ sep = CR ++ LF.

(** A method body [m] keeps [R] when every run of it leads from a world to
    a world related to it by [R]. *)
Definition keeps {A} (R : relation World) (m : M A) : Prop :=
  ∀ w, R w (exec m w).

(** The classifier and the seed lists are the same: files and log may
    differ. *)
Definition sameDs : relation World := λ w w',
  domainSet w' = domainSet w
  ∧ blockedDomainList w' = blockedDomainList w
  ∧ directDomainList w' = directDomainList w.

(** Both dirty flags and the files are the same. *)
Definition sameFlags : relation World := λ w w',
  blockedChanged (domainSet w') = blockedChanged (domainSet w)
  ∧ directChanged (domainSet w') = directChanged (domainSet w)
  ∧ files w' = files w.

(** Everything but the always-direct set and the log is the same. *)
Definition sameButAlwaysDirect : relation World := λ w w',
  direct (domainSet w') = direct (domainSet w)
  ∧ blocked (domainSet w') = blocked (domainSet w)
  ∧ blockedChanged (domainSet w') = blockedChanged (domainSet w)
  ∧ directChanged (domainSet w') = directChanged (domainSet w)
  ∧ alwaysBlocked (domainSet w') = alwaysBlocked (domainSet w)
  ∧ chouSet (domainSet w') = chouSet (domainSet w)
  ∧ files w' = files w.

(** A learned set [m0] with its dirty flag [f0] has become [m] with flag
    [f]: names were only taken away, and the flag was raised exactly when
    one was. *)
Definition shrunk (m0 : dmSet) (f0 : bool) (m : dmSet) (f : bool) : Prop :=
  m ⊆ m0 ∧ f = f0 || negb (bool_decide (m = m0)).

(** The part of [load]'s filtering that works on the learned sets: the
    two [filterOutDs] calls and the first loop of
    [filterOutBlockedInDirect]. *)
Definition filterLearned (ds : DomainSet) : DomainSet :=
  let ds1 := filterOutKeys (rangeKeys (alwaysDirect ds)) ds in
  let ds2 := filterOutKeys (rangeKeys (alwaysBlocked ds1)) ds1 in
  dropBlockedFromDirect (rangeKeys (blocked ds2)) ds2.

(** What filtering does to a classifier: the always sets and the
    time-expiring set stay, the learned sets shrink. *)
Definition filtered (ds r : DomainSet) : Prop :=
  alwaysBlocked r = alwaysBlocked ds ∧ alwaysDirect r = alwaysDirect ds
  ∧ chouSet r = chouSet ds
  ∧ shrunk (blocked ds) (blockedChanged ds) (blocked r) (blockedChanged r)
  ∧ shrunk (direct ds) (directChanged ds) (direct r) (directChanged r).

(** ** Sample data for the concrete runs *)

Module Sample.
(** A [splitHostPort] for the samples: the port is what follows the first
    colon. *)
Fixpoint splitHostPort (s : string) : string * string :=
  match s with
  | "" => ("", "")
  | String a s' =>
      if Ascii.eqb a ":" then ("", s')
      else let '(h, p) := splitHostPort s' in (String a h, p)
  end.

(** The one literal IP address among the sample hosts is that of
    [ipURL]. *)
Definition HostIsIP (url : URL) : bool := bool_decide (Host url = "10.0.0.1").

Definition path_Join (dir name : string) : string := dir ++ "/" ++ name.

Definition dsFile : DsFile :=
  {| dsDir := "/home/u/.cow";
     dsBlocked := "/home/u/.cow/blocked";
     dsDirect := "/home/u/.cow/direct";
     dsAlwaysBlocked := "/home/u/.cow/alwaysblocked";
     dsAlwaysDirect := "/home/u/.cow/alwaysdirect" |}.

Definition persistBoth : Config :=
  {| UpdateBlocked := true; UpdateDirect := true |}.
Definition persistNone : Config :=
  {| UpdateBlocked := false; UpdateDirect := false |}.

Definition localhost : URL :=
  {| Domain := ""; Host := "localhost"; HostPort := "localhost:8080" |}.
Definition xCom : URL :=
  {| Domain := "x.com"; Host := "www.x.com"; HostPort := "www.x.com:80" |}.
Definition aCom : URL :=
  {| Domain := "a.com"; Host := "a.com"; HostPort := "a.com:443" |}.
Definition ipURL : URL :=
  {| Domain := "10.0.0.1"; Host := "10.0.0.1"; HostPort := "10.0.0.1:80" |}.
Definition wwwACom : URL :=
  {| Domain := "a.com"; Host := "www.a.com"; HostPort := "www.a.com:443" |}.

(** The world at start-up, with the given files on disk. *)
Definition start (fs : FS) : World :=
  {| domainSet := newDomainSet; files := fs; logged := [];
     blockedDomainList := []; directDomainList := [] |}.

(** [www.a.com] is always-direct by the file, and the direct connection to
    [a.com] has failed once. *)
Definition hostDirectDomainBlocked : World :=
  exec (load dsFile;; addBlockedURL persistBoth HostIsIP 0 aCom)
    (start {[ "/home/u/.cow/alwaysdirect" := "www.a.com" ]}).

(** [x.com] was learned blocked and not yet stored. *)
Definition dirtyBlocked : World :=
  exec (addBlockedURL persistBoth HostIsIP 0 xCom) (start ∅).

(** The files of the conflict scenario. *)
Definition conflictFiles : FS :=
  {[ "/home/u/.cow/alwaysblocked" := "a.com";
     "/home/u/.cow/alwaysdirect" := "a.com" ++ LF ++ "b.com" ]}.

(** A learned-blocked file that names an always-direct domain. *)
Definition staleFiles : FS :=
  {[ "/home/u/.cow/blocked" := "a.com" ++ LF ++ "c.com";
     "/home/u/.cow/alwaysdirect" := "a.com" ]}.
End Sample.

(** One pass of a filtering loop over a set: every key of [ks] that the
    set holds with value [true] is deleted. *)
Definition dropKeys (ks : list string) (m : dmSet) : dmSet :=
  foldl (λ m k, if dmIndex m k then delete k m else m) m ks.

(** ** The classifier after a learning call *)

Section AfterRecord.
Variable config : Config.
Variable HostIsIP : URL → bool.

(** The test that makes [addChouURL] and [addBlockedURL] return [false]. *)
Definition blockGuard (ds : DomainSet) (url : URL) : bool :=
  isURLAlwaysDirect ds url || bool_decide (Domain url = "") || HostIsIP url.

(** The test that makes [addDirectURL] return [false] once
    [config.UpdateDirect] is on. *)
Definition directGuard (ds : DomainSet) (url : URL) : bool :=
  isURLInAlwaysDs ds url || bool_decide (Domain url = "")
  || HostIsIP url || ParaDmSet.has (direct ds) (Domain url).

(** The assignments of [addBlockedURL] past its early returns. *)
Definition learnBlocked (d : string) (ds : DomainSet) : DomainSet :=
  let ds1 := set_blockedChanged true (set_blocked (ParaDmSet.add d) ds) in
  if ParaDmSet.has (direct ds1) d
  then set_directChanged true (set_direct (ParaDmSet.del d) ds1)
  else ds1.

(** The assignments of [addDirectURL] past its early returns. *)
Definition learnDirect (d : string) (ds : DomainSet) : DomainSet :=
  let ds1 := set_directChanged true (set_direct (ParaDmSet.add d) ds) in
  if ParaDmSet.has (blocked ds1) d
  then set_blockedChanged true (set_blocked (ParaDmSet.del d) ds1)
  else ds1.

(** The classifier that [addBlockedURL] leaves. *)
Definition afterBlocked (now : Z) (url : URL) (ds : DomainSet) : DomainSet :=
  if blockGuard ds url then ds
  else if UpdateBlocked config
  then if ParaDmSet.has (blocked ds) (Domain url) then ds
       else learnBlocked (Domain url) ds
  else if TimeoutSet.has (chouSet ds) (Domain url) now then ds
       else set_chouSet (TimeoutSet.add (Domain url) now) ds.

(** The classifier that [addDirectURL] leaves. *)
Definition afterDirect (url : URL) (ds : DomainSet) : DomainSet :=
  if UpdateDirect config && negb (directGuard ds url)
  then learnDirect (Domain url) ds else ds.

Definition afterRecord (r : Record) (ds : DomainSet) : DomainSet :=
  match r with
  | recordBlocked now url => afterBlocked now url ds
  | recordDirect url => afterDirect url ds
  end.
End AfterRecord.

(** Every value held by the four maps of the classifier is [true]. *)
Definition dsAllTrue (ds : DomainSet) : Prop :=
  dmAllTrue (direct ds) ∧ dmAllTrue (blocked ds)
  ∧ dmAllTrue (alwaysBlocked ds) ∧ dmAllTrue (alwaysDirect ds).

(** No name is in both always sets. *)
Definition alwaysApart (ds : DomainSet) : Prop :=
  ∀ k, dmIndex (alwaysBlocked ds) k = true →
       dmIndex (alwaysDirect ds) k = false.

(** The names [loadDomainList] finds under a path. *)
Definition fileNames (fs : FS) (fpath : string) : list string :=
  match fs !! fpath with
  | Some contents => (readDomains (NewReader contents) []).1
  | None => []
  end.

(** The classifier once the seed lists [bl], [dl] and the four files of
    [fs] are read into it. *)
Definition withLoadedSets (dsFile : DsFile) (fs : FS) (bl dl : list string)
    (ds : DomainSet) : DomainSet :=
  {| direct := addList (fileNames fs (dsDirect dsFile))
                 (addList dl (direct ds));
     blocked := addList (fileNames fs (dsBlocked dsFile))
                  (addList bl (blocked ds));
     blockedChanged := blockedChanged ds;
     directChanged := directChanged ds;
     alwaysBlocked := addList (fileNames fs (dsAlwaysBlocked dsFile))
                        (alwaysBlocked ds);
     alwaysDirect := addList (fileNames fs (dsAlwaysDirect dsFile))
                       (alwaysDirect ds);
     chouSet := chouSet ds |}.

(** * Results *)

(** ** Maps *)

Lemma dmIndex_None (ds : dmSet) k : ds !! k = None → dmIndex ds k = false.
Proof. unfold dmIndex. by intros ->. Qed.

Lemma dmOk_None (ds : dmSet) k : ds !! k = None → dmOk ds k = false.
Proof.
  unfold dmOk. intros ->. apply bool_decide_eq_false. by intros [? ?].
Qed.

Lemma dmOk_true (ds : dmSet) k : dmOk ds k = true ↔ is_Some (ds !! k).
Proof. unfold dmOk. by rewrite bool_decide_eq_true. Qed.

Lemma dmOk_false (ds : dmSet) k : dmOk ds k = false ↔ ds !! k = None.
Proof.
  unfold dmOk. rewrite bool_decide_eq_false. by rewrite eq_None_not_Some.
Qed.

Lemma bool_is_Some {A} (x : A) : bool_decide (is_Some (Some x)) = true.
Proof. apply bool_decide_eq_true. by exists x. Qed.

Lemma bool_is_None {A} : bool_decide (is_Some (@None A)) = false.
Proof. apply bool_decide_eq_false. by intros [? ?]. Qed.

Lemma dmIndex_true (ds : dmSet) k : dmIndex ds k = true ↔ ds !! k = Some true.
Proof.
  unfold dmIndex. destruct (ds !! k) as [[]|]; simpl; split; congruence.
Qed.

(** On a map that holds [true] only, the two ways of reading agree. *)
Lemma dmIndex_dmOk (ds : dmSet) k : dmAllTrue ds → dmIndex ds k = dmOk ds k.
Proof.
  intros Hall. unfold dmIndex, dmOk. destruct (ds !! k) as [v|] eqn:Hk.
  - rewrite (Hall _ _ Hk), bool_is_Some. done.
  - by rewrite (@bool_is_None bool).
Qed.

Lemma dmAllTrue_empty : dmAllTrue newDmSet.
Proof. intros k v. unfold newDmSet. by rewrite lookup_empty. Qed.

Lemma dmAllTrue_insert (ds : dmSet) k :
  dmAllTrue ds → dmAllTrue (<[k := true]> ds).
Proof.
  intros Hall k' v. destruct (decide (k' = k)) as [->|Hne].
  - rewrite lookup_insert_eq. congruence.
  - rewrite lookup_insert_ne by done. apply Hall.
Qed.

Lemma dmAllTrue_delete (ds : dmSet) k : dmAllTrue ds → dmAllTrue (delete k ds).
Proof.
  intros Hall k' v Hk. apply lookup_delete_Some in Hk as [_ Hk].
  by apply (Hall k').
Qed.

Lemma dmAllTrue_addList lst (ds : dmSet) :
  dmAllTrue ds → dmAllTrue (addList lst ds).
Proof.
  revert ds. induction lst as [|v lst IH]; intros ds Hall; [done|].
  simpl. by apply IH, dmAllTrue_insert.
Qed.

Lemma elem_of_rangeKeys (m : dmSet) k : k ∈ rangeKeys m ↔ is_Some (m !! k).
Proof.
  unfold rangeKeys. rewrite list_elem_of_fmap. split.
  - intros ([k' v] & -> & Hin). apply elem_of_map_to_list in Hin. by eauto.
  - intros [v Hv]. exists (k, v). split; [done|].
    by apply elem_of_map_to_list.
Qed.

Lemma rangeKeys_NoDup (m : dmSet) : NoDup (rangeKeys m).
Proof. apply NoDup_fst_map_to_list. Qed.

(** ** Queries *)

Section QueryResults.
Variable debug : bool.
Variable splitHostPort : string → string * string.

Lemma lookupBlocked_false ds now s :
  portPanics debug splitHostPort s = false →
  lookupBlocked debug splitHostPort ds now s = Some false
  ↔ notBlockedName ds now s.
Proof.
  intros Hp. unfold lookupBlocked, notBlockedName. rewrite Hp.
  destruct (dmIndex (alwaysDirect ds) s); [by split; auto|].
  destruct (dmIndex (alwaysBlocked ds) s).
  { split; [done|]. by intros [?|[? _]]. }
  destruct (TimeoutSet.has (chouSet ds) s now).
  { split; [done|]. by intros [?|(_ & ? & _)]. }
  destruct (ParaDmSet.has (blocked ds) s).
  - split; [done|]. by intros [?|(_ & _ & ?)].
  - split; auto.
Qed.

Lemma lookupBlocked_total ds now s :
  portPanics debug splitHostPort s = false →
  is_Some (lookupBlocked debug splitHostPort ds now s).
Proof.
  intros Hp. unfold lookupBlocked. rewrite Hp.
  repeat case_match; eauto.
Qed.

Lemma lookupBlocked_inNoSet ds now s :
  portPanics debug splitHostPort s = false → inNoSet ds now s →
  lookupBlocked debug splitHostPort ds now s = Some false.
Proof.
  intros Hp (Had & Hab & _ & Hb & Hc).
  apply lookupBlocked_false; [done|]. right.
  unfold ParaDmSet.has.
  by rewrite (dmIndex_None _ _ Hab), Hc, (dmOk_None _ _ Hb).
Qed.

Lemma lookupDirect_inNoSet ds now s :
  portPanics debug splitHostPort s = false → inNoSet ds now s →
  lookupDirect debug splitHostPort ds s = Some false.
Proof.
  intros Hp (Had & Hab & Hd & _ & _). unfold lookupDirect. rewrite Hp.
  rewrite (dmIndex_None _ _ Had), (dmIndex_None _ _ Hab).
  unfold ParaDmSet.has. by rewrite (dmOk_None _ _ Hd).
Qed.

Lemma lookupDirect_alwaysDirect ds s :
  portPanics debug splitHostPort s = false →
  dmIndex (alwaysDirect ds) s = true →
  lookupDirect debug splitHostPort ds s = Some true.
Proof. intros Hp Had. unfold lookupDirect. by rewrite Hp, Had. Qed.

Lemma lookupDirect_total ds s :
  portPanics debug splitHostPort s = false →
  is_Some (lookupDirect debug splitHostPort ds s).
Proof.
  intros Hp. unfold lookupDirect. rewrite Hp. repeat case_match; eauto.
Qed.

(** C4, as the code has it: [isURLInAlwaysDs] answers [true] for every
    request whose registered domain is empty. *)
Theorem isURLInAlwaysDs_empty_domain ds url :
  Domain url = "" → isURLInAlwaysDs ds url = true.
Proof.
  intros Hd. unfold isURLInAlwaysDs.
  by rewrite (bool_decide_eq_true_2 _ Hd).
Qed.

(** C5, as the code has it: a request with a non-empty registered domain
    whose host and registered domain are in none of the five sets is
    reported neither blocked nor direct: [isURLBlocked] and [isURLDirect]
    both answer [false]. *)
Theorem unknown_neither_blocked_nor_direct ds now url :
  portsOk debug splitHostPort url → Domain url ≠ "" →
  inNoSet ds now (Host url) → inNoSet ds now (Domain url) →
  isURLBlocked debug splitHostPort ds now url = Some false
  ∧ isURLDirect debug splitHostPort ds url = Some false.
Proof.
  intros [Hph Hpd] Hne Hh Hd. unfold isURLBlocked, isURLDirect.
  rewrite (bool_decide_eq_false_2 _ Hne).
  rewrite (lookupBlocked_inNoSet _ _ _ Hph Hh),
    (lookupBlocked_inNoSet _ _ _ Hpd Hd).
  by rewrite (lookupDirect_inNoSet _ now _ Hph Hh),
    (lookupDirect_inNoSet _ now _ Hpd Hd).
Qed.

(** C1, as the code has it: when the host or the registered domain of a
    request is in the always-direct set, [isURLDirect] answers [true]
    whatever the learned and time-expiring sets hold, while [isURLBlocked]
    answers [false] exactly when the registered domain is empty or neither
    of the two names is blocked on its own account (each is always-direct,
    or in none of the always-blocked, time-expiring and learned-blocked
    sets). *)
Theorem alwaysDirect_precedence ds now url :
  portsOk debug splitHostPort url →
  dmIndex (alwaysDirect ds) (Host url) = true
  ∨ dmIndex (alwaysDirect ds) (Domain url) = true →
  isURLDirect debug splitHostPort ds url = Some true
  ∧ is_Some (isURLBlocked debug splitHostPort ds now url)
  ∧ (isURLBlocked debug splitHostPort ds now url = Some false ↔
     Domain url = ""
     ∨ (notBlockedName ds now (Host url)
        ∧ notBlockedName ds now (Domain url))).
Proof.
  intros [Hph Hpd] Had. split; [|split].
  - unfold isURLDirect. case_bool_decide; [done|].
    destruct Had as [Had|Had].
    + by rewrite (lookupDirect_alwaysDirect _ _ Hph Had).
    + destruct (lookupDirect_total ds _ Hph) as [[] ->]; simpl; [done|].
      by apply lookupDirect_alwaysDirect.
  - unfold isURLBlocked. case_bool_decide; [by eauto|].
    destruct (lookupBlocked_total ds now _ Hph) as [[] ->]; simpl; [by eauto|].
    by apply lookupBlocked_total.
  - unfold isURLBlocked. case_bool_decide as Hd; [by split; auto|].
    rewrite <-!lookupBlocked_false by done.
    destruct (lookupBlocked_total ds now _ Hph) as [[] ->]; simpl.
    + split; [done|]. by intros [?|[? _]].
    + split; [by auto|]. by intros [?|[_ ?]].
Qed.
End QueryResults.

(** ** Learning *)

Section LearningResults.
Variable config : Config.
Variable HostIsIP : URL → bool.

Ltac run := unfold addBlockedURL, addChouURL, addDirectURL, mbind, M_bind,
  mret, M_ret, getDs, modifyDs, Printf, exec, eval; simpl.

(** The guard shared by [addChouURL] and [addBlockedURL] reads the
    always-direct set and the request only. *)
Lemma isURLAlwaysDirect_frame ds ds' url :
  alwaysDirect ds' = alwaysDirect ds →
  isURLAlwaysDirect ds' url = isURLAlwaysDirect ds url.
Proof. intros H. unfold isURLAlwaysDirect. by rewrite H. Qed.

(** C6: for a request that is always-direct, or has an empty registered
    domain, or whose host is a literal IP address, [addBlockedURL] returns
    [false] and changes nothing: the five sets and both dirty flags stay
    as they are, whichever way [config.UpdateBlocked] is set. *)
Theorem addBlockedURL_not_recorded now url w :
  isURLAlwaysDirect (domainSet w) url = true ∨ Domain url = ""
  ∨ HostIsIP url = true →
  addBlockedURL config HostIsIP now url w = (false, w).
Proof.
  intros H.
  assert (isURLAlwaysDirect (domainSet w) url
          || bool_decide (Domain url = "") || HostIsIP url = true) as Hg.
  { destruct H as [->|[H| ->]]; [done| |].
    - rewrite (bool_decide_eq_true_2 _ H). by rewrite orb_true_r.
    - by rewrite orb_true_r. }
  run. destruct (UpdateBlocked config); simpl; by rewrite Hg.
Qed.

Lemma TimeoutSet_add_add key now ts :
  TimeoutSet.add key now (TimeoutSet.add key now ts)
  = TimeoutSet.add key now ts.
Proof.
  unfold TimeoutSet.add.
  destruct (TimeoutSet.has ts key now) eqn:Hh; [by rewrite Hh|].
  simpl. rewrite insert_insert_eq. by case_match.
Qed.

Lemma TimeoutSet_has_add key now ts :
  0 < TimeoutSet.timeout ts →
  TimeoutSet.has (TimeoutSet.add key now ts) key now = true.
Proof.
  intros Hpos. unfold TimeoutSet.add.
  destruct (TimeoutSet.has ts key now) eqn:Hh; [done|].
  unfold TimeoutSet.has. simpl. rewrite lookup_insert_eq.
  apply bool_decide_eq_true. lia.
Qed.

(** C7, as the code has it: a second [addBlockedURL] for the same request
    returns what the first returned and leaves the classifier (the five
    sets, the time-expiring set among them, and both dirty flags), the
    files and the seed lists exactly as the first call left them, on the
    learned path ([config.UpdateBlocked] set) always, and on the
    time-expiring path when the second call reads the same clock value as
    the first or finds the entry of the domain still live. *)
Theorem addBlockedURL_idempotent now1 now2 url w :
  let w1 := exec (addBlockedURL config HostIsIP now1 url) w in
  let w2 := exec (addBlockedURL config HostIsIP now2 url) w1 in
  UpdateBlocked config = true ∨ now2 = now1
  ∨ TimeoutSet.has (chouSet (domainSet w1)) (Domain url) now2 = true →
  sameButLog w2 w1
  ∧ eval (addBlockedURL config HostIsIP now2 url) w1
    = eval (addBlockedURL config HostIsIP now1 url) w.
Proof.
  destruct w as [ds fs lg bl dl]. run.
  destruct (UpdateBlocked config); simpl.
  - intros _.
    destruct (isURLAlwaysDirect ds url || bool_decide (Domain url = "")
              || HostIsIP url) eqn:Hg; simpl.
    { rewrite Hg. simpl. by repeat split. }
    destruct (ParaDmSet.has (blocked ds) (Domain url)) eqn:Hb; simpl.
    { rewrite Hg, Hb. simpl. by repeat split. }
    assert (ParaDmSet.has (ParaDmSet.add (Domain url) (blocked ds))
              (Domain url) = true) as Hb'.
    { unfold ParaDmSet.has, ParaDmSet.add. apply dmOk_true.
      rewrite lookup_insert_eq. by eauto. }
    destruct (ParaDmSet.has (direct ds) (Domain url)) eqn:Hd; simpl;
      rewrite (isURLAlwaysDirect_frame ds _ url) by done;
      rewrite Hg, Hb'; simpl; by repeat split.
  - destruct (isURLAlwaysDirect ds url || bool_decide (Domain url = "")
              || HostIsIP url) eqn:Hg; simpl.
    { intros _. rewrite Hg. simpl. by repeat split. }
    destruct (TimeoutSet.has (chouSet ds) (Domain url) now1) eqn:Hh; simpl.
    { intros [?|[->|Hlive]]; [done| |]; rewrite Hg; simpl.
      - rewrite Hh. simpl. by repeat split.
      - rewrite Hlive. simpl. by repeat split. }
    rewrite (isURLAlwaysDirect_frame ds _ url) by done. rewrite Hg. simpl.
    intros [?|[->|Hlive]]; [done| |].
    + destruct (TimeoutSet.has (TimeoutSet.add (Domain url) now1 (chouSet ds))
                  (Domain url) now1) eqn:Hh2; simpl.
      * by repeat split.
      * unfold sameButLog. simpl. repeat split.
        unfold set_chouSet. simpl. by rewrite TimeoutSet_add_add.
    + rewrite Hlive. simpl. by repeat split.
Qed.

(** With a positive TTL the second call does not even log. *)
Lemma addBlockedURL_twice now url w :
  0 < TimeoutSet.timeout (chouSet (domainSet w)) →
  let w1 := exec (addBlockedURL config HostIsIP now url) w in
  addBlockedURL config HostIsIP now url w1
  = (eval (addBlockedURL config HostIsIP now url) w, w1).
Proof.
  intros Hpos. destruct w as [ds fs lg bl dl]. simpl in Hpos. run.
  destruct (UpdateBlocked config); simpl.
  - destruct (isURLAlwaysDirect ds url || bool_decide (Domain url = "")
              || HostIsIP url) eqn:Hg; simpl.
    { by rewrite Hg. }
    destruct (ParaDmSet.has (blocked ds) (Domain url)) eqn:Hb; simpl.
    { by rewrite Hg, Hb. }
    assert (ParaDmSet.has (ParaDmSet.add (Domain url) (blocked ds))
              (Domain url) = true) as Hb'.
    { unfold ParaDmSet.has, ParaDmSet.add. apply dmOk_true.
      rewrite lookup_insert_eq. by eauto. }
    destruct (ParaDmSet.has (direct ds) (Domain url)) eqn:Hd; simpl;
      rewrite (isURLAlwaysDirect_frame ds _ url) by done;
      by rewrite Hg, Hb'.
  - destruct (isURLAlwaysDirect ds url || bool_decide (Domain url = "")
              || HostIsIP url) eqn:Hg; simpl.
    { by rewrite Hg. }
    destruct (TimeoutSet.has (chouSet ds) (Domain url) now) eqn:Hh; simpl.
    { by rewrite Hg, Hh. }
    rewrite (isURLAlwaysDirect_frame ds _ url) by done. rewrite Hg. simpl.
    by rewrite (TimeoutSet_has_add _ _ _ Hpos).
Qed.

(** When the entry of the domain runs out between two calls, the first
    call (entry still live) changes nothing and the second one enters the
    domain afresh. *)
Lemma addChouURL_after_expiry now1 now2 url w t0 :
  isURLAlwaysDirect (domainSet w) url = false → Domain url ≠ "" →
  HostIsIP url = false →
  TimeoutSet.time (chouSet (domainSet w)) !! Domain url = Some t0 →
  now1 < t0 + TimeoutSet.timeout (chouSet (domainSet w)) ≤ now2 →
  let w1 := exec (addChouURL HostIsIP now1 url) w in
  let w2 := exec (addChouURL HostIsIP now2 url) w1 in
  w1 = w
  ∧ TimeoutSet.time (chouSet (domainSet w2)) !! Domain url = Some now2.
Proof.
  intros Had Hne Hip Ht [Hlt Hle]. destruct w as [ds fs lg bl dl].
  simpl in *.
  assert (isURLAlwaysDirect ds url || bool_decide (Domain url = "")
          || HostIsIP url = false) as Hg.
  { by rewrite Had, Hip, (bool_decide_eq_false_2 _ Hne). }
  assert (TimeoutSet.has (chouSet ds) (Domain url) now1 = true) as Hh1.
  { unfold TimeoutSet.has. rewrite Ht. by apply bool_decide_eq_true. }
  assert (TimeoutSet.has (chouSet ds) (Domain url) now2 = false) as Hh2.
  { unfold TimeoutSet.has. rewrite Ht. apply bool_decide_eq_false. lia. }
  run. rewrite Hg, Hh1. simpl. split; [done|].
  rewrite Hg, Hh2. simpl. unfold TimeoutSet.add. rewrite Hh2. simpl.
  by rewrite lookup_insert_eq.
Qed.

(** What one learning call does to the two learned sets. *)
Lemma runRecord_exclusive r d w :
  ¬ inBothLearned (domainSet w) d →
  ¬ inBothLearned (domainSet (exec (runRecord config HostIsIP r) w)) d.
Proof.
  intros Hw. destruct w as [ds fs lg bl dl]. simpl in Hw.
  destruct r as [now url|url]; unfold runRecord; run.
  - destruct (UpdateBlocked config); simpl.
    + destruct (isURLAlwaysDirect ds url || bool_decide (Domain url = "")
                || HostIsIP url); simpl; [done|].
      destruct (ParaDmSet.has (blocked ds) (Domain url)); simpl; [done|].
      destruct (ParaDmSet.has (direct ds) (Domain url)) eqn:Hd; simpl;
        unfold inBothLearned, ParaDmSet.has, ParaDmSet.add, ParaDmSet.del
          in *; simpl; rewrite !dmOk_true in *;
        destruct (decide (d = Domain url)) as [->|Hne].
      * rewrite lookup_delete_eq. by intros [_ [? ?]].
      * by rewrite lookup_insert_ne, lookup_delete_ne.
      * apply dmOk_false in Hd. rewrite Hd. by intros [_ [? ?]].
      * by rewrite lookup_insert_ne.
    + destruct (isURLAlwaysDirect ds url || bool_decide (Domain url = "")
                || HostIsIP url); simpl; [done|].
      by destruct (TimeoutSet.has (chouSet ds) (Domain url) now).
  - destruct (UpdateDirect config); simpl; [|done].
    destruct (isURLInAlwaysDs ds url || bool_decide (Domain url = "")
              || HostIsIP url || ParaDmSet.has (direct ds) (Domain url));
      simpl; [done|].
    destruct (ParaDmSet.has (blocked ds) (Domain url)) eqn:Hb; simpl;
      unfold inBothLearned, ParaDmSet.has, ParaDmSet.add, ParaDmSet.del
        in *; simpl; rewrite !dmOk_true in *;
      destruct (decide (d = Domain url)) as [->|Hne].
    + rewrite lookup_delete_eq. by intros [[? ?] _].
    + by rewrite lookup_insert_ne, lookup_delete_ne.
    + apply dmOk_false in Hb. rewrite Hb. by intros [[? ?] _].
    + by rewrite lookup_insert_ne.
Qed.

Lemma exec_runRecords_cons r rs w :
  exec (runRecords config HostIsIP (r :: rs)) w
  = exec (runRecords config HostIsIP rs)
      (exec (runRecord config HostIsIP r) w).
Proof.
  unfold exec. simpl. unfold mbind, M_bind.
  by destruct (runRecord config HostIsIP r w).
Qed.

(** C2: a domain that is in at most one of the two learned sets stays in at
    most one of them through any sequence of [addBlockedURL] and
    [addDirectURL] calls run one after the other. *)
Theorem learned_sets_exclusive rs d w :
  ¬ inBothLearned (domainSet w) d →
  ¬ inBothLearned (domainSet (exec (runRecords config HostIsIP rs) w)) d.
Proof.
  revert w. induction rs as [|r rs IH]; intros w Hw; [done|].
  rewrite exec_runRecords_cons. by apply IH, runRecord_exclusive.
Qed.
End LearningResults.

(** ** Strings, lines and sorting *)

Lemma string_app_cons a (s t : string) :
  String a s ++ t = String a (s ++ t).
Proof. done. Qed.

Lemma string_app_assoc (s t u : string) : (s ++ t) ++ u = s ++ t ++ u.
Proof.
  induction s as [|a s IH]; [done|].
  by rewrite !string_app_cons, IH.
Qed.

Lemma string_app_nil_r (s : string) : s ++ "" = s.
Proof. induction s as [|a s IH]; [done|]. by rewrite string_app_cons, IH. Qed.

Lemma list_ascii_of_string_app s t :
  list_ascii_of_string (s ++ t)
  = (list_ascii_of_string s ++ list_ascii_of_string t)%list.
Proof.
  induction s as [|a s IH]; [done|].
  rewrite string_app_cons. simpl. by rewrite IH.
Qed.

Lemma string_of_list_ascii_inj l1 l2 :
  string_of_list_ascii l1 = string_of_list_ascii l2 → l1 = l2.
Proof.
  intros H. apply (f_equal list_ascii_of_string) in H.
  by rewrite !list_ascii_of_string_of_list_ascii in H.
Qed.

(** Two strings that end in the same text and are equal start with the
    same text. *)
Lemma string_app_inv_tail (s t u : string) : s ++ u = t ++ u → s = t.
Proof.
  intros H. apply (f_equal list_ascii_of_string) in H.
  rewrite !list_ascii_of_string_app in H. apply app_inv_tail in H.
  apply (f_equal string_of_list_ascii) in H.
  by rewrite !string_of_list_ascii_of_string in H.
Qed.

Section TrimRunes.
Variable p1 : ascii → bool.
Variable p2 : ascii → ascii → bool.
Variable p3 : ascii → ascii → ascii → bool.

Lemma trimRunes_length_bounded n l :
  (length l ≤ n)%nat →
  (length (trimRunes p1 p2 p3 l) ≤ length l)%nat.
Proof.
  revert l. induction n as [|n IH]; intros l Hn.
  { destruct l; simpl in *; [done|lia]. }
  destruct l as [|a [|b [|c l3]]]; simpl in *; [done|..].
  - destruct (p1 a); simpl; lia.
  - destruct (p1 a).
    { specialize (IH [b]). simpl in IH. lia. }
    destruct (p2 a b); simpl; lia.
  - destruct (p1 a).
    { specialize (IH (b :: c :: l3)). simpl in IH. lia. }
    destruct (p2 a b).
    { specialize (IH (c :: l3)). simpl in IH. lia. }
    destruct (p3 a b c); [|simpl; lia].
    specialize (IH l3). lia.
Qed.

Lemma trimRunes_length l :
  (length (trimRunes p1 p2 p3 l) ≤ length l)%nat.
Proof. by apply (trimRunes_length_bounded (length l)). Qed.

(** When nothing is dropped, the tests fail on the first bytes. *)
Lemma trimRunes_fixed l :
  length (trimRunes p1 p2 p3 l) = length l →
  trimRunes p1 p2 p3 l = l
  ∧ match l with
    | [] => True
    | a :: l1 =>
        p1 a = false
        ∧ match l1 with
          | [] => True
          | b :: l2 =>
              p2 a b = false
              ∧ match l2 with [] => True | c :: _ => p3 a b c = false end
          end
    end.
Proof.
  destruct l as [|a l1]; [done|]. simpl.
  destruct (p1 a).
  { intros H. pose proof (trimRunes_length l1). lia. }
  destruct l1 as [|b l2]; [done|].
  destruct (p2 a b).
  { intros H. pose proof (trimRunes_length l2). simpl in H. lia. }
  destruct l2 as [|c l3]; [done|].
  destruct (p3 a b c); [|done].
  intros H. pose proof (trimRunes_length l3). simpl in H. lia.
Qed.

(** A byte that completes no accepted rune can be appended to a list from
    which nothing is dropped. *)
Lemma trimRunes_fixed_snoc l x :
  l ≠ [] → trimRunes p1 p2 p3 l = l →
  (∀ a, p2 a x = false) → (∀ a b, p3 a b x = false) →
  trimRunes p1 p2 p3 (l ++ [x])%list = (l ++ [x])%list.
Proof.
  intros Hne Hfix H2 H3.
  destruct (trimRunes_fixed l) as [_ Hhead]; [by rewrite Hfix|].
  destruct l as [|a [|b [|c l3]]]; [done|..]; simpl in *.
  - destruct Hhead as [-> _]. by rewrite H2.
  - destruct Hhead as (-> & -> & _). by rewrite H3.
  - by destruct Hhead as (-> & -> & ->).
Qed.
End TrimRunes.

(** A string that [TrimSpace] leaves alone starts and ends outside white
    space. *)
Lemma TrimSpace_fixed s :
  TrimSpace s = s →
  let l := list_ascii_of_string s in
  trimRunes isSpace1 isSpace2 isSpace3 l = l
  ∧ trimRunes isSpace1 (λ b a, isSpace2 a b) (λ c b a, isSpace3 a b c)
      (reverse l) = reverse l.
Proof.
  intros H l. unfold TrimSpace, TrimRight, TrimLeft in H. fold l in H.
  rewrite list_ascii_of_string_of_list_ascii in H.
  rewrite <-(string_of_list_ascii_of_string s) in H at 1. fold l in H.
  apply string_of_list_ascii_inj in H.
  set (tl := trimRunes isSpace1 isSpace2 isSpace3 l) in *.
  set (tr := trimRunes _ _ _ (reverse tl)) in *.
  pose proof (trimRunes_length isSpace1 isSpace2 isSpace3 l) as Hl.
  pose proof (trimRunes_length isSpace1 (λ b a, isSpace2 a b)
                (λ c b a, isSpace3 a b c) (reverse tl)) as Hr.
  fold tl in Hl. fold tr in Hr. rewrite length_reverse in Hr.
  assert (length (reverse tr) = length l) as Hlen by (by rewrite H).
  rewrite length_reverse in Hlen.
  assert (tl = l) as Htl.
  { apply trimRunes_fixed. fold tl. lia. }
  split; [done|]. unfold tr in H. rewrite Htl in H.
  apply (f_equal reverse) in H. by rewrite reverse_involutive in H.
Qed.

Lemma isSpace2_CR a : isSpace2 a "013" = false.
Proof. unfold isSpace2. simpl. by rewrite andb_false_r. Qed.

Lemma isSpace3_CR a b : isSpace3 a b "013" = false.
Proof.
  unfold isSpace3. simpl. by rewrite !andb_false_r.
Qed.

(** What is left of a line of the file is the name that was written. *)
Lemma TrimSpace_line e pre :
  nameOk e → pre = "" ∨ pre = CR → TrimSpace (e ++ pre) = e.
Proof.
  intros (Hne & Ht & _) [->| ->].
  - by rewrite string_app_nil_r.
  - destruct (TrimSpace_fixed e Ht) as [Hl Hr].
    assert (list_ascii_of_string e ≠ []) as Hne'.
    { by destruct e. }
    unfold TrimSpace, TrimRight, TrimLeft.
    rewrite list_ascii_of_string_app.
    change (list_ascii_of_string CR) with ["013"%char].
    rewrite (trimRunes_fixed_snoc _ _ _ _ _ Hne' Hl isSpace2_CR isSpace3_CR).
    rewrite list_ascii_of_string_of_list_ascii, reverse_snoc. simpl.
    rewrite Hr, reverse_involutive. apply string_of_list_ascii_of_string.
Qed.

Example TrimSpace_ascii :
  TrimSpace ("  " ++ "a.com" ++ String "009" CR ++ LF) = "a.com".
Proof. reflexivity. Qed.

(** U+00A0 in front and U+3000 behind are white space; the lone byte
    [194] is not. *)
Example TrimSpace_unicode :
  TrimSpace (String "194" (String "160" "a.com")
             ++ String "227" (String "128" (String "128" ""))) = "a.com"
  ∧ TrimSpace (String "194" "a.com") = String "194" "a.com".
Proof. split; reflexivity. Qed.

Lemma noLF_app s t : noLF s → noLF t → noLF (s ++ t).
Proof.
  induction s as [|a s IH]; [done|].
  rewrite string_app_cons. simpl. intros [? ?] ?. auto.
Qed.

Lemma splitLines_line e rest :
  noLF e → splitLines (e ++ LF ++ rest) = e :: splitLines rest.
Proof.
  induction e as [|a e IH]; [done|].
  intros [Ha He]. rewrite string_app_cons. simpl.
  destruct (Ascii.eqb_spec a "010"); [done|]. by rewrite (IH He).
Qed.

Lemma splitLines_last e : noLF e → e ≠ "" → splitLines e = [e].
Proof.
  induction e as [|a e IH]; [done|].
  intros [Ha He] _. simpl.
  destruct (Ascii.eqb_spec a "010"); [done|].
  destruct e as [|b e]; [done|]. by rewrite (IH He).
Qed.

Lemma Join_cons e e' l sep :
  Join (e :: e' :: l) sep = e ++ sep ++ Join (e' :: l) sep.
Proof. done. Qed.

(** The read loop never reports an error: the reader only ever signals
    the end of the input. *)
Lemma readDomains_no_error fr lst : (readDomains fr lst).2 = None.
Proof.
  revert lst. induction fr as [|line fr IH]; intros lst; [done|].
  simpl. by case_bool_decide.
Qed.

(** The loop of [loadDomainList] written with [ReadLine], as in the
    source. *)
Lemma readDomains_ReadLine fr lst :
  readDomains fr lst
  = match ReadLine fr with
    | (_, Some io_EOF, _) => (lst, None)
    | (_, Some e, _) => (lst, Some e)
    | (domain, None, fr') =>
        if bool_decide (domain = "") then readDomains fr' lst
        else readDomains fr' (lst ++ [TrimSpace domain])%list
    end.
Proof. by destruct fr. Qed.

Lemma readDomains_Join pre l lst :
  pre = "" ∨ pre = CR → Forall nameOk l →
  readDomains (NewReader (Join l (pre ++ LF))) lst = ((lst ++ l)%list, None).
Proof.
  intros Hpre Hl. revert lst. unfold NewReader.
  induction Hl as [|e l He Hl IH]; intros lst.
  { simpl. by rewrite app_nil_r. }
  assert (TrimSpace (TrimSpace (e ++ pre)) = e) as Htt.
  { rewrite (TrimSpace_line e pre He Hpre). by destruct He as (_ & ? & _). }
  assert (TrimSpace (e ++ pre) ≠ "") as Hne.
  { rewrite (TrimSpace_line e pre He Hpre). by destruct He. }
  destruct l as [|e' l].
  - assert (TrimSpace e = e) as Hte by (by destruct He as (_ & ? & _)).
    destruct He as (Hne' & _ & Hlf). simpl Join.
    rewrite (splitLines_last e Hlf Hne'). simpl.
    rewrite Hte, (bool_decide_eq_false_2 _ Hne'), Hte. done.
  - rewrite Join_cons, <-string_app_assoc, <-(string_app_assoc e pre).
    rewrite string_app_assoc.
    rewrite splitLines_line.
    2:{ apply noLF_app; [by destruct He as (_ & _ & ?)|].
        by destruct Hpre as [->| ->]; [|split; [|done]]. }
    simpl readDomains.
    rewrite (bool_decide_eq_false_2 _ Hne), Htt, IH.
    by rewrite <-app_assoc.
Qed.

#[local] Instance String_le_trans : Transitive String.le.
Proof. apply _. Qed.

Lemma sortStrings_Permutation l : sortStrings l ≡ₚ l.
Proof. apply merge_sort_Permutation. Qed.

Lemma sortStrings_Sorted l : Sorted String.le (sortStrings l).
Proof. apply Sorted_merge_sort, _. Qed.

(** The sorted list depends on the names only, not on their order: it is
    the same for every enumeration of a map. *)
Lemma sortStrings_order l1 l2 : l1 ≡ₚ l2 → sortStrings l1 = sortStrings l2.
Proof.
  intros H. apply (Sorted_unique String.le); try apply sortStrings_Sorted.
  by rewrite !sortStrings_Permutation.
Qed.

Lemma sortStrings_idem l : sortStrings (sortStrings l) = sortStrings l.
Proof. apply sortStrings_order, sortStrings_Permutation. Qed.

(** ** What a method leaves alone *)

Lemma keeps_ret {A} (R : relation World) `{!Reflexive R} (a : A) :
  keeps R (mret a).
Proof. intros w. unfold exec. simpl. reflexivity. Qed.

Lemma keeps_bind {A B} (R : relation World) `{!Transitive R}
    (m : M A) (f : A → M B) :
  keeps R m → (∀ a, keeps R (f a)) → keeps R (m ≫= f).
Proof.
  intros Hm Hf w. unfold keeps, exec, mbind, M_bind in *.
  specialize (Hm w). destruct (m w) as [a w1]. simpl in *.
  specialize (Hf a w1). destruct (f a w1) as [b w2]. simpl in *.
  by trans w1.
Qed.

#[local] Instance sameDs_preorder : PreOrder sameDs.
Proof.
  split; [by intros w|].
  intros w1 w2 w3 (? & ? & ?) (? & ? & ?). unfold sameDs.
  split_and!; congruence.
Qed.

#[local] Instance sameFlags_preorder : PreOrder sameFlags.
Proof.
  split; [by intros w|].
  intros w1 w2 w3 (? & ? & ?) (? & ? & ?). unfold sameFlags.
  split_and!; congruence.
Qed.

#[local] Instance sameButAlwaysDirect_preorder : PreOrder sameButAlwaysDirect.
Proof.
  split; [by intros w|].
  intros w1 w2 w3 (? & ? & ? & ? & ? & ? & ?) (? & ? & ? & ? & ? & ? & ?).
  unfold sameButAlwaysDirect. split_and!; congruence.
Qed.

Lemma keepsDs_getFiles : keeps sameDs getFiles.
Proof. by intros w. Qed.

Lemma keepsDs_modifyFiles f : keeps sameDs (modifyFiles f).
Proof. by intros w. Qed.

Lemma keepsDs_Printf l s : keeps sameDs (Printf l s).
Proof. by intros w. Qed.

Lemma keepsDs_getDs : keeps sameDs getDs.
Proof. by intros w. Qed.

Create HintDb keeps.
#[local] Hint Resolve keepsDs_getFiles keepsDs_modifyFiles
  keepsDs_Printf keepsDs_getDs : keeps.
#[local] Hint Extern 1 (keeps _ (mret _)) => apply keeps_ret; apply _ : keeps.

Ltac keeps := repeat first
  [ progress eauto with keeps
  | apply keeps_bind; [apply _| |]
  | match goal with
    | |- ∀ _, keeps _ _ => first [intros [? ?] | intros ?]
    | |- keeps _ (match ?x with _ => _ end) => destruct x
    end ].

(** ** Load and store of a domain list *)

Section PersistenceResults.
Variable config : Config.
Variable dsFile : DsFile.
Variable newLine : string.
Variable isWindows : bool.
Variable mkConfigDir : option error.
Variable path_Join : string → string → string.

Ltac runfs := unfold storeDomainList, renameTmp, os_Rename, os_Create,
  WriteString, os_Remove, os_Open, isFileExists, loadDomainList, getFiles,
  modifyFiles, getDs, Printf, mbind, M_bind, mret, M_ret, exec, eval; simpl.

Ltac fs_step := first
  [ rewrite lookup_insert_eq | rewrite lookup_delete_eq
  | rewrite lookup_insert_ne by done | rewrite lookup_delete_ne by done
  | rewrite bool_is_Some | rewrite bool_is_None
  | rewrite insert_insert_eq
  | match goal with H : _ !! _ = _ |- _ => rewrite H end
  | rewrite bool_decide_eq_true_2 by done
  | rewrite bool_decide_eq_false_2 by done ]; simpl.

Lemma loadDomainList_existing fpath contents w :
  files w !! fpath = Some contents →
  loadDomainList fpath w = ((readDomains (NewReader contents) []).1, None, w).
Proof.
  intros Hf. runfs. rewrite Hf, bool_is_Some. simpl. rewrite Hf.
  pose proof (readDomains_no_error (NewReader contents) []) as He.
  destruct (readDomains (NewReader contents) []) as [lst err].
  simpl in He. by subst err.
Qed.

Lemma loadDomainList_missing fpath w :
  files w !! fpath = None → loadDomainList fpath w = ([], None, w).
Proof. intros Hf. runfs. by rewrite Hf, bool_is_None. Qed.

Lemma keepsDs_isFileExists fpath : keeps sameDs (isFileExists fpath).
Proof. unfold isFileExists. keeps. Qed.

Lemma keepsDs_os_Open fpath : keeps sameDs (os_Open fpath).
Proof. unfold os_Open. keeps. Qed.

Lemma keepsDs_os_Create fpath : keeps sameDs (os_Create fpath).
Proof. unfold os_Create. keeps. Qed.

Lemma keepsDs_WriteString f s : keeps sameDs (WriteString f s).
Proof. unfold WriteString. keeps. Qed.

Lemma keepsDs_os_Remove fpath : keeps sameDs (os_Remove fpath).
Proof. unfold os_Remove. keeps. Qed.

Lemma keepsDs_os_Rename oldpath newpath :
  keeps sameDs (os_Rename isWindows oldpath newpath).
Proof. unfold os_Rename. keeps. Qed.

#[local] Hint Resolve keepsDs_isFileExists keepsDs_os_Open keepsDs_os_Create
  keepsDs_WriteString keepsDs_os_Remove keepsDs_os_Rename : keeps.

Lemma keepsDs_loadDomainList fpath : keeps sameDs (loadDomainList fpath).
Proof. unfold loadDomainList. keeps. Qed.

(** [storeDomainList] touches files and log only. *)
Lemma keepsDs_storeDomainList fpath lst :
  keeps sameDs (storeDomainList dsFile newLine isWindows mkConfigDir path_Join
             fpath lst).
Proof. unfold storeDomainList, renameTmp. keeps. Qed.

(** A store that reports no error leaves the sorted names, joined by the
    line separator, under the target path. *)
Lemma storeDomainList_ok fpath lst w :
  eval (storeDomainList dsFile newLine isWindows mkConfigDir path_Join
          fpath lst) w = None →
  files (exec (storeDomainList dsFile newLine isWindows mkConfigDir
                 path_Join fpath lst) w) !! fpath
  = Some (Join (sortStrings lst) newLine).
Proof.
  destruct w as [ds fs lg bl dl]. runfs.
  destruct mkConfigDir; simpl; [done|].
  set (tmp := path_Join (dsDir dsFile) "tmpdomain").
  set (all := Join (sortStrings lst) newLine).
  destruct isWindows; simpl.
  - destruct (decide (tmp = fpath)) as [<-|Hne].
    + repeat fs_step. done.
    + destruct (fs !! fpath) as [c|] eqn:Hf; repeat fs_step; done.
  - repeat fs_step. destruct (decide (tmp = fpath)) as [<-|Hne];
      repeat fs_step; done.
Qed.

(** The enumeration of the names does not matter to what is stored. *)
Lemma storeDomainList_order fpath l1 l2 :
  l1 ≡ₚ l2 →
  storeDomainList dsFile newLine isWindows mkConfigDir path_Join fpath l1
  = storeDomainList dsFile newLine isWindows mkConfigDir path_Join fpath l2.
Proof.
  intros H. unfold storeDomainList. by rewrite (sortStrings_order l1 l2 H).
Qed.

(** C8, as the code has it: when [storeDomainList] reports no error for a
    list of names that are not empty, have no white space around them and
    hold no line feed, [loadDomainList] of the same path returns the same
    names, sorted: the two sequences are equal once both are sorted. *)
Theorem store_load_roundtrip fpath lst w :
  lineSeparator newLine → Forall nameOk lst →
  eval (storeDomainList dsFile newLine isWindows mkConfigDir path_Join
          fpath lst) w = None →
  let w' := exec (storeDomainList dsFile newLine isWindows mkConfigDir
                    path_Join fpath lst) w in
  eval (loadDomainList fpath) w' = (sortStrings lst, None)
  ∧ sortStrings (eval (loadDomainList fpath) w').1 = sortStrings lst
  ∧ (eval (loadDomainList fpath) w').1 ≡ₚ lst.
Proof.
  intros Hsep Hl Hok w'.
  assert (eval (loadDomainList fpath) w' = (sortStrings lst, None)) as Heq.
  { pose proof (storeDomainList_ok fpath lst w Hok) as Hf. fold w' in Hf.
    unfold eval. rewrite (loadDomainList_existing _ _ _ Hf). simpl.
    assert (Forall nameOk (sortStrings lst)) as Hl'.
    { by rewrite sortStrings_Permutation. }
    destruct Hsep as [->| ->].
    - pose proof (readDomains_Join "" _ [] (or_introl eq_refl) Hl') as H.
      change ("" ++ LF) with LF in H. by rewrite H.
    - by rewrite (readDomains_Join CR _ [] (or_intror eq_refl) Hl'). }
  rewrite Heq. simpl. split; [done|]. split.
  - apply sortStrings_idem.
  - apply sortStrings_Permutation.
Qed.

Lemma storeBlockedDs_eq w :
  storeBlockedDs config dsFile newLine isWindows mkConfigDir path_Join w
  = if UpdateBlocked config && blockedChanged (domainSet w)
    then (tt, exec (storeDomainList dsFile newLine isWindows mkConfigDir
                      path_Join (dsBlocked dsFile)
                      (toSlice (blocked (domainSet w)))) w)
    else (tt, w).
Proof.
  unfold storeBlockedDs, exec, getDs, mbind, M_bind, mret, M_ret.
  destruct (UpdateBlocked config), (blockedChanged (domainSet w)); simpl;
    try done.
  by destruct (storeDomainList _ _ _ _ _ _ _ w).
Qed.

Lemma storeDirectDs_eq w :
  storeDirectDs config dsFile newLine isWindows mkConfigDir path_Join w
  = if UpdateDirect config && directChanged (domainSet w)
    then (tt, exec (storeDomainList dsFile newLine isWindows mkConfigDir
                      path_Join (dsDirect dsFile)
                      (toSlice (direct (domainSet w)))) w)
    else (tt, w).
Proof.
  unfold storeDirectDs, exec, getDs, mbind, M_bind, mret, M_ret.
  destruct (UpdateDirect config), (directChanged (domainSet w)); simpl;
    try done.
  by destruct (storeDomainList _ _ _ _ _ _ _ w).
Qed.

Lemma store_eq w :
  exec (store config dsFile newLine isWindows mkConfigDir path_Join) w
  = exec (storeDirectDs config dsFile newLine isWindows mkConfigDir
            path_Join)
      (exec (storeBlockedDs config dsFile newLine isWindows mkConfigDir
               path_Join) w).
Proof.
  unfold store, exec, mbind, M_bind.
  by destruct (storeBlockedDs _ _ _ _ _ _ w).
Qed.




End PersistenceResults.

(** ** Filtering at load time *)

Lemma exec_bind {A B} (m : M A) (f : A → M B) w :
  exec (m ≫= f) w = exec (f (eval m w)) (exec m w).
Proof. unfold exec, eval, mbind, M_bind. by destruct (m w). Qed.

Lemma shrunk_refl m f : shrunk m f m f.
Proof.
  split; [done|]. rewrite bool_decide_eq_true_2 by done.
  by rewrite orb_false_r.
Qed.

Lemma shrunk_delete (m : dmSet) f k :
  is_Some (m !! k) → shrunk m f (delete k m) true.
Proof.
  intros [v Hv]. split; [apply delete_subseteq|].
  rewrite bool_decide_eq_false_2; [by rewrite orb_true_r|].
  intros Heq. apply (f_equal (.!! k)) in Heq.
  rewrite lookup_delete_eq in Heq. congruence.
Qed.

Lemma shrunk_trans m0 f0 m1 f1 m2 f2 :
  shrunk m0 f0 m1 f1 → shrunk m1 f1 m2 f2 → shrunk m0 f0 m2 f2.
Proof.
  intros [Hs1 ->] [Hs2 ->]. split; [by trans m1|].
  rewrite <-orb_assoc. f_equal.
  destruct (decide (m1 = m0)) as [->|Hne1].
  { by rewrite (bool_decide_eq_true_2 (m0 = m0)). }
  rewrite (bool_decide_eq_false_2 _ Hne1). simpl.
  rewrite bool_decide_eq_false_2; [done|].
  intros ->. apply Hne1. by apply (anti_symm (⊆)).
Qed.

#[local] Instance filtered_preorder : PreOrder filtered.
Proof.
  split.
  - intros ds. unfold filtered. split_and!; auto using shrunk_refl.
  - intros d1 d2 d3 (? & ? & ? & ? & ?) (? & ? & ? & ? & ?).
    unfold filtered. split_and!; try congruence; by eapply shrunk_trans.
Qed.

Lemma dmIndex_is_Some (m : dmSet) k : dmIndex m k = true → is_Some (m !! k).
Proof. rewrite dmIndex_true. by eauto. Qed.

Lemma filterOutKey_filtered k ds : filtered ds (filterOutKey k ds).
Proof.
  unfold filterOutKey.
  destruct (dmIndex (blocked ds) k) eqn:Hb; simpl;
    destruct (dmIndex (direct ds) k) eqn:Hd; simpl;
    unfold filtered; simpl; split_and!;
    auto using shrunk_refl, shrunk_delete, dmIndex_is_Some.
Qed.

Lemma filterOutKeys_filtered ks ds : filtered ds (filterOutKeys ks ds).
Proof.
  revert ds. induction ks as [|k ks IH]; intros ds; [done|].
  simpl. trans (filterOutKey k ds); [apply filterOutKey_filtered|apply IH].
Qed.

Lemma dropBlockedFromDirect_filtered ks ds :
  filtered ds (dropBlockedFromDirect ks ds).
Proof.
  revert ds. induction ks as [|k ks IH]; intros ds; [done|].
  simpl. etrans; [|apply IH].
  destruct (dmIndex (direct ds) k) eqn:Hd; [|done].
  unfold filtered; simpl; split_and!;
    auto using shrunk_refl, shrunk_delete, dmIndex_is_Some.
Qed.

Lemma dropKeys_lookup ks (m : dmSet) k :
  dropKeys ks m !! k
  = if bool_decide (k ∈ ks) && dmIndex m k then None else m !! k.
Proof.
  revert m. induction ks as [|k0 ks IH]; intros m.
  { rewrite bool_decide_eq_false_2 by apply not_elem_of_nil. done. }
  unfold dropKeys in *. simpl. rewrite IH.
  destruct (decide (k = k0)) as [->|Hne].
  - rewrite (bool_decide_eq_true_2 (k0 ∈ k0 :: ks)) by left. simpl.
    destruct (dmIndex m k0) eqn:Hi.
    + unfold dmIndex at 1. rewrite lookup_delete_eq. simpl.
      by rewrite andb_false_r.
    + rewrite Hi. by rewrite andb_false_r.
  - assert (bool_decide (k ∈ k0 :: ks) = bool_decide (k ∈ ks)) as ->.
    { apply bool_decide_ext. rewrite elem_of_cons.
      split; [by intros [?|?]|by right]. }
    destruct (dmIndex m k0); [|done].
    unfold dmIndex at 1. by rewrite lookup_delete_ne.
Qed.

Lemma filterOutKeys_sets ks ds :
  blocked (filterOutKeys ks ds) = dropKeys ks (blocked ds)
  ∧ direct (filterOutKeys ks ds) = dropKeys ks (direct ds).
Proof.
  revert ds. induction ks as [|k ks IH]; intros ds; [done|].
  simpl. destruct (IH (filterOutKey k ds)) as [-> ->].
  unfold dropKeys, filterOutKey. simpl.
  destruct (dmIndex (blocked ds) k); simpl;
    by destruct (dmIndex (direct ds) k).
Qed.

Lemma dropBlockedFromDirect_sets ks ds :
  blocked (dropBlockedFromDirect ks ds) = blocked ds
  ∧ direct (dropBlockedFromDirect ks ds) = dropKeys ks (direct ds).
Proof.
  revert ds. induction ks as [|k ks IH]; intros ds; [done|].
  simpl. match goal with |- context [dropBlockedFromDirect ks ?x] =>
    destruct (IH x) as [-> ->] end.
  unfold dropKeys. simpl. by destruct (dmIndex (direct ds) k).
Qed.

(** The names [load]'s filtering takes out of the learned sets: from the
    learned-blocked set those that an always set names, from the
    learned-direct set those too and those left in the learned-blocked
    set. *)
Lemma filterLearned_lookup ds k :
  let r := filterLearned ds in
  (blocked r !! k
   = if dmIndex (blocked ds) k
        && (dmOk (alwaysDirect ds) k || dmOk (alwaysBlocked ds) k)
     then None else blocked ds !! k)
  ∧ (direct r !! k
     = if dmIndex (direct ds) k
          && (dmOk (alwaysDirect ds) k || dmOk (alwaysBlocked ds) k
              || dmOk (blocked r) k)
       then None else direct ds !! k).
Proof.
  unfold filterLearned.
  set (ds1 := filterOutKeys (rangeKeys (alwaysDirect ds)) ds).
  set (ds2 := filterOutKeys (rangeKeys (alwaysBlocked ds1)) ds1).
  destruct (filterOutKeys_filtered (rangeKeys (alwaysDirect ds)) ds)
    as (Hab1 & _). fold ds1 in Hab1.
  destruct (filterOutKeys_sets (rangeKeys (alwaysDirect ds)) ds) as [Hb1 Hd1].
  destruct (filterOutKeys_sets (rangeKeys (alwaysBlocked ds1)) ds1)
    as [Hb2 Hd2].
  destruct (dropBlockedFromDirect_sets (rangeKeys (blocked ds2)) ds2)
    as [Hb3 Hd3].
  fold ds1 in Hb1, Hd1. fold ds2 in Hb2, Hd2. simpl.
  rewrite Hb3, Hd3, Hb2, Hd2, Hb1, Hd1, Hab1, !dropKeys_lookup.
  rewrite !(bool_decide_ext _ _ (elem_of_rangeKeys _ k)).
  fold (dmOk (alwaysDirect ds) k) (dmOk (alwaysBlocked ds) k).
  set (B2 := dropKeys (rangeKeys (alwaysBlocked ds))
               (dropKeys (rangeKeys (alwaysDirect ds)) (blocked ds))).
  change (bool_decide (is_Some (B2 !! k))) with (dmOk B2 k).
  generalize (dmOk B2 k). intros bk.
  unfold dmIndex.
  repeat first [ rewrite dropKeys_lookup
               | rewrite (bool_decide_ext _ _ (elem_of_rangeKeys _ k))
               | progress unfold dmIndex ].
  fold (dmOk (alwaysDirect ds) k) (dmOk (alwaysBlocked ds) k).
  unfold dmIndex.
  destruct (dmOk (alwaysDirect ds) k), (dmOk (alwaysBlocked ds) k), bk;
    simpl; destruct (blocked ds !! k) as [[]|], (direct ds !! k) as [[]|];
    done.
Qed.

Lemma filterLearned_filtered ds : filtered ds (filterLearned ds).
Proof.
  unfold filterLearned.
  etrans; [apply filterOutKeys_filtered|].
  etrans; [apply filterOutKeys_filtered|].
  apply dropBlockedFromDirect_filtered.
Qed.

Lemma domainSet_modifyDs f w :
  domainSet (exec (modifyDs f) w) = f (domainSet w).
Proof. done. Qed.

Lemma logged_modifyDs f w : logged (exec (modifyDs f) w) = logged w.
Proof. done. Qed.

(** [filterLoaded] filters the learned sets and then runs the loop over
    the always-blocked set. *)
Lemma filterLoaded_eq w :
  exec filterLoaded w
  = exec (dropAlwaysBlockedFromDirect
            (rangeKeys (alwaysBlocked (filterLearned (domainSet w)))))
      (exec (modifyDs filterLearned) w).
Proof. by destruct w. Qed.

Lemma keeps_dropAlwaysBlockedFromDirect ks :
  keeps sameButAlwaysDirect (dropAlwaysBlockedFromDirect ks).
Proof.
  induction ks as [|k ks IH]; simpl.
  { apply keeps_ret, _. }
  apply keeps_bind; [apply _|by intros w|]. intros ds.
  apply keeps_bind; [apply _| |by intros _].
  destruct (dmIndex (alwaysDirect ds) k); [|by intros w].
  apply keeps_bind; [apply _|by intros w|]. intros _. by intros w.
Qed.

Lemma dropAlwaysBlockedFromDirect_cons k ks w :
  exec (dropAlwaysBlockedFromDirect (k :: ks)) w
  = exec (dropAlwaysBlockedFromDirect ks)
      (if dmIndex (alwaysDirect (domainSet w)) k
       then exec (Printf Errl (alwaysConflict k);;
                  modifyDs (set_alwaysDirect (delete k))) w
       else w).
Proof.
  destruct w as [ds fs lg bl dl]. simpl.
  unfold exec, mbind, M_bind, getDs, Printf, modifyDs, mret, M_ret. simpl.
  by destruct (dmIndex (alwaysDirect ds) k).
Qed.

(** The second loop of [filterOutBlockedInDirect] takes out of the
    always-direct set the keys of [ks] that it holds with value [true]. *)
Lemma dropAlwaysBlockedFromDirect_lookup ks w k :
  alwaysDirect (domainSet (exec (dropAlwaysBlockedFromDirect ks) w)) !! k
  = if bool_decide (k ∈ ks) && dmIndex (alwaysDirect (domainSet w)) k
    then None else alwaysDirect (domainSet w) !! k.
Proof.
  revert w. induction ks as [|k0 ks IH]; intros w.
  { rewrite bool_decide_eq_false_2 by apply not_elem_of_nil. done. }
  rewrite dropAlwaysBlockedFromDirect_cons, IH.
  destruct w as [ds fs lg bl dl]. simpl.
  destruct (decide (k = k0)) as [->|Hne].
  - rewrite (bool_decide_eq_true_2 (k0 ∈ k0 :: ks)) by left. simpl.
    destruct (dmIndex (alwaysDirect ds) k0) eqn:Hi; simpl.
    + unfold dmIndex at 1. rewrite lookup_delete_eq. simpl.
      by rewrite andb_false_r.
    + rewrite Hi. by rewrite andb_false_r.
  - assert (bool_decide (k ∈ k0 :: ks) = bool_decide (k ∈ ks)) as ->.
    { apply bool_decide_ext. rewrite elem_of_cons.
      split; [by intros [?|?]|by right]. }
    destruct (dmIndex (alwaysDirect ds) k0) eqn:Hi; simpl; [|done].
    unfold dmIndex at 1. by rewrite lookup_delete_ne.
Qed.

(** It logs, on [errl], one line for each such key. *)
Lemma dropAlwaysBlockedFromDirect_logged ks w :
  ∃ new : list LogEntry,
    logged (exec (dropAlwaysBlockedFromDirect ks) w) = (logged w ++ new)%list
    ∧ ∀ k, k ∈ ks → dmIndex (alwaysDirect (domainSet w)) k = true →
        Log Errl (alwaysConflict k) ∈ new.
Proof.
  revert w. induction ks as [|k0 ks IH]; intros w.
  { exists []. split; [by rewrite app_nil_r|]. by intros k ?%elem_of_nil. }
  rewrite dropAlwaysBlockedFromDirect_cons.
  destruct w as [ds fs lg bl dl]. simpl.
  destruct (dmIndex (alwaysDirect ds) k0) eqn:Hi.
  - match goal with |- context [exec (dropAlwaysBlockedFromDirect ks) ?x] =>
      destruct (IH x) as (new & Hnew & Hin) end.
    simpl in Hnew, Hin.
    exists (Log Errl (alwaysConflict k0) :: new).
    split. { rewrite Hnew. by rewrite <-app_assoc. }
    intros k Hk Hik. destruct (decide (k = k0)) as [->|Hne]; [by left|].
    right. apply Hin.
    + apply elem_of_cons in Hk as [?|?]; done.
    + unfold dmIndex in *. by rewrite lookup_delete_ne.
  - destruct (IH (mkWorld ds fs lg bl dl)) as (new & Hnew & Hin).
    exists new. split; [done|]. intros k Hk Hik. apply Hin; [|done].
    apply elem_of_cons in Hk as [->|?]; [congruence|done].
Qed.

Lemma keepsFlags_getFiles : keeps sameFlags getFiles.
Proof. by intros w. Qed.

Lemma keepsFlags_Printf l s : keeps sameFlags (Printf l s).
Proof. by intros w. Qed.

Lemma keepsFlags_getDs : keeps sameFlags getDs.
Proof. by intros w. Qed.

Lemma keepsFlags_takeBlockedDomainList : keeps sameFlags takeBlockedDomainList.
Proof. by intros w. Qed.

Lemma keepsFlags_takeDirectDomainList : keeps sameFlags takeDirectDomainList.
Proof. by intros w. Qed.

Lemma keepsFlags_set_blocked f : keeps sameFlags (modifyDs (set_blocked f)).
Proof. by intros w. Qed.

Lemma keepsFlags_set_direct f : keeps sameFlags (modifyDs (set_direct f)).
Proof. by intros w. Qed.

Lemma keepsFlags_set_alwaysBlocked f :
  keeps sameFlags (modifyDs (set_alwaysBlocked f)).
Proof. by intros w. Qed.

Lemma keepsFlags_set_alwaysDirect f :
  keeps sameFlags (modifyDs (set_alwaysDirect f)).
Proof. by intros w. Qed.

#[local] Hint Resolve keepsFlags_getFiles keepsFlags_Printf keepsFlags_getDs
  keepsFlags_takeBlockedDomainList keepsFlags_takeDirectDomainList
  keepsFlags_set_blocked keepsFlags_set_direct keepsFlags_set_alwaysBlocked
  keepsFlags_set_alwaysDirect : keeps.

Lemma keepsFlags_loadFromFile fpath ds :
  keeps sameFlags (loadFromFile fpath ds).
Proof.
  unfold loadFromFile, loadDomainList, isFileExists, os_Open. keeps.
Qed.

#[local] Hint Resolve keepsFlags_loadFromFile : keeps.

Section LoadResults.
Variable config : Config.
Variable dsFile : DsFile.
Variable newLine : string.
Variable isWindows : bool.
Variable mkConfigDir : option error.
Variable path_Join : string → string → string.


Lemma load_eq w :
  exec (load dsFile) w = exec filterLoaded (exec (loadSets dsFile) w).
Proof. unfold load. by rewrite exec_bind. Qed.

(** C9: a name that sits in both always sets once the files are read is
    taken out of the always-direct set by [load], stays in the
    always-blocked set, and is named in a line logged on [errl]: the line
    is the name followed by the text of the source, so that the lines of
    two names differ; with always-blocked [{"a.com"}] and always-direct
    [{"a.com", "b.com"}], the always-direct set after [load] is
    [{"b.com"}] and the line logged starts with [a.com]. *)
Theorem load_always_conflict w k :
  let w1 := exec (loadSets dsFile) w in
  let w2 := exec (load dsFile) w in
  let line := λ name : string,
    name
    ++ " in both always blocked and direct domain lists, taken as blocked."
    ++ LF in
  (alwaysBlocked (domainSet w1) !! k = Some true →
   alwaysDirect (domainSet w1) !! k = Some true →
   alwaysDirect (domainSet w2) !! k = None
   ∧ alwaysBlocked (domainSet w2) !! k = Some true
   ∧ Log Errl (line k) ∈ logged w2
   ∧ ∀ k', line k' = line k → k' = k)
  ∧ (alwaysBlocked (domainSet w1) = {["a.com" := true]} →
     alwaysDirect (domainSet w1) = {["a.com" := true; "b.com" := true]} →
     alwaysDirect (domainSet w2) = {["b.com" := true]}
     ∧ alwaysBlocked (domainSet w2) = {["a.com" := true]}
     ∧ Log Errl (line "a.com") ∈ logged w2).
Proof.
  intros w1 w2 line.
  change line with alwaysConflict.
  assert (∀ k', alwaysDirect (domainSet w2) !! k'
     = if dmOk (alwaysBlocked (domainSet w1)) k'
          && dmIndex (alwaysDirect (domainSet w1)) k'
       then None else alwaysDirect (domainSet w1) !! k') as Hlook.
  { intros k'. unfold w2. rewrite load_eq. fold w1.
    rewrite filterLoaded_eq, dropAlwaysBlockedFromDirect_lookup.
    destruct (filterLearned_filtered (domainSet w1)) as (Hab & Had & _).
    rewrite domainSet_modifyDs, Hab, Had. unfold dmOk.
    by rewrite (bool_decide_ext _ _ (elem_of_rangeKeys _ k')). }
  assert (alwaysBlocked (domainSet w2) = alwaysBlocked (domainSet w1)) as Hab2.
  { unfold w2. rewrite load_eq. fold w1. rewrite filterLoaded_eq.
    match goal with |- context [exec (dropAlwaysBlockedFromDirect ?ks) ?x] =>
      destruct (keeps_dropAlwaysBlockedFromDirect ks x)
        as (_ & _ & _ & _ & -> & _) end.
    rewrite domainSet_modifyDs.
    by destruct (filterLearned_filtered (domainSet w1)) as [? _]. }
  assert (∀ k', alwaysBlocked (domainSet w1) !! k' = Some true →
     alwaysDirect (domainSet w1) !! k' = Some true →
     Log Errl (alwaysConflict k') ∈ logged w2) as Hlog.
  { intros k' Hb Hd. unfold w2. rewrite load_eq. fold w1.
    rewrite filterLoaded_eq.
    destruct (filterLearned_filtered (domainSet w1)) as (Hab & Had & _).
    match goal with |- context [exec (dropAlwaysBlockedFromDirect ?ks) ?x] =>
      destruct (dropAlwaysBlockedFromDirect_logged ks x)
        as (new & -> & Hin) end.
    rewrite logged_modifyDs. apply elem_of_app. right. apply Hin.
    - rewrite Hab. apply elem_of_rangeKeys. by eauto.
    - rewrite domainSet_modifyDs, Had. by apply dmIndex_true. }
  split.
  - intros Hb Hd. split_and!.
    + rewrite Hlook. unfold dmOk, dmIndex. rewrite Hb, Hd, bool_is_Some. done.
    + by rewrite Hab2.
    + by apply Hlog.
    + intros k' Hk'. by apply string_app_inv_tail in Hk'.
  - intros Hb Hd. split_and!.
    + apply map_eq. intros k'. rewrite Hlook, Hb, Hd. unfold dmOk, dmIndex.
      destruct (decide (k' = "a.com")) as [->|Hna].
      { rewrite lookup_singleton_eq, bool_is_Some, lookup_insert_eq. simpl.
        by rewrite lookup_singleton_ne. }
      rewrite (lookup_singleton_ne "a.com" k') by done.
      rewrite (@bool_is_None bool). simpl. by rewrite lookup_insert_ne.
    + by rewrite Hab2.
    + apply Hlog; [by rewrite Hb|by rewrite Hd].
Qed.


Lemma load_learned_sets w :
  let w1 := exec (loadSets dsFile) w in
  let w2 := exec (load dsFile) w in
  blocked (domainSet w2) = blocked (filterLearned (domainSet w1))
  ∧ direct (domainSet w2) = direct (filterLearned (domainSet w1)).
Proof.
  intros w1 w2. unfold w2. rewrite load_eq. fold w1. rewrite filterLoaded_eq.
  match goal with |- context [exec (dropAlwaysBlockedFromDirect ?ks) ?x] =>
    destruct (keeps_dropAlwaysBlockedFromDirect ks x) as (-> & -> & _) end.
  by rewrite !domainSet_modifyDs.
Qed.

End LoadResults.

(** * Concrete runs *)

(** ** Queries *)

Lemma alwaysDirect_precedence_witness :
  isURLDirect true Sample.splitHostPort
    (domainSet Sample.hostDirectDomainBlocked) Sample.wwwACom = Some true.
Proof.
  refine (proj1 (alwaysDirect_precedence true Sample.splitHostPort
                   (domainSet Sample.hostDirectDomainBlocked) 0
                   Sample.wwwACom _ _)).
  - split; vm_compute; reflexivity.
  - left. vm_compute. reflexivity.
Defined.

(** C1 as stated fails: [www.a.com] is always-direct, its registered
    domain [a.com] was learned blocked, and [isURLBlocked] answers [true]
    for the request. *)
Lemma alwaysDirect_host_of_blocked_domain :
  let ds := domainSet Sample.hostDirectDomainBlocked in
  let url := Sample.wwwACom in
  ¬ (dmIndex (alwaysDirect ds) (Host url) = true
     ∨ dmIndex (alwaysDirect ds) (Domain url) = true →
     isURLBlocked false Sample.splitHostPort ds 0 url = Some false
     ∧ isURLDirect false Sample.splitHostPort ds url = Some true).
Proof.
  intros ds url H. destruct H as [H _].
  - left. vm_compute. reflexivity.
  - vm_compute in H. discriminate H.
Qed.

Lemma isURLInAlwaysDs_empty_domain_witness :
  isURLInAlwaysDs newDomainSet Sample.localhost = true.
Proof. apply isURLInAlwaysDs_empty_domain. reflexivity. Defined.

(** C4 as stated fails: for the bare host name [localhost] the answer is
    [true]. *)
Lemma isURLInAlwaysDs_localhost :
  ¬ (Domain Sample.localhost = "" →
     isURLInAlwaysDs newDomainSet Sample.localhost = false).
Proof. intros H. specialize (H eq_refl). vm_compute in H. discriminate H. Qed.

Lemma unknown_neither_blocked_nor_direct_witness :
  isURLBlocked true Sample.splitHostPort newDomainSet 0 Sample.xCom
  = Some false
  ∧ isURLDirect true Sample.splitHostPort newDomainSet Sample.xCom
    = Some false.
Proof.
  apply unknown_neither_blocked_nor_direct.
  - split; vm_compute; reflexivity.
  - discriminate.
  - unfold inNoSet. repeat split; vm_compute; reflexivity.
  - unfold inNoSet. repeat split; vm_compute; reflexivity.
Defined.

(** C5 as stated fails: for a request that no set knows, [isURLDirect]
    answers [false]. *)
Lemma unknown_is_not_direct :
  let ds := newDomainSet in
  let url := Sample.xCom in
  ¬ (Domain url ≠ "" → inNoSet ds 0 (Host url) → inNoSet ds 0 (Domain url) →
     isURLBlocked false Sample.splitHostPort ds 0 url = Some false
     ∧ isURLDirect false Sample.splitHostPort ds url = Some true).
Proof.
  intros ds url H. destruct H as [_ H].
  - discriminate.
  - unfold inNoSet. repeat split; vm_compute; reflexivity.
  - unfold inNoSet. repeat split; vm_compute; reflexivity.
  - vm_compute in H. discriminate H.
Qed.

(** ** Learning *)

Lemma learned_sets_exclusive_witness :
  ¬ inBothLearned
      (domainSet
         (exec (runRecords Sample.persistBoth Sample.HostIsIP
                  [recordDirect Sample.xCom; recordBlocked 0 Sample.xCom])
            (Sample.start ∅)))
      "x.com".
Proof.
  apply learned_sets_exclusive.
  intros [H _]. vm_compute in H. discriminate H.
Defined.

Lemma addBlockedURL_not_recorded_witness :
  addBlockedURL Sample.persistNone Sample.HostIsIP 0 Sample.localhost
    (Sample.start ∅) = (false, Sample.start ∅).
Proof. apply addBlockedURL_not_recorded. right. left. reflexivity. Defined.

(** The guard on the learned path, for a literal IP address. *)
Example addBlockedURL_ip_not_recorded :
  addBlockedURL Sample.persistBoth Sample.HostIsIP 0 Sample.ipURL
    (Sample.start ∅) = (false, Sample.start ∅).
Proof. reflexivity. Qed.

Lemma addBlockedURL_idempotent_witness :
  let add now := addBlockedURL Sample.persistNone Sample.HostIsIP now
                   Sample.xCom in
  let w1 := exec (add 0) (Sample.start ∅) in
  let w2 := exec (add 60000000000) w1 in
  sameButLog w2 w1 ∧ eval (add 60000000000) w1 = eval (add 0) (Sample.start ∅).
Proof.
  apply (addBlockedURL_idempotent Sample.persistNone Sample.HostIsIP
           0 60000000000 Sample.xCom (Sample.start ∅)).
  right. right. vm_compute. reflexivity.
Defined.

(** C7 as stated fails on the time-expiring path: [x.com] was entered at
    time 0 and lives for two minutes; a call one nanosecond before the end
    of the two minutes changes nothing, and the call that follows it, at the
    end of the two minutes, enters [x.com] anew. *)
Lemma addBlockedURL_twice_across_expiry :
  let add now := addBlockedURL Sample.persistNone Sample.HostIsIP now
                   Sample.xCom in
  let w0 := exec (add 0) (Sample.start ∅) in
  let w1 := exec (add 119999999999) w0 in
  let w2 := exec (add 120000000000) w1 in
  w1 = w0
  ∧ TimeoutSet.time (chouSet (domainSet w1)) !! "x.com" = Some 0
  ∧ TimeoutSet.time (chouSet (domainSet w2)) !! "x.com" = Some 120000000000
  ∧ ¬ sameButLog w2 w1.
Proof.
  split_and!; try (vm_compute; reflexivity).
  intros [H _].
  apply (f_equal (λ ds, TimeoutSet.time (chouSet ds) !! "x.com")) in H.
  vm_compute in H. discriminate H.
Qed.

(** The time-expiring path, run twice at the same clock reading. *)
Example addBlockedURL_transient_twice :
  let add := addBlockedURL Sample.persistNone Sample.HostIsIP 7 Sample.xCom in
  let w1 := exec add (Sample.start ∅) in
  TimeoutSet.time (chouSet (domainSet w1)) = {[ "x.com" := 7 ]}
  ∧ blocked (domainSet w1) = ∅
  ∧ add w1 = (true, w1).
Proof. split_and!; vm_compute; reflexivity. Qed.

(** A direct success and then a failure for [x.com], both sets persisted:
    [x.com] ends up learned blocked only, with both dirty flags set, and
    [store] writes both files. *)
Example record_direct_then_blocked :
  let w := exec (runRecords Sample.persistBoth Sample.HostIsIP
                   [recordDirect Sample.xCom; recordBlocked 0 Sample.xCom])
             (Sample.start ∅) in
  let w' := exec (store Sample.persistBoth Sample.dsFile LF false None
                    Sample.path_Join) w in
  blocked (domainSet w) = {[ "x.com" := true ]}
  ∧ direct (domainSet w) = ∅
  ∧ blockedChanged (domainSet w) = true
  ∧ directChanged (domainSet w) = true
  ∧ files w' = {[ "/home/u/.cow/blocked" := "x.com";
                  "/home/u/.cow/direct" := "" ]}.
Proof. split_and!; vm_compute; reflexivity. Qed.

(** With the learned-blocked set not persisted, a failure for [x.com] at
    time 0 makes [x.com] blocked one minute later and no longer blocked
    after two minutes and a second; the learned-blocked set stays empty. *)
Example transient_block_expires :
  let w := exec (addBlockedURL Sample.persistNone Sample.HostIsIP 0
                   Sample.xCom) (Sample.start ∅) in
  lookupBlocked true Sample.splitHostPort (domainSet w) 60000000000 "x.com"
  = Some true
  ∧ lookupBlocked true Sample.splitHostPort (domainSet w) 121000000000
      "x.com" = Some false
  ∧ blocked (domainSet w) = ∅.
Proof. split_and!; vm_compute; reflexivity. Qed.

(** With [debug] on, a name that carries a port makes the lookups panic. *)
Example lookup_with_port_panics :
  lookupBlocked true Sample.splitHostPort newDomainSet 0 "x.com:80" = None
  ∧ lookupDirect true Sample.splitHostPort newDomainSet "x.com:80" = None
  ∧ lookupBlocked false Sample.splitHostPort newDomainSet 0 "x.com:80"
    = Some false.
Proof. split_and!; vm_compute; reflexivity. Qed.

(** ** Load and store *)

Lemma store_load_roundtrip_witness :
  let names := ["b.org"; "a.net"; "c.com"] in
  let w := exec (storeDomainList Sample.dsFile (CR ++ LF) true None
                   Sample.path_Join "/home/u/.cow/direct" names)
             (Sample.start ∅) in
  eval (loadDomainList "/home/u/.cow/direct") w = (sortStrings names, None).
Proof.
  refine (proj1 (store_load_roundtrip Sample.dsFile (CR ++ LF) true None
                   Sample.path_Join "/home/u/.cow/direct"
                   ["b.org"; "a.net"; "c.com"] (Sample.start ∅) _ _ _)).
  - right. reflexivity.
  - repeat (apply Forall_cons_2;
            [split; [discriminate|split;
                     [reflexivity|simpl; repeat split; discriminate]]|]).
    apply Forall_nil_2.
  - vm_compute. reflexivity.
Defined.

(** C8 as stated fails for a store that reports an error: on Windows,
    with the temporary file itself as the target, [storeDomainList]
    removes the file it has just written, the rename fails, and
    [loadDomainList] finds no file and returns no name. *)
Lemma store_load_roundtrip_tmp_target :
  let tmp := "/home/u/.cow/tmpdomain" in
  let names := ["x.com"] in
  let store := storeDomainList Sample.dsFile (CR ++ LF) true None
                 Sample.path_Join tmp names in
  let w' := exec store (Sample.start ∅) in
  Forall nameOk names
  ∧ eval store (Sample.start ∅)
    = Some (LinkError "rename" tmp tmp ErrNotExist)
  ∧ files w' !! tmp = None
  ∧ eval (loadDomainList tmp) w' = ([], None)
  ∧ ¬ (sortStrings (eval (loadDomainList tmp) w').1 = sortStrings names).
Proof.
  split_and!; try (vm_compute; reflexivity).
  - apply Forall_cons_2; [|apply Forall_nil_2].
    split; [discriminate|split;
            [reflexivity|simpl; repeat split; discriminate]].
  - intros H. vm_compute in H. discriminate H.
Qed.

(** The same when [mkConfigDir] fails: nothing is written, and
    [loadDomainList] returns the names the file held before. *)
Example store_failed_keeps_old_list :
  let p := "/home/u/.cow/direct" in
  let w := Sample.start {[ p := "a.net" ]} in
  let store := storeDomainList Sample.dsFile LF false
                 (Some (ErrOther "mkdir /home/u/.cow: permission denied"))
                 Sample.path_Join p ["b.org"] in
  eval store w = Some (ErrOther "mkdir /home/u/.cow: permission denied")
  ∧ exec store w = w
  ∧ eval (loadDomainList p) (exec store w) = (["a.net"], None).
Proof. split_and!; vm_compute; reflexivity. Qed.



Lemma load_always_conflict_witness :
  let w2 := exec (load Sample.dsFile) (Sample.start Sample.conflictFiles) in
  alwaysDirect (domainSet w2) !! "a.com" = None
  ∧ alwaysBlocked (domainSet w2) !! "a.com" = Some true
  ∧ Log Errl
      ("a.com in both always blocked and direct domain lists, taken as blocked."
       ++ LF) ∈ logged w2.
Proof.
  destruct (proj1 (load_always_conflict Sample.dsFile
                     (Sample.start Sample.conflictFiles) "a.com"))
    as (Hd & Hb & Hl & _).
  - vm_compute. reflexivity.
  - vm_compute. reflexivity.
  - split_and!; [exact Hd|exact Hb|exact Hl].
Defined.

(** The conflict scenario, run. *)
Example load_conflict_scenario :
  let w2 := exec (load Sample.dsFile) (Sample.start Sample.conflictFiles) in
  alwaysDirect (domainSet w2) = {[ "b.com" := true ]}
  ∧ alwaysBlocked (domainSet w2) = {[ "a.com" := true ]}
  ∧ logged w2
    = [Log Errl
         ("a.com in both always blocked and direct domain lists, taken as blocked."
          ++ LF)].
Proof. split_and!; vm_compute; reflexivity. Qed.



(** * Further properties *)

(** ** The sets *)

Lemma addList_lookup lst (ds : dmSet) k :
  addList lst ds !! k = if bool_decide (k ∈ lst) then Some true else ds !! k.
Proof.
  revert ds. induction lst as [|v lst IH]; intros ds.
  { by rewrite bool_decide_eq_false_2 by apply not_elem_of_nil. }
  simpl. rewrite IH. destruct (decide (k = v)) as [->|Hne].
  - rewrite (bool_decide_eq_true_2 (v ∈ v :: lst)) by left.
    rewrite lookup_insert_eq. by case_bool_decide.
  - rewrite lookup_insert_ne by done.
    apply (f_equal (λ b : bool, if b then Some true else ds !! k)).
    apply bool_decide_ext. rewrite elem_of_cons.
    split; [by right|by intros [?|?]].
Qed.

(** X1: the operations of [paraDmSet]: a name is a member right after its
    [add] and not after its [del]; neither touches the membership of
    another name; adding twice is adding once, and deleting a name that is
    not there changes nothing. *)
Theorem paraDmSet_laws (ds : dmSet) (dm k : string) :
  ParaDmSet.has (ParaDmSet.add dm ds) dm = true
  ∧ ParaDmSet.has (ParaDmSet.del dm ds) dm = false
  ∧ (k ≠ dm →
     ParaDmSet.has (ParaDmSet.add dm ds) k = ParaDmSet.has ds k
     ∧ ParaDmSet.has (ParaDmSet.del dm ds) k = ParaDmSet.has ds k)
  ∧ ParaDmSet.add dm (ParaDmSet.add dm ds) = ParaDmSet.add dm ds
  ∧ (ParaDmSet.has ds dm = false → ParaDmSet.del dm ds = ds)
  ∧ ParaDmSet.has ParaDmSet.newParaDmSet k = false.
Proof.
  unfold ParaDmSet.has, ParaDmSet.add, ParaDmSet.del, dmOk. split_and!.
  - by rewrite lookup_insert_eq, bool_is_Some.
  - by rewrite lookup_delete_eq, (@bool_is_None bool).
  - intros Hne. by rewrite lookup_insert_ne, lookup_delete_ne.
  - apply insert_insert_eq.
  - intros H. apply delete_id. apply bool_decide_eq_false in H.
    by apply eq_None_not_Some.
  - unfold ParaDmSet.newParaDmSet, newDmSet. rewrite lookup_empty.
    apply (@bool_is_None bool).
Qed.

(** X2: [addList] makes every listed name a member and leaves the other
    names as they were; listing a name more than once, or the names in
    another order, gives the same set. *)
Theorem addList_members lst (ds : dmSet) k :
  dmOk (addList lst ds) k = bool_decide (k ∈ lst) || dmOk ds k
  ∧ dmIndex (addList lst ds) k = bool_decide (k ∈ lst) || dmIndex ds k
  ∧ addList (lst ++ lst) ds = addList lst ds
  ∧ (∀ lst', lst ≡ₚ lst' → addList lst ds = addList lst' ds).
Proof.
  split_and!.
  - unfold dmOk. rewrite addList_lookup.
    destruct (bool_decide (k ∈ lst)); [apply bool_is_Some|done].
  - unfold dmIndex. rewrite addList_lookup.
    by destruct (bool_decide (k ∈ lst)).
  - apply map_eq. intros k'. rewrite !addList_lookup.
    apply (f_equal (λ b : bool, if b then Some true else ds !! k')).
    apply bool_decide_ext. rewrite elem_of_app. tauto.
  - intros lst' Hp. apply map_eq. intros k'. rewrite !addList_lookup.
    apply (f_equal (λ b : bool, if b then Some true else ds !! k')).
    apply bool_decide_ext. by rewrite Hp.
Qed.

(** X3: [toSlice] returns every key of the map once and nothing else: as
    many names as the map has entries, no name twice. *)
Theorem toSlice_keys (ds : dmSet) :
  length (toSlice ds) = size ds
  ∧ NoDup (toSlice ds)
  ∧ ∀ k, k ∈ toSlice ds ↔ is_Some (ds !! k).
Proof.
  split_and!.
  - unfold toSlice, rangeKeys. by rewrite length_fmap, length_map_to_list.
  - apply rangeKeys_NoDup.
  - intros k. apply elem_of_rangeKeys.
Qed.

(** ** The queries on the always sets *)

(** X4: [isURLInAlwaysDs] answers [true] exactly when [isURLAlwaysDirect]
    or [isURLAlwaysBlocked] does; a request with an empty registered domain
    counts as always-direct and never as always-blocked. *)
Theorem isURLInAlwaysDs_split ds url :
  isURLInAlwaysDs ds url
  = isURLAlwaysDirect ds url || isURLAlwaysBlocked ds url
  ∧ (Domain url = "" →
     isURLAlwaysDirect ds url = true ∧ isURLAlwaysBlocked ds url = false).
Proof.
  unfold isURLInAlwaysDs, isURLAlwaysDirect, isURLAlwaysBlocked. split.
  - case_bool_decide; simpl; [done|].
    by destruct (dmIndex (alwaysDirect ds) (Host url)),
      (dmIndex (alwaysDirect ds) (Domain url)),
      (dmIndex (alwaysBlocked ds) (Host url)).
  - intros H. by rewrite (bool_decide_eq_true_2 _ H).
Qed.

Section FurtherQueries.
Variable debug : bool.
Variable splitHostPort : string → string * string.

(** X5: when no name is in both always sets, a request whose host or
    registered domain is always-blocked is reported blocked by
    [isURLBlocked], whatever the learned and time-expiring sets hold. *)
Theorem alwaysBlocked_precedence ds now url :
  portsOk debug splitHostPort url → alwaysApart ds →
  isURLAlwaysBlocked ds url = true →
  isURLBlocked debug splitHostPort ds now url = Some true.
Proof.
  intros [Hph Hpd] Hapart. unfold isURLAlwaysBlocked, isURLBlocked.
  case_bool_decide; [done|]. intros Hab.
  assert (∀ s, portPanics debug splitHostPort s = false →
            dmIndex (alwaysBlocked ds) s = true →
            lookupBlocked debug splitHostPort ds now s = Some true) as Hone.
  { intros s Hp Hs. unfold lookupBlocked.
    by rewrite Hp, (Hapart s Hs), Hs. }
  destruct (dmIndex (alwaysBlocked ds) (Host url)) eqn:Hh.
  - by rewrite (Hone _ Hph Hh).
  - simpl in Hab.
    destruct (lookupBlocked_total debug splitHostPort ds now _ Hph)
      as [[] ->]; simpl; [done|].
    by apply Hone.
Qed.

(** X6: the two lookups panic on the same names, those that fail the debug
    assertion.  On a name of an always set they give opposite answers.
    They answer [true] both only for a name that is learned direct and
    either in the time-expiring set or learned blocked. *)
Theorem lookups_compared ds now s :
  (lookupBlocked debug splitHostPort ds now s = None
   ↔ portPanics debug splitHostPort s = true)
  ∧ (lookupDirect debug splitHostPort ds s = None
     ↔ portPanics debug splitHostPort s = true)
  ∧ (dmIndex (alwaysDirect ds) s = true ∨ dmIndex (alwaysBlocked ds) s = true →
     lookupBlocked debug splitHostPort ds now s
     = negb <$> lookupDirect debug splitHostPort ds s)
  ∧ (lookupBlocked debug splitHostPort ds now s = Some true →
     lookupDirect debug splitHostPort ds s = Some true →
     ParaDmSet.has (direct ds) s = true
     ∧ (TimeoutSet.has (chouSet ds) s now = true
        ∨ ParaDmSet.has (blocked ds) s = true)).
Proof.
  unfold lookupBlocked, lookupDirect.
  destruct (portPanics debug splitHostPort s).
  { split_and!; done. }
  destruct (dmIndex (alwaysDirect ds) s).
  { split_and!; done. }
  destruct (dmIndex (alwaysBlocked ds) s).
  { split_and!; done. }
  destruct (TimeoutSet.has (chouSet ds) s now).
  { split_and!; try done.
    - by intros [?|?].
    - intros _ [= ->]. eauto. }
  split_and!; try done.
  - by intros [?|?].
  - intros [= ->] [= ->]. eauto.
Qed.

(** X7: a request with an empty registered domain is direct and not
    blocked, and its names are not even looked up.  For any other request
    whose host is found, the registered domain is not looked up: a port in
    it goes unnoticed.  With the debug switch off neither query panics. *)
Theorem queries_panic_free ds now url :
  (Domain url = "" →
   isURLBlocked debug splitHostPort ds now url = Some false
   ∧ isURLDirect debug splitHostPort ds url = Some true)
  ∧ (Domain url ≠ "" →
     (lookupBlocked debug splitHostPort ds now (Host url) = Some true →
      isURLBlocked debug splitHostPort ds now url = Some true)
     ∧ (lookupDirect debug splitHostPort ds (Host url) = Some true →
        isURLDirect debug splitHostPort ds url = Some true))
  ∧ (debug = false ∨ portsOk debug splitHostPort url →
     is_Some (isURLBlocked debug splitHostPort ds now url)
     ∧ is_Some (isURLDirect debug splitHostPort ds url)).
Proof.
  unfold isURLBlocked, isURLDirect. split_and!.
  - intros H. by rewrite (bool_decide_eq_true_2 _ H).
  - intros H. rewrite (bool_decide_eq_false_2 _ H).
    split; by intros ->.
  - intros H.
    assert (portsOk debug splitHostPort url) as [Hph Hpd].
    { destruct H as [Hd|?]; [|done]. unfold portsOk, portPanics.
      by rewrite Hd. }
    case_bool_decide; [by eauto|].
    destruct (lookupBlocked_total debug splitHostPort ds now _ Hph)
      as [b1 ->].
    destruct (lookupDirect_total debug splitHostPort ds _ Hph) as [b2 ->].
    simpl. split.
    + destruct b1; [by eauto|]. by apply lookupBlocked_total.
    + destruct b2; [by eauto|]. by apply lookupDirect_total.
Qed.
End FurtherQueries.

(** ** Learning *)

Section FurtherLearning.
Variable config : Config.
Variable HostIsIP : URL → bool.

Ltac runl := unfold addBlockedURL, addChouURL, addDirectURL, mbind, M_bind,
  mret, M_ret, getDs, modifyDs, Printf, exec, eval; simpl.

(** [addBlockedURL] in terms of the classifier it leaves. *)
Lemma addBlockedURL_state now url w :
  let w' := exec (addBlockedURL config HostIsIP now url) w in
  eval (addBlockedURL config HostIsIP now url) w
  = negb (blockGuard HostIsIP (domainSet w) url)
  ∧ domainSet w' = afterBlocked config HostIsIP now url (domainSet w)
  ∧ files w' = files w
  ∧ blockedDomainList w' = blockedDomainList w
  ∧ directDomainList w' = directDomainList w.
Proof.
  destruct w as [ds fs lg bl dl]. unfold afterBlocked, blockGuard. runl.
  destruct (UpdateBlocked config); simpl;
    destruct (isURLAlwaysDirect ds url || bool_decide (Domain url = "")
              || HostIsIP url); simpl; try done.
  - destruct (ParaDmSet.has (blocked ds) (Domain url)); simpl; [done|].
    unfold learnBlocked. simpl.
    by destruct (ParaDmSet.has (direct ds) (Domain url)).
  - by destruct (TimeoutSet.has (chouSet ds) (Domain url) now).
Qed.

(** [addDirectURL] in terms of the classifier it leaves. *)
Lemma addDirectURL_state url w :
  let w' := exec (addDirectURL config HostIsIP url) w in
  eval (addDirectURL config HostIsIP url) w
  = UpdateDirect config && negb (directGuard HostIsIP (domainSet w) url)
  ∧ domainSet w' = afterDirect config HostIsIP url (domainSet w)
  ∧ files w' = files w
  ∧ blockedDomainList w' = blockedDomainList w
  ∧ directDomainList w' = directDomainList w.
Proof.
  destruct w as [ds fs lg bl dl]. unfold afterDirect, directGuard. runl.
  destruct (UpdateDirect config); simpl; [|done].
  destruct (isURLInAlwaysDs ds url || bool_decide (Domain url = "")
            || HostIsIP url || ParaDmSet.has (direct ds) (Domain url));
    simpl; [done|].
  unfold learnDirect. simpl.
  by destruct (ParaDmSet.has (blocked ds) (Domain url)).
Qed.

Lemma runRecord_state r w :
  let w' := exec (runRecord config HostIsIP r) w in
  domainSet w' = afterRecord config HostIsIP r (domainSet w)
  ∧ files w' = files w
  ∧ blockedDomainList w' = blockedDomainList w
  ∧ directDomainList w' = directDomainList w.
Proof.
  destruct r as [now url|url]; simpl.
  - by destruct (addBlockedURL_state now url w) as (_ & ? & ? & ? & ?).
  - by destruct (addDirectURL_state url w) as (_ & ? & ? & ? & ?).
Qed.

(** What every learning call keeps is kept by every sequence of them. *)
Lemma runRecords_invariant (P : DomainSet → Prop) :
  (∀ r ds, P ds → P (afterRecord config HostIsIP r ds)) →
  ∀ rs w, P (domainSet w) →
          P (domainSet (exec (runRecords config HostIsIP rs) w)).
Proof.
  intros Hstep rs. induction rs as [|r rs IH]; intros w Hw; [done|].
  rewrite exec_runRecords_cons. apply IH.
  destruct (runRecord_state r w) as [-> _]. by apply Hstep.
Qed.

Lemma has_add_eq (ds : dmSet) d : ParaDmSet.has (ParaDmSet.add d ds) d = true.
Proof.
  unfold ParaDmSet.has, ParaDmSet.add, dmOk.
  by rewrite lookup_insert_eq, bool_is_Some.
Qed.

Lemma has_del_eq (ds : dmSet) d : ParaDmSet.has (ParaDmSet.del d ds) d = false.
Proof.
  unfold ParaDmSet.has, ParaDmSet.del, dmOk.
  by rewrite lookup_delete_eq, (@bool_is_None bool).
Qed.

(** The learned sets and flags that [learnBlocked] leaves. *)
Lemma learnBlocked_fields d ds :
  let r := learnBlocked d ds in
  blocked r = ParaDmSet.add d (blocked ds)
  ∧ direct r = (if ParaDmSet.has (direct ds) d
                then ParaDmSet.del d (direct ds) else direct ds)
  ∧ blockedChanged r = true
  ∧ directChanged r = directChanged ds || ParaDmSet.has (direct ds) d
  ∧ alwaysBlocked r = alwaysBlocked ds ∧ alwaysDirect r = alwaysDirect ds
  ∧ chouSet r = chouSet ds.
Proof.
  unfold learnBlocked. simpl.
  destruct (ParaDmSet.has (direct ds) d); simpl; split_and!;
    rewrite ?orb_false_r, ?orb_true_r; done.
Qed.

Lemma learnDirect_fields d ds :
  let r := learnDirect d ds in
  direct r = ParaDmSet.add d (direct ds)
  ∧ blocked r = (if ParaDmSet.has (blocked ds) d
                 then ParaDmSet.del d (blocked ds) else blocked ds)
  ∧ directChanged r = true
  ∧ blockedChanged r = blockedChanged ds || ParaDmSet.has (blocked ds) d
  ∧ alwaysBlocked r = alwaysBlocked ds ∧ alwaysDirect r = alwaysDirect ds
  ∧ chouSet r = chouSet ds.
Proof.
  unfold learnDirect. simpl.
  destruct (ParaDmSet.has (blocked ds) d); simpl; split_and!;
    rewrite ?orb_false_r, ?orb_true_r; done.
Qed.

Lemma has_add_ne (ds : dmSet) d k :
  k ≠ d → ParaDmSet.has (ParaDmSet.add d ds) k = ParaDmSet.has ds k.
Proof.
  intros Hne. unfold ParaDmSet.has, ParaDmSet.add, dmOk.
  by rewrite lookup_insert_ne.
Qed.

Lemma has_del_false (ds : dmSet) d k :
  ParaDmSet.has ds k = false → ParaDmSet.has (ParaDmSet.del d ds) k = false.
Proof.
  unfold ParaDmSet.has, ParaDmSet.del. rewrite !dmOk_false. intros H.
  destruct (decide (k = d)) as [->|Hne].
  - apply lookup_delete_eq.
  - by rewrite lookup_delete_ne.
Qed.

(** A guard that lets a request pass tells that its registered domain is
    not empty and not always-direct. *)
Lemma blockGuard_false ds url :
  blockGuard HostIsIP ds url = false →
  Domain url ≠ ""
  ∧ dmIndex (alwaysDirect ds) (Host url) = false
  ∧ dmIndex (alwaysDirect ds) (Domain url) = false
  ∧ HostIsIP url = false.
Proof.
  unfold blockGuard, isURLAlwaysDirect.
  case_bool_decide; [done|]. simpl.
  destruct (dmIndex (alwaysDirect ds) (Host url)); [done|].
  destruct (dmIndex (alwaysDirect ds) (Domain url)); [done|].
  by destruct (HostIsIP url).
Qed.

Lemma directGuard_false ds url :
  directGuard HostIsIP ds url = false →
  Domain url ≠ ""
  ∧ dmIndex (alwaysDirect ds) (Host url) = false
  ∧ dmIndex (alwaysDirect ds) (Domain url) = false
  ∧ dmIndex (alwaysBlocked ds) (Host url) = false
  ∧ dmIndex (alwaysBlocked ds) (Domain url) = false
  ∧ HostIsIP url = false
  ∧ ParaDmSet.has (direct ds) (Domain url) = false.
Proof.
  unfold directGuard, isURLInAlwaysDs.
  case_bool_decide; [done|]. simpl.
  destruct (dmIndex (alwaysDirect ds) (Host url)); [done|].
  destruct (dmIndex (alwaysDirect ds) (Domain url)); [done|].
  destruct (dmIndex (alwaysBlocked ds) (Host url)); [done|].
  destruct (dmIndex (alwaysBlocked ds) (Domain url)); [done|].
  destruct (HostIsIP url); [done|].
  by destruct (ParaDmSet.has (direct ds) (Domain url)).
Qed.

(** X8: with the learned-blocked set persisted, [addBlockedURL] returns
    [true] exactly for a request that passes the guard; the registered
    domain is then learned blocked, and when it was not so before, it is
    taken out of the learned-direct set, the blocked flag is raised and the
    direct flag is raised if the domain was learned direct.  No other name
    changes its place, and the time-expiring set is not touched. *)
Theorem addBlockedURL_learned now url w :
  UpdateBlocked config = true →
  let d := Domain url in
  let ds := domainSet w in
  let ds' := domainSet (exec (addBlockedURL config HostIsIP now url) w) in
  let r := eval (addBlockedURL config HostIsIP now url) w in
  r = negb (blockGuard HostIsIP ds url)
  ∧ (r = true →
     ParaDmSet.has (blocked ds') d = true
     ∧ (ParaDmSet.has (blocked ds) d = true → ds' = ds)
     ∧ (ParaDmSet.has (blocked ds) d = false →
        ParaDmSet.has (direct ds') d = false
        ∧ blockedChanged ds' = true
        ∧ directChanged ds'
          = directChanged ds || ParaDmSet.has (direct ds) d))
  ∧ (∀ k, k ≠ d →
       blocked ds' !! k = blocked ds !! k ∧ direct ds' !! k = direct ds !! k)
  ∧ chouSet ds' = chouSet ds.
Proof.
  intros Hc. cbv zeta.
  destruct (addBlockedURL_state now url w) as (-> & -> & _).
  set (ds := domainSet w). set (d := Domain url).
  unfold afterBlocked. rewrite Hc. fold d.
  destruct (blockGuard HostIsIP ds url); simpl; [by split_and!|].
  destruct (ParaDmSet.has (blocked ds) d) eqn:Hb.
  { by split_and!. }
  destruct (learnBlocked_fields d ds) as (Hlb & Hld & Hfb & Hfd & _ & _ & Hch).
  rewrite Hlb, Hld, Hfb, Hfd, Hch. split_and!; try done.
  - intros _. split_and!; try done.
    + apply has_add_eq.
    + intros _. split; [|done].
      destruct (ParaDmSet.has (direct ds) d) eqn:Hd; [|done].
      apply has_del_eq.
  - intros k Hk. unfold ParaDmSet.add, ParaDmSet.del.
    rewrite lookup_insert_ne by done. split; [done|].
    destruct (ParaDmSet.has (direct ds) d); [|done].
    by rewrite lookup_delete_ne.
Qed.

(** X9: [addDirectURL] returns [true] exactly when [config.UpdateDirect] is
    on and the request passes the guard; otherwise it changes nothing.
    When it returns [true] the registered domain is learned direct and not
    learned blocked, the direct flag is raised, and the blocked flag is
    raised if the domain was learned blocked.  No other name changes its
    place, and the time-expiring set is not touched. *)
Theorem addDirectURL_outcome url w :
  let d := Domain url in
  let ds := domainSet w in
  let w' := exec (addDirectURL config HostIsIP url) w in
  let ds' := domainSet w' in
  let r := eval (addDirectURL config HostIsIP url) w in
  r = UpdateDirect config && negb (directGuard HostIsIP ds url)
  ∧ (r = false → w' = w)
  ∧ (r = true →
     ParaDmSet.has (direct ds') d = true
     ∧ ParaDmSet.has (blocked ds') d = false
     ∧ directChanged ds' = true
     ∧ blockedChanged ds'
       = blockedChanged ds || ParaDmSet.has (blocked ds) d)
  ∧ (∀ k, k ≠ d →
       blocked ds' !! k = blocked ds !! k ∧ direct ds' !! k = direct ds !! k)
  ∧ chouSet ds' = chouSet ds.
Proof.
  cbv zeta.
  destruct (addDirectURL_state url w) as (Hr & Hds & _).
  split; [done|]. split.
  { rewrite Hr. destruct w as [ds0 fs lg bl dl].
    unfold directGuard. simpl. runl.
    destruct (UpdateDirect config); simpl; [|done].
    by destruct (isURLInAlwaysDs ds0 url || bool_decide (Domain url = "")
                 || HostIsIP url
                 || ParaDmSet.has (direct ds0) (Domain url)). }
  rewrite Hr, Hds. clear Hr Hds.
  set (ds := domainSet w). set (d := Domain url).
  unfold afterDirect. fold d.
  destruct (UpdateDirect config && negb (directGuard HostIsIP ds url));
    [|by split_and!].
  destruct (learnDirect_fields d ds) as (Hld & Hlb & Hfd & Hfb & _ & _ & Hch).
  rewrite Hld, Hlb, Hfd, Hfb, Hch. split_and!; try done.
  - intros _. split_and!; try done.
    + apply has_add_eq.
    + destruct (ParaDmSet.has (blocked ds) d) eqn:Hb; [|done].
      apply has_del_eq.
  - intros k Hk. unfold ParaDmSet.add, ParaDmSet.del.
    rewrite lookup_insert_ne by done. split; [|done].
    destruct (ParaDmSet.has (blocked ds) d); [|done].
    by rewrite lookup_delete_ne.
Qed.

(** X10: with the learned-blocked set not persisted, [addBlockedURL] never
    touches the learned sets, the dirty flags or the always sets; a
    request that passes the guard leaves its registered domain a member of
    the time-expiring set (the TTL being positive), a domain that is still
    a member leaves the classifier as it is, and no other name gains or
    loses membership at that or any later clock reading. *)
Theorem addBlockedURL_transient now url w :
  UpdateBlocked config = false →
  let d := Domain url in
  let ds := domainSet w in
  let ds' := domainSet (exec (addBlockedURL config HostIsIP now url) w) in
  let r := eval (addBlockedURL config HostIsIP now url) w in
  r = negb (blockGuard HostIsIP ds url)
  ∧ (direct ds' = direct ds ∧ blocked ds' = blocked ds
     ∧ blockedChanged ds' = blockedChanged ds
     ∧ directChanged ds' = directChanged ds
     ∧ alwaysBlocked ds' = alwaysBlocked ds
     ∧ alwaysDirect ds' = alwaysDirect ds)
  ∧ (r = true → 0 < TimeoutSet.timeout (chouSet ds) →
     TimeoutSet.has (chouSet ds') d now = true)
  ∧ (TimeoutSet.has (chouSet ds) d now = true → ds' = ds)
  ∧ (∀ k t, k ≠ d → now ≤ t →
       TimeoutSet.has (chouSet ds') k t = TimeoutSet.has (chouSet ds) k t).
Proof.
  intros Hc. cbv zeta.
  destruct (addBlockedURL_state now url w) as (-> & -> & _).
  set (ds := domainSet w). set (d := Domain url).
  unfold afterBlocked. rewrite Hc. fold d.
  destruct (blockGuard HostIsIP ds url); simpl; [by split_and!|].
  destruct (TimeoutSet.has (chouSet ds) d now) eqn:Hh; [by split_and!|].
  split_and!; try done.
  - intros _ Hpos. simpl. by apply TimeoutSet_has_add.
  - intros k t Hk _. simpl. unfold TimeoutSet.add. rewrite Hh.
    unfold TimeoutSet.has. simpl. by rewrite lookup_insert_ne.
Qed.

(** What [afterRecord] keeps of the classifier. *)
Lemma afterRecord_always r ds :
  let ds' := afterRecord config HostIsIP r ds in
  alwaysBlocked ds' = alwaysBlocked ds ∧ alwaysDirect ds' = alwaysDirect ds.
Proof.
  destruct r as [now url|url]; simpl.
  - unfold afterBlocked. repeat case_match; try done.
    by destruct (learnBlocked_fields (Domain url) ds)
      as (_ & _ & _ & _ & ? & ? & _).
  - unfold afterDirect. case_match; [|done].
    by destruct (learnDirect_fields (Domain url) ds)
      as (_ & _ & _ & _ & ? & ? & _).
Qed.

Lemma runRecords_files rs w :
  let w' := exec (runRecords config HostIsIP rs) w in
  files w' = files w
  ∧ blockedDomainList w' = blockedDomainList w
  ∧ directDomainList w' = directDomainList w.
Proof.
  revert w. induction rs as [|r rs IH]; intros w; [done|].
  cbv zeta in *. rewrite exec_runRecords_cons.
  destruct (IH (exec (runRecord config HostIsIP r) w)) as (-> & -> & ->).
  by destruct (runRecord_state r w) as (_ & ? & ? & ?).
Qed.

(** X11: no sequence of [addBlockedURL] and [addDirectURL] calls changes an
    always set, a file or a seed list; with the learned-blocked set
    persisted the time-expiring set is never touched, and with neither
    learned set persisted the learned sets and the dirty flags stay as they
    are. *)
Theorem learning_frame rs w :
  let ds := domainSet w in
  let w' := exec (runRecords config HostIsIP rs) w in
  let ds' := domainSet w' in
  alwaysBlocked ds' = alwaysBlocked ds
  ∧ alwaysDirect ds' = alwaysDirect ds
  ∧ files w' = files w
  ∧ blockedDomainList w' = blockedDomainList w
  ∧ directDomainList w' = directDomainList w
  ∧ (UpdateBlocked config = true → chouSet ds' = chouSet ds)
  ∧ (UpdateBlocked config = false → UpdateDirect config = false →
     direct ds' = direct ds ∧ blocked ds' = blocked ds
     ∧ blockedChanged ds' = blockedChanged ds
     ∧ directChanged ds' = directChanged ds).
Proof.
  cbv zeta. destruct (runRecords_files rs w) as (Hf & Hb & Hd).
  split_and!; try done.
  - apply (runRecords_invariant
             (λ x, alwaysBlocked x = alwaysBlocked (domainSet w))); [|done].
    intros r x <-. apply afterRecord_always.
  - apply (runRecords_invariant
             (λ x, alwaysDirect x = alwaysDirect (domainSet w))); [|done].
    intros r x <-. apply afterRecord_always.
  - intros Hc.
    apply (runRecords_invariant (λ x, chouSet x = chouSet (domainSet w)));
      [|done].
    intros [now url|url] x <-; simpl.
    + unfold afterBlocked. rewrite Hc. repeat case_match; try done.
      by destruct (learnBlocked_fields (Domain url) x)
        as (_ & _ & _ & _ & _ & _ & ?).
    + unfold afterDirect. case_match; [|done].
      by destruct (learnDirect_fields (Domain url) x)
        as (_ & _ & _ & _ & _ & _ & ?).
  - intros Hcb Hcd.
    apply (runRecords_invariant
             (λ x, direct x = direct (domainSet w)
                   ∧ blocked x = blocked (domainSet w)
                   ∧ blockedChanged x = blockedChanged (domainSet w)
                   ∧ directChanged x = directChanged (domainSet w)));
      [|done].
    intros [now url|url] x (<- & <- & <- & <-); simpl.
    + unfold afterBlocked. rewrite Hcb. by repeat case_match.
    + unfold afterDirect. by rewrite Hcd.
Qed.

(** One learning call raises a dirty flag exactly when it changes the
    set. *)
Lemma afterRecord_flags r ds :
  let ds' := afterRecord config HostIsIP r ds in
  blockedChanged ds'
  = blockedChanged ds || negb (bool_decide (blocked ds' = blocked ds))
  ∧ directChanged ds'
    = directChanged ds || negb (bool_decide (direct ds' = direct ds)).
Proof.
  assert (∀ (m : dmSet) d, ParaDmSet.has m d = false →
            bool_decide (ParaDmSet.add d m = m) = false) as Hadd.
  { intros m d Hm. apply bool_decide_eq_false. intros Heq.
    apply (f_equal (λ x, ParaDmSet.has x d)) in Heq.
    rewrite has_add_eq in Heq. congruence. }
  assert (∀ (m : dmSet) d, ParaDmSet.has m d = true →
            bool_decide (ParaDmSet.del d m = m) = false) as Hdel.
  { intros m d Hm. apply bool_decide_eq_false. intros Heq.
    apply (f_equal (λ x, ParaDmSet.has x d)) in Heq.
    rewrite has_del_eq in Heq. congruence. }
  assert (∀ (f : bool) (m : dmSet),
            f = f || negb (bool_decide (m = m))) as Hsame.
  { intros f m. rewrite bool_decide_eq_true_2 by done.
    by rewrite orb_false_r. }
  destruct r as [now url|url]; simpl.
  - unfold afterBlocked. repeat case_match; try (split; apply Hsame).
    destruct (learnBlocked_fields (Domain url) ds)
      as (-> & -> & -> & -> & _).
    rewrite Hadd by done. rewrite orb_true_r. split; [done|].
    destruct (ParaDmSet.has (direct ds) (Domain url)) eqn:Hd.
    + rewrite Hdel by done. by rewrite !orb_true_r.
    + rewrite orb_false_r. apply Hsame.
  - unfold afterDirect.
    destruct (UpdateDirect config && negb (directGuard HostIsIP ds url))
      eqn:Hg; [|split; apply Hsame].
    apply andb_true_iff in Hg as [_ Hg]. apply negb_true_iff in Hg.
    apply directGuard_false in Hg as (_ & _ & _ & _ & _ & _ & Hnd).
    destruct (learnDirect_fields (Domain url) ds)
      as (-> & -> & -> & -> & _).
    rewrite Hadd by done. rewrite orb_true_r. split; [|done].
    destruct (ParaDmSet.has (blocked ds) (Domain url)) eqn:Hb.
    + rewrite Hdel by done. by rewrite !orb_true_r.
    + rewrite orb_false_r. apply Hsame.
Qed.

(** X12: the dirty flags are a sound record of change: through any
    sequence of learning calls a flag that is set stays set, and a flag
    that is clear at the end tells that its learned set is exactly what it
    was at the start. *)
Theorem dirty_flags_sound rs w :
  let ds := domainSet w in
  let ds' := domainSet (exec (runRecords config HostIsIP rs) w) in
  (blockedChanged ds = true → blockedChanged ds' = true)
  ∧ (blockedChanged ds' = false → blocked ds' = blocked ds)
  ∧ (directChanged ds = true → directChanged ds' = true)
  ∧ (directChanged ds' = false → direct ds' = direct ds).
Proof.
  cbv zeta.
  apply (runRecords_invariant
           (λ x, (blockedChanged (domainSet w) = true →
                  blockedChanged x = true)
                 ∧ (blockedChanged x = false →
                    blocked x = blocked (domainSet w))
                 ∧ (directChanged (domainSet w) = true →
                    directChanged x = true)
                 ∧ (directChanged x = false →
                    direct x = direct (domainSet w)))); [|done].
  intros r x (Hb1 & Hb2 & Hd1 & Hd2).
  destruct (afterRecord_flags r x) as [Hfb Hfd].
  rewrite Hfb, Hfd. split_and!.
  - intros H. by rewrite (Hb1 H).
  - intros [H1 H2]%orb_false_iff. apply negb_false_iff in H2.
    apply bool_decide_eq_true in H2. rewrite H2. by apply Hb2.
  - intros H. by rewrite (Hd1 H).
  - intros [H1 H2]%orb_false_iff. apply negb_false_iff in H2.
    apply bool_decide_eq_true in H2. rewrite H2. by apply Hd2.
Qed.

(** One learning call puts no always-direct name into the learned-blocked
    set and no name of an always set into the learned-direct set. *)
Lemma afterRecord_always_apart r ds d :
  let ds' := afterRecord config HostIsIP r ds in
  (dmIndex (alwaysDirect ds) d = true →
   ParaDmSet.has (blocked ds) d = false →
   ParaDmSet.has (blocked ds') d = false)
  ∧ (dmIndex (alwaysDirect ds) d = true
     ∨ dmIndex (alwaysBlocked ds) d = true →
     ParaDmSet.has (direct ds) d = false →
     ParaDmSet.has (direct ds') d = false).
Proof.
  destruct r as [now url|url]; simpl.
  - unfold afterBlocked.
    destruct (blockGuard HostIsIP ds url) eqn:Hg; [done|].
    apply blockGuard_false in Hg as (_ & _ & Had & _).
    destruct (UpdateBlocked config); [|by case_match].
    destruct (ParaDmSet.has (blocked ds) (Domain url)); [done|].
    destruct (learnBlocked_fields (Domain url) ds) as (-> & -> & _).
    split.
    + intros Hd Hb. rewrite has_add_ne; [done|]. intros ->. congruence.
    + intros _ Hd. case_match; [|done]. by apply has_del_false.
  - unfold afterDirect.
    destruct (UpdateDirect config && negb (directGuard HostIsIP ds url))
      eqn:Hg; [|done].
    apply andb_true_iff in Hg as [_ Hg]. apply negb_true_iff in Hg.
    apply directGuard_false in Hg as (_ & _ & Had & _ & Hab & _).
    destruct (learnDirect_fields (Domain url) ds) as (-> & -> & _).
    split.
    + intros _ Hb. case_match; [|done]. by apply has_del_false.
    + intros Hd Hb. rewrite has_add_ne; [done|].
      intros ->. destruct Hd; congruence.
Qed.

(** X13: learning never puts an always-direct name into the
    learned-blocked set, nor a name of either always set into the
    learned-direct set: a name that is kept apart at the start is kept
    apart through every sequence of learning calls. *)
Theorem always_names_never_learned rs d w :
  let ds := domainSet w in
  let ds' := domainSet (exec (runRecords config HostIsIP rs) w) in
  (dmIndex (alwaysDirect ds) d = true →
   ParaDmSet.has (blocked ds) d = false →
   ParaDmSet.has (blocked ds') d = false)
  ∧ (dmIndex (alwaysDirect ds) d = true
     ∨ dmIndex (alwaysBlocked ds) d = true →
     ParaDmSet.has (direct ds) d = false →
     ParaDmSet.has (direct ds') d = false).
Proof.
  cbv zeta. split.
  - intros Had Hb.
    apply (runRecords_invariant
             (λ x, alwaysDirect x = alwaysDirect (domainSet w)
                   ∧ ParaDmSet.has (blocked x) d = false)); [|done].
    intros r x [Hx Hbx]. split.
    + rewrite <-Hx. apply afterRecord_always.
    + apply afterRecord_always_apart; [by rewrite Hx|done].
  - intros Hal Hd.
    apply (runRecords_invariant
             (λ x, alwaysDirect x = alwaysDirect (domainSet w)
                   ∧ alwaysBlocked x = alwaysBlocked (domainSet w)
                   ∧ ParaDmSet.has (direct x) d = false)); [|done].
    intros r x (Hx1 & Hx2 & Hdx). split_and!.
    + rewrite <-Hx1. apply afterRecord_always.
    + rewrite <-Hx2. apply afterRecord_always.
    + apply afterRecord_always_apart; [by rewrite Hx1, Hx2|done].
Qed.

Lemma afterRecord_allTrue r ds :
  dsAllTrue ds → dsAllTrue (afterRecord config HostIsIP r ds).
Proof.
  intros (Hd & Hb & Hab & Had).
  destruct (afterRecord_always r ds) as [Hab' Had'].
  unfold dsAllTrue. rewrite Hab', Had'.
  cut (dmAllTrue (direct (afterRecord config HostIsIP r ds))
       ∧ dmAllTrue (blocked (afterRecord config HostIsIP r ds))).
  { intros [? ?]. by split_and!. }
  destruct r as [now url|url]; simpl.
  - unfold afterBlocked. repeat case_match; try done.
    destruct (learnBlocked_fields (Domain url) ds) as (-> & -> & _).
    split; [|by apply dmAllTrue_insert].
    case_match; [by apply dmAllTrue_delete|done].
  - unfold afterDirect. case_match; [|done].
    destruct (learnDirect_fields (Domain url) ds) as (-> & -> & _).
    split; [by apply dmAllTrue_insert|].
    case_match; [by apply dmAllTrue_delete|done].
Qed.

Section FurtherLearningQueries.
Variable debug : bool.
Variable splitHostPort : string → string * string.

(** X14: a request for which [addBlockedURL] has just returned [true] is
    reported blocked by [isURLBlocked] at the same clock reading, on the
    learned path and, the TTL being positive, on the time-expiring
    path. *)
Theorem recorded_block_is_blocked now url w :
  portsOk debug splitHostPort url →
  0 < TimeoutSet.timeout (chouSet (domainSet w)) →
  eval (addBlockedURL config HostIsIP now url) w = true →
  isURLBlocked debug splitHostPort
    (domainSet (exec (addBlockedURL config HostIsIP now url) w)) now url
  = Some true.
Proof.
  intros [Hph Hpd] Hpos Hr.
  destruct (addBlockedURL_state now url w) as (Hr' & -> & _).
  rewrite Hr in Hr'. symmetry in Hr'. apply negb_true_iff in Hr'.
  destruct (blockGuard_false _ _ Hr') as (Hne & _ & Had & _).
  set (ds := domainSet w) in *. set (d := Domain url) in *.
  assert (alwaysDirect (afterBlocked config HostIsIP now url ds)
          = alwaysDirect ds) as Had'.
  { apply (afterRecord_always (recordBlocked now url) ds). }
  assert (TimeoutSet.has
            (chouSet (afterBlocked config HostIsIP now url ds)) d now = true
          ∨ ParaDmSet.has
              (blocked (afterBlocked config HostIsIP now url ds)) d = true)
    as Hin.
  { unfold afterBlocked. rewrite Hr'. fold d.
    destruct (UpdateBlocked config).
    - right. destruct (ParaDmSet.has (blocked ds) d) eqn:Hb; [done|].
      destruct (learnBlocked_fields d ds) as (-> & _). apply has_add_eq.
    - left. destruct (TimeoutSet.has (chouSet ds) d now) eqn:Hh; [done|].
      simpl. by apply TimeoutSet_has_add. }
  assert (lookupBlocked debug splitHostPort
            (afterBlocked config HostIsIP now url ds) now d = Some true)
    as Hd.
  { unfold lookupBlocked. rewrite Hpd, Had', Had.
    destruct (dmIndex (alwaysBlocked _) d); [done|].
    destruct Hin as [-> | ->]; [done|].
    by destruct (TimeoutSet.has _ d now). }
  unfold isURLBlocked. rewrite (bool_decide_eq_false_2 _ Hne).
  destruct (lookupBlocked_total debug splitHostPort
              (afterBlocked config HostIsIP now url ds) now _ Hph)
    as [[] ->]; simpl; done.
Qed.

(** X15: a request for which [addDirectURL] has just returned [true] is
    reported direct by [isURLDirect]. *)
Theorem recorded_direct_is_direct url w :
  portsOk debug splitHostPort url →
  eval (addDirectURL config HostIsIP url) w = true →
  isURLDirect debug splitHostPort
    (domainSet (exec (addDirectURL config HostIsIP url) w)) url
  = Some true.
Proof.
  intros [Hph Hpd] Hr.
  destruct (addDirectURL_state url w) as (Hr' & -> & _).
  rewrite Hr in Hr'. symmetry in Hr'.
  apply andb_true_iff in Hr' as [Hc Hg]. apply negb_true_iff in Hg.
  destruct (directGuard_false _ _ Hg) as (Hne & _ & Had & _ & Hab & _).
  set (ds := domainSet w) in *. set (d := Domain url) in *.
  unfold afterDirect. rewrite Hc, Hg. simpl. fold d.
  destruct (learnDirect_fields d ds)
    as (Hld & _ & _ & _ & Hab' & Had' & _).
  assert (lookupDirect debug splitHostPort (learnDirect d ds) d = Some true)
    as Hd.
  { unfold lookupDirect. rewrite Hpd, Had', Hab', Had, Hab, Hld.
    by rewrite has_add_eq. }
  unfold isURLDirect. rewrite (bool_decide_eq_false_2 _ Hne).
  destruct (lookupDirect_total debug splitHostPort (learnDirect d ds) _ Hph)
    as [[] ->]; simpl; done.
Qed.
End FurtherLearningQueries.
End FurtherLearning.

(** ** Load and store *)

Lemma bind_run {A B} (m : M A) (f : A → M B) w :
  (m ≫= f) w = f (m w).1 (m w).2.
Proof. unfold mbind, M_bind. by destruct (m w). Qed.

Lemma loadDomainList_eq fpath w :
  loadDomainList fpath w = (fileNames (files w) fpath, None, w).
Proof.
  unfold fileNames. destruct (files w !! fpath) as [c|] eqn:Hf.
  - by apply loadDomainList_existing.
  - by apply loadDomainList_missing.
Qed.

Lemma loadFromFile_eq fpath (ds : dmSet) w :
  loadFromFile fpath ds w
  = (addList (fileNames (files w) fpath) ds, None, w).
Proof. unfold loadFromFile. by rewrite bind_run, loadDomainList_eq. Qed.

Section FurtherPersistence.
Variable config : Config.
Variable HostIsIP : URL → bool.
Variable dsFile : DsFile.
Variable newLine : string.
Variable isWindows : bool.
Variable mkConfigDir : option error.
Variable path_Join : string → string → string.

(** The first eight statements of [load], in one step. *)
Lemma loadSets_eq w :
  exec (loadSets dsFile) w
  = {| domainSet := withLoadedSets dsFile (files w) (blockedDomainList w)
                      (directDomainList w) (domainSet w);
       files := files w; logged := logged w;
       blockedDomainList := []; directDomainList := [] |}.
Proof.
  destruct w as [ds fs lg bl dl]. unfold loadSets, exec.
  repeat (rewrite bind_run; cbn beta;
          unfold takeBlockedDomainList, takeDirectDomainList, getDs, modifyDs;
          cbn [fst snd domainSet files logged blockedDomainList
               directDomainList];
          rewrite ?loadFromFile_eq;
          cbn [fst snd domainSet files logged blockedDomainList
               directDomainList]).
  rewrite ?loadFromFile_eq. reflexivity.
Qed.

Lemma dmAllTrue_subseteq (m m' : dmSet) : m' ⊆ m → dmAllTrue m → dmAllTrue m'.
Proof.
  intros Hsub Hall k v Hk. apply (Hall k).
  by apply (lookup_weaken _ _ _ _ Hk).
Qed.

Lemma dropAlwaysBlockedFromDirect_seeds ks w :
  let w' := exec (dropAlwaysBlockedFromDirect ks) w in
  blockedDomainList w' = blockedDomainList w
  ∧ directDomainList w' = directDomainList w.
Proof.
  revert w. induction ks as [|k ks IH]; intros w; [done|].
  cbv zeta in *. rewrite dropAlwaysBlockedFromDirect_cons.
  match goal with |- context [exec (dropAlwaysBlockedFromDirect ks) ?x] =>
    destruct (IH x) as [-> ->] end.
  by destruct (dmIndex (alwaysDirect (domainSet w)) k).
Qed.

(** The always sets that [load] leaves, from the sets read. *)
Lemma load_always_sets w k :
  let ds1 := domainSet (exec (loadSets dsFile) w) in
  let ds2 := domainSet (exec (load dsFile) w) in
  alwaysBlocked ds2 = alwaysBlocked ds1
  ∧ alwaysDirect ds2 !! k
    = if dmOk (alwaysBlocked ds1) k && dmIndex (alwaysDirect ds1) k
      then None else alwaysDirect ds1 !! k.
Proof.
  cbv zeta. rewrite load_eq, filterLoaded_eq.
  set (w1 := exec (loadSets dsFile) w).
  destruct (filterLearned_filtered (domainSet w1)) as (Hab & Had & _).
  split.
  - match goal with |- context [exec (dropAlwaysBlockedFromDirect ?ks) ?x] =>
      destruct (keeps_dropAlwaysBlockedFromDirect ks x)
        as (_ & _ & _ & _ & -> & _) end.
    by rewrite domainSet_modifyDs.
  - rewrite dropAlwaysBlockedFromDirect_lookup, domainSet_modifyDs, Hab, Had.
    unfold dmOk. by rewrite (bool_decide_ext _ _ (elem_of_rangeKeys _ k)).
Qed.

(** The sets are apart once [load] has run. *)
Lemma load_apart w k :
  let ds2 := domainSet (exec (load dsFile) w) in
  (is_Some (alwaysDirect ds2 !! k) ∨ is_Some (alwaysBlocked ds2 !! k) →
   dmIndex (blocked ds2) k = false ∧ dmIndex (direct ds2) k = false)
  ∧ (is_Some (blocked ds2 !! k) → dmIndex (direct ds2) k = false)
  ∧ (is_Some (alwaysBlocked ds2 !! k) → dmIndex (alwaysDirect ds2) k = false).
Proof.
  cbv zeta. destruct (load_always_sets w k) as [Hab Had].
  destruct (load_learned_sets dsFile w) as [Hb Hd]. cbv zeta in Hb, Hd.
  set (ds1 := domainSet (exec (loadSets dsFile) w)) in *.
  set (ds2 := domainSet (exec (load dsFile) w)) in *.
  destruct (filterLearned_lookup ds1 k) as [Hlb Hld]. cbv zeta in Hlb, Hld.
  rewrite <-Hb in Hlb, Hld. rewrite <-Hd in Hld.
  assert (is_Some (alwaysDirect ds2 !! k) ∨ is_Some (alwaysBlocked ds2 !! k) →
          dmOk (alwaysDirect ds1) k || dmOk (alwaysBlocked ds1) k = true)
    as Hal.
  { rewrite Hab, Had. intros [H|H].
    - destruct (dmOk (alwaysBlocked ds1) k && dmIndex (alwaysDirect ds1) k).
      + by destruct H.
      + apply dmOk_true in H. by rewrite H.
    - apply dmOk_true in H. rewrite H. by rewrite orb_true_r. }
  split_and!.
  - intros H. specialize (Hal H). unfold dmIndex at 1 2.
    rewrite Hlb, Hld, Hal. simpl. rewrite !andb_true_r.
    unfold dmIndex. split.
    + by destruct (blocked ds1 !! k) as [[]|].
    + by destruct (direct ds1 !! k) as [[]|].
  - intros H. apply dmOk_true in H. unfold dmIndex at 1.
    rewrite Hld. unfold ParaDmSet.has in *. rewrite H.
    rewrite orb_true_r, andb_true_r. unfold dmIndex.
    by destruct (direct ds1 !! k) as [[]|].
  - rewrite Hab. intros H. apply dmOk_true in H. unfold dmIndex at 1.
    rewrite Had, H. simpl. unfold dmIndex.
    by destruct (alwaysDirect ds1 !! k) as [[]|].
Qed.

Lemma load_allTrue w :
  dsAllTrue (domainSet w) → dsAllTrue (domainSet (exec (load dsFile) w)).
Proof.
  intros (Hd & Hb & Hab & Had).
  assert (dsAllTrue (domainSet (exec (loadSets dsFile) w))) as H1.
  { rewrite loadSets_eq. unfold dsAllTrue, withLoadedSets. simpl.
    split_and!; auto using dmAllTrue_addList. }
  destruct H1 as (Hd1 & Hb1 & Hab1 & Had1).
  destruct (load_learned_sets dsFile w) as [Hb2 Hd2]. cbv zeta in Hb2, Hd2.
  destruct (filterLearned_filtered (domainSet (exec (loadSets dsFile) w)))
    as (_ & _ & _ & [Hsb _] & [Hsd _]).
  unfold dsAllTrue. rewrite Hb2, Hd2. split_and!.
  - by apply (dmAllTrue_subseteq _ _ Hsd).
  - by apply (dmAllTrue_subseteq _ _ Hsb).
  - by destruct (load_always_sets w "") as [-> _].
  - intros k v Hk. destruct (load_always_sets w k) as [_ Hl].
    cbv zeta in Hl. rewrite Hl in Hk. apply (Had1 k).
    by destruct (dmOk _ k && dmIndex _ k).
Qed.

Lemma runRecords_allTrue rs w :
  dsAllTrue (domainSet w) →
  dsAllTrue (domainSet (exec (runRecords config HostIsIP rs) w)).
Proof.
  apply (runRecords_invariant config HostIsIP dsAllTrue).
  intros r ds. apply afterRecord_allTrue.
Qed.

(** X16: once [load] has run, no name of an always set is held by a
    learned set, no name of the learned-blocked set is held by the
    learned-direct set, and no name of the always-blocked set is held by
    the always-direct set. *)
Theorem load_separates_sets w k :
  let ds2 := domainSet (exec (load dsFile) w) in
  (is_Some (alwaysDirect ds2 !! k) ∨ is_Some (alwaysBlocked ds2 !! k) →
   dmIndex (blocked ds2) k = false ∧ dmIndex (direct ds2) k = false)
  ∧ (is_Some (blocked ds2 !! k) → dmIndex (direct ds2) k = false)
  ∧ (is_Some (alwaysBlocked ds2 !! k) → dmIndex (alwaysDirect ds2) k = false).
Proof. apply load_apart. Qed.

(** X17: the maps of the classifier only ever hold [true]: when that is
    so before [load], or before a sequence of learning calls, it is so
    after, and it is so in the classifier [newDomainSet] builds; on such
    maps the index read and the comma-ok read agree. *)
Theorem maps_hold_true rs w :
  dsAllTrue newDomainSet
  ∧ (dsAllTrue (domainSet w) →
     let ds' := domainSet (exec (load dsFile;; runRecords config HostIsIP rs)
                             w) in
     dsAllTrue ds'
     ∧ ∀ k, dmIndex (blocked ds') k = ParaDmSet.has (blocked ds') k
            ∧ dmIndex (direct ds') k = ParaDmSet.has (direct ds') k
            ∧ dmIndex (alwaysBlocked ds') k = dmOk (alwaysBlocked ds') k
            ∧ dmIndex (alwaysDirect ds') k = dmOk (alwaysDirect ds') k).
Proof.
  split.
  { unfold dsAllTrue, newDomainSet. simpl.
    split_and!; apply dmAllTrue_empty. }
  intros Hw. cbv zeta. rewrite exec_bind.
  assert (dsAllTrue (domainSet (exec (runRecords config HostIsIP rs)
                                  (exec (load dsFile) w)))) as Hall.
  { by apply runRecords_allTrue, load_allTrue. }
  split; [done|]. destruct Hall as (Hd & Hb & Hab & Had).
  intros k. unfold ParaDmSet.has. split_and!; by apply dmIndex_dmOk.
Qed.

(** The loop over the always-blocked set logs conflict lines only. *)
Lemma dropAlwaysBlockedFromDirect_log_only ks w :
  ∃ new : list LogEntry,
    logged (exec (dropAlwaysBlockedFromDirect ks) w) = (logged w ++ new)%list
    ∧ ∀ e, e ∈ new →
        ∃ k, k ∈ ks ∧ dmIndex (alwaysDirect (domainSet w)) k = true
             ∧ e = Log Errl (alwaysConflict k).
Proof.
  revert w. induction ks as [|k0 ks IH]; intros w.
  { exists []. split; [by rewrite app_nil_r|]. by intros e ?%elem_of_nil. }
  rewrite dropAlwaysBlockedFromDirect_cons.
  destruct w as [ds fs lg bl dl]. simpl.
  destruct (dmIndex (alwaysDirect ds) k0) eqn:Hi.
  - match goal with |- context [exec (dropAlwaysBlockedFromDirect ks) ?x] =>
      destruct (IH x) as (new & Hnew & Hin) end.
    simpl in Hnew, Hin.
    exists (Log Errl (alwaysConflict k0) :: new).
    split. { rewrite Hnew. by rewrite <-app_assoc. }
    intros e [->|He]%elem_of_cons.
    + exists k0. split_and!; [by left|done|done].
    + destruct (Hin e He) as (k & Hk & Hik & ->). exists k.
      split_and!; [by right| |done].
      unfold dmIndex in *. destruct (decide (k = k0)) as [->|Hne].
      * by rewrite lookup_delete_eq in Hik.
      * by rewrite lookup_delete_ne in Hik.
  - destruct (IH (mkWorld ds fs lg bl dl)) as (new & Hnew & Hin).
    exists new. split; [done|]. intros e He.
    destruct (Hin e He) as (k & Hk & Hik & ->). exists k.
    split_and!; [by right|done|done].
Qed.

(** X18: [load] writes no file and leaves the time-expiring set alone; it
    uses up both seed lists; and all it logs are the warnings for the
    names found in both always sets, so that it logs nothing when the
    always sets read are apart. *)
Theorem load_frame w :
  let ds1 := domainSet (exec (loadSets dsFile) w) in
  let w' := exec (load dsFile) w in
  files w' = files w
  ∧ chouSet (domainSet w') = chouSet (domainSet w)
  ∧ blockedDomainList w' = [] ∧ directDomainList w' = []
  ∧ ∃ new : list LogEntry,
      logged w' = (logged w ++ new)%list
      ∧ (∀ e, e ∈ new →
           ∃ k, is_Some (alwaysBlocked ds1 !! k)
                ∧ alwaysDirect ds1 !! k = Some true
                ∧ e = Log Errl (alwaysConflict k))
      ∧ ((∀ k, is_Some (alwaysBlocked ds1 !! k) →
               dmIndex (alwaysDirect ds1) k = false) → new = []).
Proof.
  cbv zeta. rewrite load_eq, filterLoaded_eq.
  set (w1 := exec (loadSets dsFile) w).
  destruct (filterLearned_filtered (domainSet w1)) as (Hab & Had & Hch & _).
  assert (files w1 = files w ∧ logged w1 = logged w
          ∧ blockedDomainList w1 = [] ∧ directDomainList w1 = []
          ∧ chouSet (domainSet w1) = chouSet (domainSet w))
    as (Hf1 & Hl1 & Hb1 & Hd1 & Hc1).
  { unfold w1. by rewrite loadSets_eq. }
  match goal with |- context [exec (dropAlwaysBlockedFromDirect ?ks) ?x] =>
    destruct (keeps_dropAlwaysBlockedFromDirect ks x)
      as (_ & _ & _ & _ & _ & Hch' & Hf');
    destruct (dropAlwaysBlockedFromDirect_seeds ks x) as [Hsb Hsd];
    destruct (dropAlwaysBlockedFromDirect_log_only ks x)
      as (new & Hnew & Hin) end.
  cbv zeta in Hsb, Hsd.
  rewrite Hf', Hch', Hsb, Hsd, Hnew, domainSet_modifyDs, Hch.
  split_and!; try done.
  exists new. rewrite logged_modifyDs, Hl1. split; [done|].
  assert (∀ e, e ∈ new →
            ∃ k, is_Some (alwaysBlocked (domainSet w1) !! k)
                 ∧ alwaysDirect (domainSet w1) !! k = Some true
                 ∧ e = Log Errl (alwaysConflict k)) as Hall.
  { intros e He. destruct (Hin e He) as (k & Hk & Hik & ->). exists k.
    rewrite domainSet_modifyDs, Had in Hik. rewrite Hab in Hk.
    split_and!; [by apply elem_of_rangeKeys|by apply dmIndex_true|done]. }
  split; [done|]. intros Hapart.
  destruct new as [|e new]; [done|]. exfalso.
  destruct (Hall e) as (k & Hk & Hik & _); [by left|].
  specialize (Hapart k Hk). apply dmIndex_true in Hik. congruence.
Qed.

Lemma addList_addList_empty (l1 l2 : list string) k :
  addList l2 (addList l1 newDmSet) !! k
  = if bool_decide (k ∈ (l1 ++ l2)%list) then Some true else None.
Proof.
  rewrite !addList_lookup. unfold newDmSet. rewrite lookup_empty.
  destruct (decide (k ∈ l2)) as [H2|H2].
  { rewrite (bool_decide_eq_true_2 _ H2).
    rewrite bool_decide_eq_true_2; [done|]. apply elem_of_app. by right. }
  rewrite (bool_decide_eq_false_2 _ H2).
  apply (f_equal (λ b : bool, if b then Some true else None)).
  apply bool_decide_ext. rewrite elem_of_app.
  split; [by left|by intros [?|?]].
Qed.

(** The four sets that [load] builds from an empty classifier. *)
Lemma load_startup_sets w k :
  domainSet w = newDomainSet →
  let ds2 := domainSet (exec (load dsFile) w) in
  let b := bool_decide (k ∈ (blockedDomainList w
                             ++ fileNames (files w) (dsBlocked dsFile))%list) in
  let d := bool_decide (k ∈ (directDomainList w
                             ++ fileNames (files w) (dsDirect dsFile))%list) in
  let ab := bool_decide (k ∈ fileNames (files w) (dsAlwaysBlocked dsFile)) in
  let ad := bool_decide (k ∈ fileNames (files w) (dsAlwaysDirect dsFile)) in
  ParaDmSet.has (blocked ds2) k = b && negb ad && negb ab
  ∧ ParaDmSet.has (direct ds2) k = d && negb ad && negb ab && negb b
  ∧ dmOk (alwaysBlocked ds2) k = ab
  ∧ dmOk (alwaysDirect ds2) k = ad && negb ab.
Proof.
  intros Hnew. cbv zeta.
  destruct (load_always_sets w k) as [Hab Had].
  destruct (load_learned_sets dsFile w) as [Hb Hd]. cbv zeta in Hb, Hd.
  destruct (filterLearned_lookup (domainSet (exec (loadSets dsFile) w)) k)
    as [Hlb Hld]. cbv zeta in Hlb, Hld.
  rewrite <-Hb in Hlb, Hld. rewrite <-Hd in Hld.
  cbv zeta in Hab, Had. unfold ParaDmSet.has. unfold dmOk at 1 2 3 4.
  rewrite Hlb, Hld, Hab, Had. unfold dmOk. rewrite Hlb.
  clear Hlb Hld Hab Had Hb Hd.
  rewrite loadSets_eq, Hnew. unfold dmOk, dmIndex.
  simpl. unfold ParaDmSet.newParaDmSet.
  rewrite !addList_addList_empty.
  rewrite !(addList_lookup _ newDmSet). unfold newDmSet.
  rewrite !lookup_empty.
  set (b := bool_decide (k ∈ (blockedDomainList w ++ _)%list)).
  set (d := bool_decide (k ∈ (directDomainList w ++ _)%list)).
  set (ab := bool_decide (k ∈ fileNames _ (dsAlwaysBlocked dsFile))).
  set (ad := bool_decide (k ∈ fileNames _ (dsAlwaysDirect dsFile))).
  clearbody b d ab ad.
  destruct b, d, ab, ad; simpl;
    rewrite ?bool_is_Some, ?(@bool_is_None bool); simpl;
    rewrite ?bool_is_Some, ?(@bool_is_None bool); done.
Qed.

(** X19: what [load] builds at start-up, name by name: the learned-blocked
    set holds the names of its seed list and file that no always file
    names; the learned-direct set holds the names of its seed list and
    file that neither an always file nor the learned-blocked seed list and
    file name; the always-blocked set holds the names of its file, and the
    always-direct set the names of its file that the always-blocked file
    does not name. *)
Theorem load_at_startup w k :
  domainSet w = newDomainSet →
  let ds2 := domainSet (exec (load dsFile) w) in
  let b := bool_decide (k ∈ (blockedDomainList w
                             ++ fileNames (files w) (dsBlocked dsFile))%list) in
  let d := bool_decide (k ∈ (directDomainList w
                             ++ fileNames (files w) (dsDirect dsFile))%list) in
  let ab := bool_decide (k ∈ fileNames (files w) (dsAlwaysBlocked dsFile)) in
  let ad := bool_decide (k ∈ fileNames (files w) (dsAlwaysDirect dsFile)) in
  ParaDmSet.has (blocked ds2) k = b && negb ad && negb ab
  ∧ ParaDmSet.has (direct ds2) k = d && negb ad && negb ab && negb b
  ∧ dmOk (alwaysBlocked ds2) k = ab
  ∧ dmOk (alwaysDirect ds2) k = ad && negb ab.
Proof. apply load_startup_sets. Qed.

Ltac run_store := unfold storeDomainList, renameTmp, os_Rename, os_Create,
  WriteString, os_Remove, isFileExists, getFiles, modifyFiles, Printf,
  mbind, M_bind, mret, M_ret, exec, eval; simpl.

Ltac file_step := first
  [ rewrite lookup_insert_eq | rewrite lookup_delete_eq
  | rewrite lookup_insert_ne by done | rewrite lookup_delete_ne by done
  | rewrite bool_is_Some | rewrite bool_is_None
  | rewrite insert_insert_eq
  | match goal with H : _ !! _ = _ |- _ => rewrite H end
  | rewrite bool_decide_eq_true_2 by done
  | rewrite bool_decide_eq_false_2 by done ]; simpl.

(** X20: [storeDomainList] works on two files only, the target and the
    temporary file [tmpdomain] of the configuration directory: every other
    file, the classifier and the seed lists are left as they were.  When
    [mkConfigDir] fails, its error is returned and nothing at all is
    done.  When no error is reported, the target holds the sorted names
    and the temporary file is gone. *)
Theorem storeDomainList_frame fpath lst w :
  let tmp := path_Join (dsDir dsFile) "tmpdomain" in
  let m := storeDomainList dsFile newLine isWindows mkConfigDir path_Join
             fpath lst in
  sameDs w (exec m w)
  ∧ (∀ p, p ≠ fpath → p ≠ tmp → files (exec m w) !! p = files w !! p)
  ∧ (is_Some mkConfigDir → m w = (mkConfigDir, w))
  ∧ (eval m w = None →
     files (exec m w) !! fpath = Some (Join (sortStrings lst) newLine)
     ∧ (tmp ≠ fpath → files (exec m w) !! tmp = None)).
Proof.
  cbv zeta. split; [apply keepsDs_storeDomainList|].
  destruct w as [ds fs lg bl dl]. run_store.
  destruct mkConfigDir as [e|]; simpl.
  { split_and!; [done|done|done]. }
  set (tmp := path_Join (dsDir dsFile) "tmpdomain").
  set (all := Join (sortStrings lst) newLine).
  split_and!.
  - intros p Hp Hpt.
    assert (fpath ≠ p) as Hp' by done. assert (tmp ≠ p) as Hpt' by done.
    destruct isWindows; simpl.
    + destruct (decide (tmp = fpath)) as [<-|Hne].
      * repeat file_step. done.
      * destruct (fs !! fpath) as [c|] eqn:Hf; repeat file_step; done.
    + repeat file_step. done.
  - by intros [? ?].
  - destruct isWindows; simpl.
    + destruct (decide (tmp = fpath)) as [<-|Hne].
      * repeat file_step. done.
      * destruct (fs !! fpath) as [c|] eqn:Hf; repeat file_step; done.
    + repeat file_step. destruct (decide (tmp = fpath)) as [<-|Hne];
        repeat file_step; done.
Qed.

(** X21: [loadFromFile] reports no error and changes nothing in the
    world; the set it returns is the set given with the names of the file
    added, and is the set given when there is no such file. *)
Theorem loadFromFile_outcome fpath (ds : dmSet) w k :
  let r := eval (loadFromFile fpath ds) w in
  exec (loadFromFile fpath ds) w = w
  ∧ r.2 = None
  ∧ dmOk r.1 k = bool_decide (k ∈ fileNames (files w) fpath) || dmOk ds k
  ∧ (files w !! fpath = None → r.1 = ds).
Proof.
  cbv zeta. unfold exec, eval. rewrite loadFromFile_eq. simpl.
  split_and!; try done.
  - unfold dmOk. rewrite addList_lookup.
    destruct (bool_decide (k ∈ fileNames (files w) fpath));
      [apply bool_is_Some|done].
  - intros Hf. unfold fileNames. by rewrite Hf.
Qed.

Lemma fileNames_lookup (fs fs' : FS) fpath :
  fs' !! fpath = fs !! fpath → fileNames fs' fpath = fileNames fs fpath.
Proof. intros H. unfold fileNames. by rewrite H. Qed.

Lemma fileNames_stored (fs : FS) fpath l :
  lineSeparator newLine → Forall nameOk l →
  fs !! fpath = Some (Join (sortStrings l) newLine) →
  fileNames fs fpath = sortStrings l.
Proof.
  intros Hsep Hl Hf. unfold fileNames. rewrite Hf.
  assert (Forall nameOk (sortStrings l)) as Hl'.
  { by rewrite sortStrings_Permutation. }
  destruct Hsep as [->| ->].
  - pose proof (readDomains_Join "" _ [] (or_introl eq_refl) Hl') as H.
    change ("" ++ LF) with LF in H. by rewrite H.
  - by rewrite (readDomains_Join CR _ [] (or_intror eq_refl) Hl').
Qed.

Lemma bool_decide_elem_of_app (l1 l2 : list string) k :
  bool_decide (k ∈ (l1 ++ l2)%list)
  = bool_decide (k ∈ l1) || bool_decide (k ∈ l2).
Proof.
  destruct (decide (k ∈ l1)) as [H1|H1], (decide (k ∈ l2)) as [H2|H2].
  - rewrite (bool_decide_eq_true_2 _ H1). simpl.
    apply bool_decide_eq_true_2, elem_of_app. by left.
  - rewrite (bool_decide_eq_true_2 _ H1). simpl.
    apply bool_decide_eq_true_2, elem_of_app. by left.
  - rewrite (bool_decide_eq_false_2 _ H1), (bool_decide_eq_true_2 _ H2).
    simpl. apply bool_decide_eq_true_2, elem_of_app. by right.
  - rewrite (bool_decide_eq_false_2 _ H1), (bool_decide_eq_false_2 _ H2).
    simpl. apply bool_decide_eq_false_2. rewrite elem_of_app.
    by intros [?|?].
Qed.

Lemma elem_of_sorted_slice (m : dmSet) k :
  bool_decide (k ∈ sortStrings (toSlice m)) = dmOk m k.
Proof.
  unfold dmOk. apply bool_decide_ext.
  rewrite sortStrings_Permutation. apply elem_of_rangeKeys.
Qed.

(** X22: a set of names written by [toSlice] and [storeDomainList] and
    read back by [loadFromFile] into an empty set is the same set, when
    the store reports no error, the set holds [true] only and its names
    are not empty, have no white space around them and hold no line
    feed. *)
Theorem set_store_load_roundtrip fpath (m : dmSet) w :
  lineSeparator newLine → dmAllTrue m → Forall nameOk (toSlice m) →
  eval (storeDomainList dsFile newLine isWindows mkConfigDir path_Join
          fpath (toSlice m)) w = None →
  let w' := exec (storeDomainList dsFile newLine isWindows mkConfigDir
                    path_Join fpath (toSlice m)) w in
  eval (loadFromFile fpath newDmSet) w' = (m, None).
Proof.
  intros Hsep Hall Hnames Hok. cbv zeta.
  pose proof (storeDomainList_ok dsFile newLine isWindows mkConfigDir
                path_Join fpath (toSlice m) w Hok) as Hf.
  unfold eval. rewrite loadFromFile_eq. simpl. f_equal.
  rewrite (fileNames_stored _ _ _ Hsep Hnames Hf).
  apply map_eq. intros k. rewrite addList_lookup, elem_of_sorted_slice.
  unfold newDmSet, dmOk. rewrite lookup_empty.
  destruct (m !! k) as [v|] eqn:Hk.
  - by rewrite bool_is_Some, (Hall k v Hk).
  - by rewrite (@bool_is_None bool).
Qed.

Lemma afterRecord_exclusive r ds d :
  ¬ inBothLearned ds d →
  ¬ inBothLearned (afterRecord config HostIsIP r ds) d.
Proof.
  intros H.
  destruct (runRecord_state config HostIsIP r
              {| domainSet := ds; files := ∅; logged := [];
                 blockedDomainList := []; directDomainList := [] |})
    as [Hs _].
  cbv zeta in Hs. simpl in Hs. rewrite <-Hs.
  by apply runRecord_exclusive.
Qed.

(** X23: the classifier that [load] and any sequence of learning calls
    after it leave is consistent: no name is in both learned sets, no
    always-direct name is in a learned set, and no always-blocked name is
    in the learned-direct set or in the always-direct set. *)
Theorem classifier_consistent rs w d :
  dsAllTrue (domainSet w) →
  let ds' := domainSet (exec (load dsFile;; runRecords config HostIsIP rs)
                          w) in
  ¬ inBothLearned ds' d
  ∧ (dmOk (alwaysDirect ds') d = true →
     ParaDmSet.has (blocked ds') d = false
     ∧ ParaDmSet.has (direct ds') d = false)
  ∧ (dmOk (alwaysBlocked ds') d = true →
     ParaDmSet.has (direct ds') d = false
     ∧ dmOk (alwaysDirect ds') d = false).
Proof.
  intros Hw. cbv zeta. rewrite exec_bind.
  set (w1 := exec (load dsFile) w).
  destruct (load_allTrue w Hw) as (Hd1 & Hb1 & Hab1 & Had1).
  destruct (load_apart w d) as (Ha & Hb & Hc). cbv zeta in Ha, Hb, Hc.
  fold w1 in Hd1, Hb1, Hab1, Had1, Ha, Hb, Hc.
  set (P := λ x : DomainSet,
         alwaysDirect x = alwaysDirect (domainSet w1)
         ∧ alwaysBlocked x = alwaysBlocked (domainSet w1)
         ∧ ¬ inBothLearned x d
         ∧ (dmIndex (alwaysDirect (domainSet w1)) d = true →
            ParaDmSet.has (blocked x) d = false)
         ∧ (dmIndex (alwaysDirect (domainSet w1)) d = true
            ∨ dmIndex (alwaysBlocked (domainSet w1)) d = true →
            ParaDmSet.has (direct x) d = false)).
  assert (P (domainSet (exec (runRecords config HostIsIP rs) w1)))
    as (HAD & HAB & Hex & Hnb & Hnd).
  { apply (runRecords_invariant config HostIsIP P).
    - intros r x (Hx1 & Hx2 & Hx3 & Hx4 & Hx5).
      destruct (afterRecord_always config HostIsIP r x) as [Hab' Had'].
      destruct (afterRecord_always_apart config HostIsIP r x d) as [Hp1 Hp2].
      cbv zeta in Hab', Had', Hp1, Hp2. rewrite Hx1 in Hp1.
      rewrite Hx1, Hx2 in Hp2.
      unfold P. split_and!.
      + by rewrite Had'.
      + by rewrite Hab'.
      + by apply afterRecord_exclusive.
      + intros H. by apply Hp1, Hx4.
      + intros H. by apply Hp2, Hx5.
    - unfold P. split_and!; [done|done| | |].
      + intros [H1 H2]. unfold ParaDmSet.has in H1, H2.
        rewrite <-(dmIndex_dmOk _ _ Hd1) in H2.
        apply bool_decide_eq_true in H1. rewrite (Hb H1) in H2. done.
      + intros H. unfold ParaDmSet.has.
        rewrite <-(dmIndex_dmOk _ _ Hb1). apply Ha. left.
        apply dmIndex_true in H. by rewrite H.
      + intros H. unfold ParaDmSet.has.
        rewrite <-(dmIndex_dmOk _ _ Hd1). apply Ha.
        destruct H as [H|H]; apply dmIndex_true in H; rewrite H; eauto. }
  rewrite HAD, HAB. rewrite <-(dmIndex_dmOk _ _ Had1), <-(dmIndex_dmOk _ _ Hab1).
  split_and!; [done| |].
  - intros H. split; [by apply Hnb|]. apply Hnd. by left.
  - intros H. split; [apply Hnd; by right|]. apply Hc.
    apply dmIndex_true in H. by rewrite H.
Qed.

(** The files after a [storeDomainList] whose target is not the temporary
    file and whose [mkConfigDir] succeeds. *)
Lemma storeDomainList_lookup fpath lst w p :
  mkConfigDir = None → path_Join (dsDir dsFile) "tmpdomain" ≠ fpath →
  files (exec (storeDomainList dsFile newLine isWindows mkConfigDir
                 path_Join fpath lst) w) !! p
  = if decide (p = fpath) then Some (Join (sortStrings lst) newLine)
    else if decide (p = path_Join (dsDir dsFile) "tmpdomain") then None
    else files w !! p.
Proof.
  intros Hmk Hne. destruct w as [ds fs lg bl dl]. run_store.
  rewrite Hmk. simpl.
  set (tmp := path_Join (dsDir dsFile) "tmpdomain") in *.
  set (all := Join (sortStrings lst) newLine).
  assert (match fs !! fpath with Some _ => true | None => false end
          = bool_decide (is_Some (fs !! fpath))) as Hex.
  { by destruct (fs !! fpath); rewrite ?bool_is_Some, ?(@bool_is_None bool). }
  destruct (decide (p = fpath)) as [->|Hp].
  - destruct isWindows; simpl.
    + destruct (fs !! fpath) as [c|] eqn:Hf; repeat file_step; done.
    + repeat file_step. done.
  - assert (fpath ≠ p) as Hp' by done.
    destruct (decide (p = tmp)) as [->|Hpt].
    + destruct isWindows; simpl.
      * destruct (fs !! fpath) as [c|] eqn:Hf; repeat file_step; done.
      * repeat file_step. done.
    + assert (tmp ≠ p) as Hpt' by done.
      destruct isWindows; simpl.
      * destruct (fs !! fpath) as [c|] eqn:Hf; repeat file_step; done.
      * repeat file_step. done.
Qed.

(** X24: what a restart brings back.  Both learned sets are dirty and
    persistent, [mkConfigDir] succeeds, the four list files and the
    temporary file are five different paths and the learned names are fit
    for a line each.  Then [load], run on a newly built classifier over
    the files that [store] leaves, with whatever seed lists the restarted
    program has, gives a learned-blocked set that holds the names seeded
    or learned blocked that no always file names, and a learned-direct set
    that holds the names seeded or learned direct that no always file
    names and that are not seeded or learned blocked as well.  So a name
    that no always file and no seed list names, and that is not in both
    learned sets, comes back as it was. *)
Theorem store_restart_load w w0 k :
  lineSeparator newLine → mkConfigDir = None →
  UpdateBlocked config = true → UpdateDirect config = true →
  blockedChanged (domainSet w) = true → directChanged (domainSet w) = true →
  NoDup [dsBlocked dsFile; dsDirect dsFile; dsAlwaysBlocked dsFile;
         dsAlwaysDirect dsFile; path_Join (dsDir dsFile) "tmpdomain"] →
  Forall nameOk (toSlice (blocked (domainSet w))) →
  Forall nameOk (toSlice (direct (domainSet w))) →
  domainSet w0 = newDomainSet →
  files w0 = files (exec (store config dsFile newLine isWindows mkConfigDir
                            path_Join) w) →
  let ds := domainSet w in
  let ds2 := domainSet (exec (load dsFile) w0) in
  let ab := bool_decide (k ∈ fileNames (files w) (dsAlwaysBlocked dsFile)) in
  let ad := bool_decide (k ∈ fileNames (files w) (dsAlwaysDirect dsFile)) in
  let b := bool_decide (k ∈ blockedDomainList w0)
           || ParaDmSet.has (blocked ds) k in
  let d := bool_decide (k ∈ directDomainList w0)
           || ParaDmSet.has (direct ds) k in
  ParaDmSet.has (blocked ds2) k = b && negb ad && negb ab
  ∧ ParaDmSet.has (direct ds2) k = d && negb ad && negb ab && negb b
  ∧ (ad = false → ab = false →
     k ∉ blockedDomainList w0 → k ∉ directDomainList w0 →
     ¬ inBothLearned ds k →
     ParaDmSet.has (blocked ds2) k = ParaDmSet.has (blocked ds) k
     ∧ ParaDmSet.has (direct ds2) k = ParaDmSet.has (direct ds) k).
Proof.
  intros Hsep Hmk Hub Hud Hbc Hdc Hnd Hnb Hndir Hnew Hf0. cbv zeta.
  set (tmp := path_Join (dsDir dsFile) "tmpdomain") in *.
  apply NoDup_cons in Hnd as [Hn1 Hnd]. apply NoDup_cons in Hnd as [Hn2 Hnd].
  apply NoDup_cons in Hnd as [Hn3 Hnd]. apply NoDup_cons in Hnd as [Hn4 _].
  rewrite !not_elem_of_cons in Hn1. rewrite !not_elem_of_cons in Hn2.
  rewrite !not_elem_of_cons in Hn3. rewrite !not_elem_of_cons in Hn4.
  destruct Hn1 as (Hbd & Hbab & Hbad & Hbt & _).
  destruct Hn2 as (Hdab & Hdad & Hdt & _).
  destruct Hn3 as (_ & Habt & _). destruct Hn4 as (Hadt & _).
  assert (∀ p, files (exec (store config dsFile newLine isWindows mkConfigDir
                              path_Join) w) !! p
               = if decide (p = dsDirect dsFile)
                 then Some (Join (sortStrings (toSlice (direct (domainSet w))))
                              newLine)
                 else if decide (p = tmp) then None
                 else if decide (p = dsBlocked dsFile)
                 then Some (Join (sortStrings (toSlice (blocked (domainSet w))))
                              newLine)
                 else if decide (p = tmp) then None
                 else files w !! p) as Hfiles.
  { intros p. rewrite store_eq. unfold exec at 2.
    rewrite storeBlockedDs_eq, Hub, Hbc. simpl.
    set (w1 := exec (storeDomainList dsFile newLine isWindows mkConfigDir
                       path_Join (dsBlocked dsFile)
                       (toSlice (blocked (domainSet w)))) w).
    destruct (keepsDs_storeDomainList dsFile newLine isWindows mkConfigDir
                path_Join (dsBlocked dsFile)
                (toSlice (blocked (domainSet w))) w) as (Hds1 & _).
    fold w1 in Hds1. unfold exec at 1.
    rewrite storeDirectDs_eq, Hud, Hds1, Hdc. simpl.
    rewrite storeDomainList_lookup by done. fold tmp.
    unfold w1. rewrite storeDomainList_lookup by done. done. }
  set (w' := exec (store config dsFile newLine isWindows mkConfigDir
                     path_Join) w) in *.
  destruct (load_startup_sets w0 k Hnew) as (Hb2 & Hd2 & _).
  cbv zeta in Hb2, Hd2. rewrite Hf0 in Hb2, Hd2.
  assert (fileNames (files w') (dsBlocked dsFile)
          = sortStrings (toSlice (blocked (domainSet w)))) as Hfb.
  { apply fileNames_stored; [done|done|]. rewrite Hfiles.
    rewrite decide_False by done. rewrite decide_False by done.
    by rewrite decide_True. }
  assert (fileNames (files w') (dsDirect dsFile)
          = sortStrings (toSlice (direct (domainSet w)))) as Hfd.
  { apply fileNames_stored; [done|done|]. rewrite Hfiles.
    by rewrite decide_True. }
  assert (fileNames (files w') (dsAlwaysBlocked dsFile)
          = fileNames (files w) (dsAlwaysBlocked dsFile)) as Hfab.
  { apply fileNames_lookup. rewrite Hfiles.
    by rewrite !decide_False by done. }
  assert (fileNames (files w') (dsAlwaysDirect dsFile)
          = fileNames (files w) (dsAlwaysDirect dsFile)) as Hfad.
  { apply fileNames_lookup. rewrite Hfiles.
    by rewrite !decide_False by done. }
  rewrite Hfb, Hfab, Hfad, bool_decide_elem_of_app, elem_of_sorted_slice
    in Hb2.
  rewrite Hfb, Hfd, Hfab, Hfad, !bool_decide_elem_of_app,
    !elem_of_sorted_slice in Hd2.
  fold (ParaDmSet.has (blocked (domainSet w)) k) in Hb2, Hd2.
  fold (ParaDmSet.has (direct (domainSet w)) k) in Hd2.
  split_and!; [done|done|].
  intros Had Hab Hsb Hsd Hex. rewrite Hb2, Hd2, Had, Hab.
  rewrite (bool_decide_eq_false_2 _ Hsb), (bool_decide_eq_false_2 _ Hsd).
  simpl. rewrite !andb_true_r. split; [done|].
  unfold inBothLearned in Hex.
  destruct (ParaDmSet.has (blocked (domainSet w)) k),
    (ParaDmSet.has (direct (domainSet w)) k); simpl; try done.
  by destruct Hex.
Qed.
End FurtherPersistence.

(** ** Concrete runs of the further properties *)

Lemma paraDmSet_laws_witness :
  ParaDmSet.has (ParaDmSet.add "a.com" newDmSet) "b.com"
  = ParaDmSet.has newDmSet "b.com"
  ∧ ParaDmSet.del "a.com" newDmSet = newDmSet.
Proof.
  split.
  - refine (proj1 (proj1 (proj2 (proj2
      (paraDmSet_laws newDmSet "a.com" "b.com"))) _)).
    discriminate.
  - refine (proj1 (proj2 (proj2 (proj2 (proj2
      (paraDmSet_laws newDmSet "a.com" "b.com"))))) _).
    vm_compute. reflexivity.
Defined.

Lemma addList_members_witness :
  addList ["a.com"; "b.com"] newDmSet = addList ["b.com"; "a.com"] newDmSet.
Proof.
  refine (proj2 (proj2 (proj2
    (addList_members ["a.com"; "b.com"] newDmSet "a.com")))
    ["b.com"; "a.com"] _).
  apply perm_swap.
Defined.

Lemma toSlice_keys_witness :
  "x.com" ∈ toSlice (blocked (domainSet Sample.dirtyBlocked)).
Proof.
  refine (proj2 (proj2 (proj2
    (toSlice_keys (blocked (domainSet Sample.dirtyBlocked)))) "x.com") _).
  exists true. vm_compute. reflexivity.
Defined.

Lemma isURLInAlwaysDs_split_witness :
  isURLAlwaysDirect newDomainSet Sample.localhost = true
  ∧ isURLAlwaysBlocked newDomainSet Sample.localhost = false.
Proof.
  refine (proj2 (isURLInAlwaysDs_split newDomainSet Sample.localhost) _).
  reflexivity.
Defined.

Lemma alwaysBlocked_precedence_witness :
  let ds := domainSet (exec (load Sample.dsFile)
                         (Sample.start Sample.conflictFiles)) in
  isURLBlocked true Sample.splitHostPort ds 0 Sample.aCom = Some true.
Proof.
  refine (alwaysBlocked_precedence true Sample.splitHostPort
            (domainSet (exec (load Sample.dsFile)
                          (Sample.start Sample.conflictFiles)))
            0 Sample.aCom _ _ _).
  - split; vm_compute; reflexivity.
  - intros k Hk.
    refine (proj2 (proj2 (load_apart Sample.dsFile
                            (Sample.start Sample.conflictFiles) k)) _).
    apply dmIndex_true in Hk. rewrite Hk. exists true. reflexivity.
  - vm_compute. reflexivity.
Defined.

Lemma lookups_compared_witness :
  let ds := domainSet (exec (load Sample.dsFile)
                         (Sample.start Sample.conflictFiles)) in
  lookupBlocked true Sample.splitHostPort ds 0 "a.com"
  = negb <$> lookupDirect true Sample.splitHostPort ds "a.com".
Proof.
  refine (proj1 (proj2 (proj2
    (lookups_compared true Sample.splitHostPort
       (domainSet (exec (load Sample.dsFile)
                     (Sample.start Sample.conflictFiles))) 0 "a.com"))) _).
  right. vm_compute. reflexivity.
Defined.

Lemma queries_panic_free_witness :
  isURLBlocked true Sample.splitHostPort newDomainSet 0 Sample.localhost
  = Some false
  ∧ isURLDirect true Sample.splitHostPort newDomainSet Sample.localhost
    = Some true.
Proof.
  refine (proj1 (queries_panic_free true Sample.splitHostPort newDomainSet 0
                   Sample.localhost) _).
  reflexivity.
Defined.

Lemma addBlockedURL_learned_witness :
  let w' := exec (addBlockedURL Sample.persistBoth Sample.HostIsIP 0
                    Sample.xCom) (Sample.start ∅) in
  ParaDmSet.has (blocked (domainSet w')) "x.com" = true.
Proof.
  refine (proj1 (proj1 (proj2
    (addBlockedURL_learned Sample.persistBoth Sample.HostIsIP 0 Sample.xCom
       (Sample.start ∅) _)) _)).
  - reflexivity.
  - vm_compute. reflexivity.
Defined.

Lemma addDirectURL_outcome_witness :
  let w' := exec (addDirectURL Sample.persistBoth Sample.HostIsIP
                    Sample.aCom) (Sample.start ∅) in
  ParaDmSet.has (direct (domainSet w')) "a.com" = true.
Proof.
  refine (proj1 (proj1 (proj2 (proj2
    (addDirectURL_outcome Sample.persistBoth Sample.HostIsIP Sample.aCom
       (Sample.start ∅)))) _)).
  vm_compute. reflexivity.
Defined.

Lemma addBlockedURL_transient_witness :
  let w' := exec (addBlockedURL Sample.persistNone Sample.HostIsIP 0
                    Sample.xCom) (Sample.start ∅) in
  TimeoutSet.has (chouSet (domainSet w')) "x.com" 0 = true.
Proof.
  refine (proj1 (proj2 (proj2
    (addBlockedURL_transient Sample.persistNone Sample.HostIsIP 0
       Sample.xCom (Sample.start ∅) _))) _ _).
  - reflexivity.
  - vm_compute. reflexivity.
  - vm_compute. reflexivity.
Defined.

Lemma learning_frame_witness :
  let rs := [recordBlocked 0 Sample.xCom; recordDirect Sample.aCom] in
  let w' := exec (runRecords Sample.persistBoth Sample.HostIsIP rs)
              (Sample.start ∅) in
  chouSet (domainSet w') = chouSet (domainSet (Sample.start ∅)).
Proof.
  refine (proj1 (proj2 (proj2 (proj2 (proj2 (proj2
    (learning_frame Sample.persistBoth Sample.HostIsIP
       [recordBlocked 0 Sample.xCom; recordDirect Sample.aCom]
       (Sample.start ∅))))))) _).
  reflexivity.
Defined.

Lemma dirty_flags_sound_witness :
  let w' := exec (runRecords Sample.persistBoth Sample.HostIsIP
                    [recordDirect Sample.aCom]) Sample.dirtyBlocked in
  blockedChanged (domainSet w') = true.
Proof.
  refine (proj1 (dirty_flags_sound Sample.persistBoth Sample.HostIsIP
                   [recordDirect Sample.aCom] Sample.dirtyBlocked) _).
  vm_compute. reflexivity.
Defined.

Lemma always_names_never_learned_witness :
  let host := {| Domain := "www.a.com"; Host := "www.a.com";
                 HostPort := "www.a.com:443" |} in
  let w' := exec (runRecords Sample.persistBoth Sample.HostIsIP
                    [recordBlocked 0 host]) Sample.hostDirectDomainBlocked in
  ParaDmSet.has (blocked (domainSet w')) "www.a.com" = false.
Proof.
  refine (proj1 (always_names_never_learned Sample.persistBoth
                   Sample.HostIsIP
                   [recordBlocked 0 {| Domain := "www.a.com";
                                       Host := "www.a.com";
                                       HostPort := "www.a.com:443" |}]
                   "www.a.com" Sample.hostDirectDomainBlocked) _ _).
  - vm_compute. reflexivity.
  - vm_compute. reflexivity.
Defined.

Lemma recorded_block_is_blocked_witness :
  let m := addBlockedURL Sample.persistBoth Sample.HostIsIP 0 Sample.xCom in
  isURLBlocked true Sample.splitHostPort
    (domainSet (exec m (Sample.start ∅))) 0 Sample.xCom = Some true.
Proof.
  refine (recorded_block_is_blocked Sample.persistBoth Sample.HostIsIP true
            Sample.splitHostPort 0 Sample.xCom (Sample.start ∅) _ _ _).
  - split; vm_compute; reflexivity.
  - vm_compute. reflexivity.
  - vm_compute. reflexivity.
Defined.

Lemma recorded_direct_is_direct_witness :
  let m := addDirectURL Sample.persistBoth Sample.HostIsIP Sample.aCom in
  isURLDirect true Sample.splitHostPort
    (domainSet (exec m (Sample.start ∅))) Sample.aCom = Some true.
Proof.
  refine (recorded_direct_is_direct Sample.persistBoth Sample.HostIsIP true
            Sample.splitHostPort Sample.aCom (Sample.start ∅) _ _).
  - split; vm_compute; reflexivity.
  - vm_compute. reflexivity.
Defined.

Lemma load_separates_sets_witness :
  let ds2 := domainSet (exec (load Sample.dsFile)
                          (Sample.start Sample.staleFiles)) in
  dmIndex (blocked ds2) "a.com" = false ∧ dmIndex (direct ds2) "a.com" = false.
Proof.
  refine (proj1 (load_separates_sets Sample.dsFile
                   (Sample.start Sample.staleFiles) "a.com") _).
  left. exists true. vm_compute. reflexivity.
Defined.

Lemma maps_hold_true_witness :
  let m := load Sample.dsFile;;
           runRecords Sample.persistBoth Sample.HostIsIP
             [recordBlocked 0 Sample.xCom] in
  dsAllTrue (domainSet (exec m (Sample.start Sample.staleFiles))).
Proof.
  refine (proj1 (proj2 (maps_hold_true Sample.persistBoth Sample.HostIsIP
                          Sample.dsFile [recordBlocked 0 Sample.xCom]
                          (Sample.start Sample.staleFiles)) _)).
  unfold dsAllTrue. split_and!; apply dmAllTrue_empty.
Defined.

Lemma load_frame_witness :
  logged (exec (load Sample.dsFile) (Sample.start Sample.staleFiles)) = [].
Proof.
  destruct (load_frame Sample.dsFile (Sample.start Sample.staleFiles))
    as (_ & _ & _ & _ & new & Hl & _ & Hn).
  rewrite Hl, Hn; [reflexivity|].
  intros k [v Hv]. vm_compute in Hv. discriminate Hv.
Defined.

Lemma load_at_startup_witness :
  let ds2 := domainSet (exec (load Sample.dsFile)
                          (Sample.start Sample.staleFiles)) in
  ParaDmSet.has (blocked ds2) "c.com" = true
  ∧ ParaDmSet.has (blocked ds2) "a.com" = false.
Proof.
  split.
  - refine (proj1 (load_at_startup Sample.dsFile
                     (Sample.start Sample.staleFiles) "c.com" _)).
    reflexivity.
  - refine (proj1 (load_at_startup Sample.dsFile
                     (Sample.start Sample.staleFiles) "a.com" _)).
    reflexivity.
Defined.

Lemma storeDomainList_frame_witness :
  let w := Sample.start Sample.staleFiles in
  storeDomainList Sample.dsFile LF false (Some ErrExist) Sample.path_Join
    "/home/u/.cow/blocked" ["x.com"] w
  = (Some ErrExist, w).
Proof.
  refine (proj1 (proj2 (proj2
    (storeDomainList_frame Sample.dsFile LF false (Some ErrExist)
       Sample.path_Join "/home/u/.cow/blocked" ["x.com"]
       (Sample.start Sample.staleFiles)))) _).
  exists ErrExist. reflexivity.
Defined.

Lemma loadFromFile_outcome_witness :
  let m := ParaDmSet.add "x.com" newDmSet in
  (eval (loadFromFile "/home/u/.cow/direct" m)
     (Sample.start Sample.staleFiles)).1 = m.
Proof.
  refine (proj2 (proj2 (proj2
    (loadFromFile_outcome "/home/u/.cow/direct"
       (ParaDmSet.add "x.com" newDmSet) (Sample.start Sample.staleFiles)
       "x.com"))) _).
  vm_compute. reflexivity.
Defined.

Lemma set_store_load_roundtrip_witness :
  let m := ParaDmSet.add "x.com" (ParaDmSet.add "a.com" newDmSet) in
  let w' := exec (storeDomainList Sample.dsFile LF false None
                    Sample.path_Join "/home/u/.cow/blocked" (toSlice m))
              (Sample.start ∅) in
  eval (loadFromFile "/home/u/.cow/blocked" newDmSet) w' = (m, None).
Proof.
  refine (set_store_load_roundtrip Sample.dsFile LF false None
            Sample.path_Join "/home/u/.cow/blocked"
            (ParaDmSet.add "x.com" (ParaDmSet.add "a.com" newDmSet))
            (Sample.start ∅) _ _ _ _).
  - left. reflexivity.
  - apply dmAllTrue_insert, dmAllTrue_insert, dmAllTrue_empty.
  - apply Forall_forall. intros k Hk.
    apply elem_of_rangeKeys in Hk as [v Hk].
    unfold ParaDmSet.add in Hk.
    apply lookup_insert_Some in Hk as [[<- _]|[_ Hk]].
    { split; [discriminate|split;
              [reflexivity|simpl; repeat split; discriminate]]. }
    apply lookup_insert_Some in Hk as [[<- _]|[_ Hk]].
    { split; [discriminate|split;
              [reflexivity|simpl; repeat split; discriminate]]. }
    discriminate Hk.
  - vm_compute. reflexivity.
Defined.

Lemma classifier_consistent_witness :
  let m := load Sample.dsFile;;
           runRecords Sample.persistBoth Sample.HostIsIP
             [recordBlocked 0 Sample.xCom; recordDirect Sample.xCom] in
  ¬ inBothLearned (domainSet (exec m (Sample.start Sample.staleFiles)))
      "x.com".
Proof.
  refine (proj1 (classifier_consistent Sample.persistBoth Sample.HostIsIP
                   Sample.dsFile
                   [recordBlocked 0 Sample.xCom; recordDirect Sample.xCom]
                   (Sample.start Sample.staleFiles) "x.com" _)).
  unfold dsAllTrue. split_and!; apply dmAllTrue_empty.
Defined.

Lemma store_restart_load_witness :
  let w := exec (addDirectURL Sample.persistBoth Sample.HostIsIP Sample.aCom)
             Sample.dirtyBlocked in
  let w' := exec (store Sample.persistBoth Sample.dsFile LF false None
                    Sample.path_Join) w in
  let ds2 := domainSet (exec (load Sample.dsFile) (Sample.start (files w'))) in
  ParaDmSet.has (blocked ds2) "x.com"
  = ParaDmSet.has (blocked (domainSet w)) "x.com"
  ∧ ParaDmSet.has (direct ds2) "a.com"
    = ParaDmSet.has (direct (domainSet w)) "a.com".
Proof.
  split.
  - refine (proj1 (proj2 (proj2
      (store_restart_load Sample.persistBoth Sample.dsFile LF false None
         Sample.path_Join
         (exec (addDirectURL Sample.persistBoth Sample.HostIsIP Sample.aCom)
            Sample.dirtyBlocked)
         (Sample.start
            (files
               (exec (store Sample.persistBoth Sample.dsFile LF false None
                        Sample.path_Join)
                  (exec (addDirectURL Sample.persistBoth Sample.HostIsIP
                           Sample.aCom) Sample.dirtyBlocked))))
         "x.com" _ _ _ _ _ _ _ _ _ _ _)) _ _ _ _ _)).
    + left. reflexivity.
    + reflexivity.
    + reflexivity.
    + reflexivity.
    + vm_compute. reflexivity.
    + vm_compute. reflexivity.
    + apply (bool_decide_unpack _). vm_compute. exact I.
    + assert (toSlice (blocked (domainSet
                (exec (addDirectURL Sample.persistBoth Sample.HostIsIP
                         Sample.aCom) Sample.dirtyBlocked))) = ["x.com"])
        as -> by (vm_compute; reflexivity).
      apply Forall_cons_2; [|apply Forall_nil_2].
      split; [discriminate|split;
              [reflexivity|simpl; repeat split; discriminate]].
    + assert (toSlice (direct (domainSet
                (exec (addDirectURL Sample.persistBoth Sample.HostIsIP
                         Sample.aCom) Sample.dirtyBlocked))) = ["a.com"])
        as -> by (vm_compute; reflexivity).
      apply Forall_cons_2; [|apply Forall_nil_2].
      split; [discriminate|split;
              [reflexivity|simpl; repeat split; discriminate]].
    + reflexivity.
    + reflexivity.
    + vm_compute. reflexivity.
    + vm_compute. reflexivity.
    + apply not_elem_of_nil.
    + apply not_elem_of_nil.
    + intros [_ H]. vm_compute in H. discriminate H.
  - refine (proj2 (proj2 (proj2
      (store_restart_load Sample.persistBoth Sample.dsFile LF false None
         Sample.path_Join
         (exec (addDirectURL Sample.persistBoth Sample.HostIsIP Sample.aCom)
            Sample.dirtyBlocked)
         (Sample.start
            (files
               (exec (store Sample.persistBoth Sample.dsFile LF false None
                        Sample.path_Join)
                  (exec (addDirectURL Sample.persistBoth Sample.HostIsIP
                           Sample.aCom) Sample.dirtyBlocked))))
         "a.com" _ _ _ _ _ _ _ _ _ _ _)) _ _ _ _ _)).
    + left. reflexivity.
    + reflexivity.
    + reflexivity.
    + reflexivity.
    + vm_compute. reflexivity.
    + vm_compute. reflexivity.
    + apply (bool_decide_unpack _). vm_compute. exact I.
    + assert (toSlice (blocked (domainSet
                (exec (addDirectURL Sample.persistBoth Sample.HostIsIP
                         Sample.aCom) Sample.dirtyBlocked))) = ["x.com"])
        as -> by (vm_compute; reflexivity).
      apply Forall_cons_2; [|apply Forall_nil_2].
      split; [discriminate|split;
              [reflexivity|simpl; repeat split; discriminate]].
    + assert (toSlice (direct (domainSet
                (exec (addDirectURL Sample.persistBoth Sample.HostIsIP
                         Sample.aCom) Sample.dirtyBlocked))) = ["a.com"])
        as -> by (vm_compute; reflexivity).
      apply Forall_cons_2; [|apply Forall_nil_2].
      split; [discriminate|split;
              [reflexivity|simpl; repeat split; discriminate]].
    + reflexivity.
    + reflexivity.
    + vm_compute. reflexivity.
    + vm_compute. reflexivity.
    + apply not_elem_of_nil.
    + apply not_elem_of_nil.
    + intros [H _]. vm_compute in H. discriminate H.
Defined.

(** A seed list counts at the restart: [k.com] was learned direct and
    stored, the restarted program seeds it as blocked, and [load] makes it
    learned blocked and not learned direct. *)
Example restart_seed_overrides_learned :
  let kCom := {| Domain := "k.com"; Host := "k.com";
                 HostPort := "k.com:80" |} in
  let w := exec (addDirectURL Sample.persistBoth Sample.HostIsIP kCom)
             Sample.dirtyBlocked in
  let w' := exec (store Sample.persistBoth Sample.dsFile LF false None
                    Sample.path_Join) w in
  let w0 := {| domainSet := newDomainSet; files := files w'; logged := [];
               blockedDomainList := ["k.com"]; directDomainList := [] |} in
  let ds2 := domainSet (exec (load Sample.dsFile) w0) in
  ParaDmSet.has (direct (domainSet w)) "k.com" = true
  ∧ ParaDmSet.has (blocked (domainSet w)) "k.com" = false
  ∧ files w' !! dsDirect Sample.dsFile = Some "k.com"
  ∧ ParaDmSet.has (blocked ds2) "k.com" = true
  ∧ ParaDmSet.has (direct ds2) "k.com" = false.
Proof. split_and!; vm_compute; reflexivity. Qed.
